(** * Takuezy Housing API: a shallow embedding of [main.py] and [schemas.py]

    The handlers of [main.py] are embedded as functions in a small
    state-and-exception monad over an explicit document store.  Python
    [float]s are IEEE binary64 numbers ([spec_float] at precision 53),
    MongoDB query documents are a small syntax with their matching
    semantics, and signed tokens are kept symbolic (claims, key, algorithm). *)

From Stdlib Require Import ZArith NArith List String Ascii Bool Lia.
From Stdlib Require Import Rbase Rfunctions Lra.
From Stdlib Require Import Floats.SpecFloat.
Import ListNotations.

Set Warnings "-register-all".
Local Open Scope string_scope.

(* ================================================================== *)
(** * Python values used by the handlers *)

Module Py.

(** ** [float]: IEEE 754 binary64 *)

Definition prec : Z := 53.
Definition emax : Z := 1024.

Definition float := spec_float.

Definition fmul : float -> float -> float := SFmul prec emax.
Definition fadd : float -> float -> float := SFadd prec emax.
Definition fsub : float -> float -> float := SFsub prec emax.
Definition fdiv : float -> float -> float := SFdiv prec emax.

(** [x <= y] and [x == y] on floats; every comparison with a NaN is false. *)
Definition fle : float -> float -> bool := SFleb.
Definition feq : float -> float -> bool := SFeqb.

(** The float nearest to an integer. *)
Definition of_Z (n : Z) : float := binary_normalize prec emax n 0 false.

(** A decimal literal [n / 10^k], correctly rounded (both operands of the
    division are exact for the literals used here). *)
Definition decimal (n k : Z) : float := fdiv (of_Z n) (of_Z (10 ^ k)).

(** ** [round(x, ndigits)] on a float

    CPython prints the exact binary value of [x] with [ndigits] digits
    after the point, rounding half to even, and reads the decimal string
    back as the nearest float.  Non-finite values round to themselves. *)

Definition round_half_even (num den : Z) : Z :=
  let q := (num / den)%Z in
  let r := (num mod den)%Z in
  match (2 * r ?= den)%Z with
  | Lt => q
  | Gt => (q + 1)%Z
  | Eq => if Z.even q then q else (q + 1)%Z
  end.

Definition round (x : float) (ndigits : Z) : float :=
  match x with
  | S754_finite s m e =>
      if (0 <=? e)%Z then x
      else
        let scale := (10 ^ ndigits)%Z in
        match round_half_even (Z.pos m * scale) (2 ^ (- e)) with
        | Zpos n => SFdiv prec emax (S754_finite s n 0) (of_Z scale)
        | _ => S754_zero s
        end
  | _ => x
  end.

(** ** Truthiness of an optional string: [None] and [""] are false. *)
Definition truthy (o : option string) : bool :=
  match o with
  | Some s => negb (s =? "")
  | None => false
  end.

End Py.

(* ================================================================== *)
(** * The real numbers that floats stand for *)

Module FloatValue.
Import Py.

(** [2^e] for an integer exponent, and the value [m * 2^e]. *)
Definition bpow (e : Z) : R := powerRZ 2 e.
Definition F2R (m e : Z) : R := (IZR m * bpow e)%R.

(** [x], measured in units of the last place, lies where the record says:
    at [m], between [m] and the midpoint, at the midpoint, or above it. *)
Definition located (x : R) (mrs : shr_record) : Prop :=
  match shr_r mrs, shr_s mrs with
  | false, false => x = IZR (shr_m mrs)
  | false, true => (IZR (shr_m mrs) < x < IZR (shr_m mrs) + 1 / 2)%R
  | true, false => x = (IZR (shr_m mrs) + 1 / 2)%R
  | true, true => (IZR (shr_m mrs) + 1 / 2 < x < IZR (shr_m mrs) + 1)%R
  end.

(** A positive float with a full 53-bit mantissa, and its value. *)
Definition nf (x : float) (v : R) : Prop :=
  exists (m : positive) (e : Z),
    x = S754_finite false m e /\ (2 ^ 52 <= Z.pos m < 2 ^ 53)%Z
    /\ v = F2R (Z.pos m) e.

End FloatValue.

(* ================================================================== *)
(** * [bson.ObjectId] *)

Module Bson.

(** A 12-byte identifier, kept as its 96-bit value.  [ObjectId] also
    lets through byte strings of fewer than 12 bytes (see below); such an
    identifier, which no stored document carries, is kept above [2^96]
    with its length, so that it differs from every 12-byte one. *)
Definition oid := N.

Definition hex_val (c : ascii) : option N :=
  let n := N_of_ascii c in
  if ((48 <=? n) && (n <=? 57))%N then Some (n - 48)%N
  else if ((97 <=? n) && (n <=? 102))%N then Some (n - 87)%N
  else if ((65 <=? n) && (n <=? 70))%N then Some (n - 55)%N
  else None.

(** ASCII whitespace: space, tab, line feed, vertical tab, form feed and
    carriage return. *)
Definition is_space (c : ascii) : bool :=
  let n := N_of_ascii c in
  (((9 <=? n) && (n <=? 13)) || (n =? 32))%N.

(** [bytes.fromhex(s)]: two hexadecimal digits per byte; ASCII whitespace
    is skipped before each byte, not between the two digits of one. *)
Fixpoint fromhex (s : string) : option (list N) :=
  match s with
  | EmptyString => Some []
  | String c rest =>
      if is_space c then fromhex rest
      else
        match hex_val c, rest with
        | Some hi, String c' rest' =>
            match hex_val c' with
            | Some lo => option_map (cons (16 * hi + lo)%N) (fromhex rest')
            | None => None
            end
        | _, _ => None
        end
  end.

(** The identifier with the given bytes, most significant first. *)
Definition of_bytes (bs : list N) : oid :=
  let v := fold_left (fun acc b => (256 * acc + b)%N) bs 0%N in
  if Nat.eqb (List.length bs) 12 then v
  else (2 ^ 96 * N.of_nat (12 - List.length bs) + v)%N.

(** [ObjectId(s)] for a string: [s] must have 24 characters and
    [bytes.fromhex] must read it, else [InvalidId].  With whitespace among
    the 24 characters fewer than 12 bytes are read. *)
Definition ObjectId (s : string) : option oid :=
  if Nat.eqb (String.length s) 24 then option_map of_bytes (fromhex s) else None.

Definition hex_digit (d : N) : ascii :=
  ascii_of_N (if (d <? 10)%N then 48 + d else 87 + d)%N.

Fixpoint tohex (digits : nat) (n : N) (acc : string) : string :=
  match digits with
  | O => acc
  | S k => tohex k (n / 16)%N (String (hex_digit (n mod 16)%N) acc)
  end.

(** [str(oid)] of a 12-byte identifier: 24 lower-case hexadecimal digits. *)
Definition str (o : oid) : string := tohex 24 o "".

End Bson.

(* ================================================================== *)
(** * Documents and MongoDB queries *)

Module Mongo.
Import Py Bson.

(** BSON values stored in the documents of this application. *)
Inductive value :=
| VNull
| VBool (b : bool)
| VStr (s : string)
| VNum (x : float)
| VOid (o : oid)
| VDate (t : Z)
| VList (l : list value)
| VDoc (d : list (string * value)).

Definition dict := list (string * value).

Fixpoint dict_get (d : dict) (k : string) : option value :=
  match d with
  | [] => None
  | (k', v) :: rest => if k' =? k then Some v else dict_get rest k
  end.

(** [d[k] = v]: overwrite in place, or append a new key. *)
Fixpoint dict_set (d : dict) (k : string) (v : value) : dict :=
  match d with
  | [] => [(k, v)]
  | (k', v') :: rest =>
      if k' =? k then (k, v) :: rest else (k', v') :: dict_set rest k v
  end.

Fixpoint value_eqb (a b : value) {struct a} : bool :=
  match a, b with
  | VNull, VNull => true
  | VBool x, VBool y => Bool.eqb x y
  | VStr x, VStr y => (x =? y)
  | VNum x, VNum y => feq x y
  | VOid x, VOid y => (x =? y)%N
  | VDate x, VDate y => (x =? y)%Z
  | VList xs, VList ys =>
      (fix go (l1 l2 : list value) {struct l1} : bool :=
         match l1, l2 with
         | [], [] => true
         | x :: r1, y :: r2 => value_eqb x y && go r1 r2
         | _, _ => false
         end) xs ys
  | VDoc xs, VDoc ys =>
      (fix go (l1 l2 : list (string * value)) {struct l1} : bool :=
         match l1, l2 with
         | [], [] => true
         | (k1, x) :: r1, (k2, y) :: r2 => (k1 =? k2) && value_eqb x y && go r1 r2
         | _, _ => false
         end) xs ys
  | _, _ => false
  end.

(** The regular-expression engine of the server is external: a pattern,
    its options and a subject string. *)
Class RegexEngine := { regex_search : string -> string -> string -> bool }.

(** Conditions on one field of a query document. *)
Inductive cond :=
| Eq (v : value)                               (* {field: v} *)
| Range (gte lte : option float)               (* {field: {"$gte": a, "$lte": b}} *)
| Regex (pattern options : string)             (* {field: {"$regex": p, "$options": o}} *)
| ElemMatchRegex (pattern options : string).   (* {field: {"$elemMatch": {"$regex": ...}}} *)

(** An operator-free query document: every entry must hold; the empty
    document [{}] holds of every stored document. *)
Definition conj := list (string * cond).

Inductive clause :=
| Field (name : string) (c : cond)
| Or (alternatives : list conj).               (* {"$or": [ ... ]} *)

Definition query := list clause.

Section Matching.
Context {re : RegexEngine}.

Definition match_eq (stored : option value) (v : value) : bool :=
  match v, stored with
  | VNull, None => true
  | _, None => false
  | _, Some (VList l) => value_eqb (VList l) v || existsb (fun x => value_eqb x v) l
  | _, Some w => value_eqb w v
  end.

Definition match_range (stored : option value) (gte lte : option float) : bool :=
  match stored with
  | Some (VNum x) =>
      match gte with Some lo => fle lo x | None => true end
      && match lte with Some hi => fle x hi | None => true end
  | _ => false
  end.

Definition match_regex (stored : option value) (p o : string) : bool :=
  match stored with
  | Some (VStr s) => regex_search p o s
  | Some (VList l) =>
      existsb (fun x => match x with VStr s => regex_search p o s | _ => false end) l
  | _ => false
  end.

Definition match_elem_regex (stored : option value) (p o : string) : bool :=
  match stored with
  | Some (VList l) =>
      existsb (fun x => match x with VStr s => regex_search p o s | _ => false end) l
  | _ => false
  end.

Definition match_cond (d : dict) (field : string) (c : cond) : bool :=
  match c with
  | Eq v => match_eq (dict_get d field) v
  | Range gte lte => match_range (dict_get d field) gte lte
  | Regex p o => match_regex (dict_get d field) p o
  | ElemMatchRegex p o => match_elem_regex (dict_get d field) p o
  end.

Definition match_conj (d : dict) (q : conj) : bool :=
  forallb (fun fc => match_cond d (fst fc) (snd fc)) q.

Definition match_clause (d : dict) (c : clause) : bool :=
  match c with
  | Field f c => match_cond d f c
  | Or alts => existsb (match_conj d) alts
  end.

Definition matches (q : query) (d : dict) : bool :=
  forallb (match_clause d) q.

End Matching.

(** A stored document: the identifier assigned at insertion, the fields
    dumped from its model, and the [updated_at] stamp set by updates. *)
Record Stored (A : Type) := mkStored {
  _id : oid;
  fields : A;
  updated_at : option Z
}.
Arguments mkStored {A}.
Arguments _id {A}.
Arguments fields {A}.
Arguments updated_at {A}.

Definition with_fields {A} (f : A -> A) (now : Z) (s : Stored A) : Stored A :=
  mkStored (_id s) (f (fields s)) (Some now).

(** The dictionary view of a stored document, as a query sees it. *)
Definition to_dict {A} (dump : A -> dict) (s : Stored A) : dict :=
  ("_id", VOid (_id s)) :: dump (fields s)
  ++ match updated_at s with Some t => [("updated_at", VDate t)] | None => [] end.

Fixpoint update_first {A} (p : A -> bool) (f : A -> A) (l : list A) : list A :=
  match l with
  | [] => []
  | x :: rest => if p x then f x :: rest else x :: update_first p f rest
  end.

End Mongo.

(* ================================================================== *)
(** * [schemas.py]: the models behind the collections

    Building a model validates its fields; [None] stands for pydantic's
    [ValidationError]. *)

Module Schemas.
Import Py Bson Mongo.

Definition opt_str (o : option string) : value :=
  match o with Some s => VStr s | None => VNull end.

Definition str_list (l : list string) : value := VList (map VStr l).

(** pydantic validates in lax mode: a [float] field takes a number as it
    is and also converts some values that are not numbers, such as a
    string that reads as a number.  That conversion belongs to the
    library and is a parameter here. *)
Class LaxFloat := { float_of_value : value -> option float }.

Definition lax_float `{LaxFloat} (v : value) : option float :=
  match v with
  | VNum x => Some x
  | _ => float_of_value v
  end.

Module Location.
Record t := { lat : float; lng : float; address : option string }.

(** Built from the request's [dict]: [lat] and [lng] are required and
    must convert to floats, [address] is an optional string; other keys
    are ignored. *)
Definition validate `{LaxFloat} (d : dict) : option t :=
  match dict_get d "lat", dict_get d "lng" with
  | Some vla, Some vlo =>
      match lax_float vla, lax_float vlo with
      | Some la, Some lo =>
          match dict_get d "address" with
          | None | Some VNull => Some {| lat := la; lng := lo; address := None |}
          | Some (VStr a) => Some {| lat := la; lng := lo; address := Some a |}
          | Some _ => None
          end
      | _, _ => None
      end
  | _, _ => None
  end.

Definition model_dump (l : t) : dict :=
  [("lat", VNum (lat l)); ("lng", VNum (lng l)); ("address", opt_str (address l))].
End Location.

Module User.
Inductive Role := Tenant | Landlord | LodgeOwner | Admin.

Definition Role_str (r : Role) : string :=
  match r with
  | Tenant => "tenant" | Landlord => "landlord"
  | LodgeOwner => "lodge_owner" | Admin => "admin"
  end.

Definition Role_of (s : string) : option Role :=
  if s =? "tenant" then Some Tenant
  else if s =? "landlord" then Some Landlord
  else if s =? "lodge_owner" then Some LodgeOwner
  else if s =? "admin" then Some Admin
  else None.

Record t := {
  full_name : string;
  role : Role;
  email : option string;
  phone : option string;
  national_id : string;
  password_hash : string;
  is_approved : bool;
  id_verified : bool
}.

Definition new (full_name role : string) (email phone : option string)
    (national_id password_hash : string) : option t :=
  match Role_of role with
  | Some r => Some {| full_name := full_name; role := r; email := email;
                      phone := phone; national_id := national_id;
                      password_hash := password_hash;
                      is_approved := false; id_verified := false |}
  | None => None
  end.

Definition model_dump (u : t) : dict :=
  [("full_name", VStr (full_name u)); ("role", VStr (Role_str (role u)));
   ("email", opt_str (email u)); ("phone", opt_str (phone u));
   ("national_id", VStr (national_id u));
   ("password_hash", VStr (password_hash u));
   ("is_approved", VBool (is_approved u)); ("id_verified", VBool (id_verified u))].

Definition set_is_approved (b : bool) (u : t) : t :=
  {| full_name := full_name u; role := role u; email := email u; phone := phone u;
     national_id := national_id u; password_hash := password_hash u;
     is_approved := b; id_verified := id_verified u |}.

Definition set_id_verified (b : bool) (u : t) : t :=
  {| full_name := full_name u; role := role u; email := email u; phone := phone u;
     national_id := national_id u; password_hash := password_hash u;
     is_approved := is_approved u; id_verified := b |}.
End User.

Module Listing.
Inductive PricingType := Monthly | Daily | Hourly.
Inductive PropertyType := House | Room | Apartment | LodgeRoom | Other.

Definition PricingType_str (p : PricingType) : string :=
  match p with Monthly => "monthly" | Daily => "daily" | Hourly => "hourly" end.

Definition PricingType_of (s : string) : option PricingType :=
  if s =? "monthly" then Some Monthly
  else if s =? "daily" then Some Daily
  else if s =? "hourly" then Some Hourly
  else None.

Definition PropertyType_str (p : PropertyType) : string :=
  match p with
  | House => "house" | Room => "room" | Apartment => "apartment"
  | LodgeRoom => "lodge_room" | Other => "other"
  end.

Definition PropertyType_of (s : string) : option PropertyType :=
  if s =? "house" then Some House
  else if s =? "room" then Some Room
  else if s =? "apartment" then Some Apartment
  else if s =? "lodge_room" then Some LodgeRoom
  else if s =? "other" then Some Other
  else None.

Record t := {
  owner_id : string;
  title : string;
  description : option string;
  price : float;
  pricing_type : PricingType;
  property_type : PropertyType;
  facilities : list string;
  media_urls : list string;
  location : Location.t;
  is_available : bool
}.

(** [price] carries the constraint [ge=0]; a NaN fails it. *)
Definition new `{LaxFloat} (owner_id title : string) (description : option string)
    (price : float) (pricing_type property_type : string)
    (facilities media_urls : list string) (location : dict)
    (is_available : bool) : option t :=
  match PricingType_of pricing_type, PropertyType_of property_type,
        Location.validate location with
  | Some pt, Some ty, Some loc =>
      if fle (of_Z 0) price then
        Some {| owner_id := owner_id; title := title; description := description;
                price := price; pricing_type := pt; property_type := ty;
                facilities := facilities; media_urls := media_urls;
                location := loc; is_available := is_available |}
      else None
  | _, _, _ => None
  end.

Definition model_dump (l : t) : dict :=
  [("owner_id", VStr (owner_id l)); ("title", VStr (title l));
   ("description", opt_str (description l)); ("price", VNum (price l));
   ("pricing_type", VStr (PricingType_str (pricing_type l)));
   ("property_type", VStr (PropertyType_str (property_type l)));
   ("facilities", str_list (facilities l)); ("media_urls", str_list (media_urls l));
   ("location", VDoc (Location.model_dump (location l)));
   ("is_available", VBool (is_available l))].

Definition set_is_available (b : bool) (l : t) : t :=
  {| owner_id := owner_id l; title := title l; description := description l;
     price := price l; pricing_type := pricing_type l;
     property_type := property_type l; facilities := facilities l;
     media_urls := media_urls l; location := location l; is_available := b |}.
End Listing.

Module Application.
Inductive Status := Pending | Approved | Rejected.

Definition Status_str (s : Status) : string :=
  match s with Pending => "pending" | Approved => "approved" | Rejected => "rejected" end.

Record t := {
  listing_id : string;
  tenant_id : string;
  message : option string;
  national_id : string;
  status : Status
}.

Definition new (listing_id tenant_id : string) (message : option string)
    (national_id : string) : t :=
  {| listing_id := listing_id; tenant_id := tenant_id; message := message;
     national_id := national_id; status := Pending |}.

Definition model_dump (a : t) : dict :=
  [("listing_id", VStr (listing_id a)); ("tenant_id", VStr (tenant_id a));
   ("message", opt_str (message a)); ("national_id", VStr (national_id a));
   ("status", VStr (Status_str (status a)))].

Definition set_status (s : Status) (a : t) : t :=
  {| listing_id := listing_id a; tenant_id := tenant_id a; message := message a;
     national_id := national_id a; status := s |}.
End Application.

Module Payment.
Inductive Method := Ecocash | Paynow.
Inductive Status := Initiated | Successful | Failed.

Definition Method_str (m : Method) : string :=
  match m with Ecocash => "ecocash" | Paynow => "paynow" end.

Definition Method_of (s : string) : option Method :=
  if s =? "ecocash" then Some Ecocash
  else if s =? "paynow" then Some Paynow
  else None.

Definition Status_str (s : Status) : string :=
  match s with
  | Initiated => "initiated" | Successful => "successful" | Failed => "failed"
  end.

Record t := {
  listing_id : string;
  tenant_id : string;
  owner_id : string;
  amount : float;
  method : Method;
  platform_fee : float;
  owner_amount : float;
  status : Status;
  receipt_id : option string
}.

(** [amount] carries the constraint [ge=0]. *)
Definition new (listing_id tenant_id owner_id : string) (amount : float)
    (method : string) (platform_fee owner_amount : float) (status : Status)
    (receipt_id : option string) : option t :=
  match Method_of method with
  | Some m =>
      if fle (of_Z 0) amount then
        Some {| listing_id := listing_id; tenant_id := tenant_id;
                owner_id := owner_id; amount := amount; method := m;
                platform_fee := platform_fee; owner_amount := owner_amount;
                status := status; receipt_id := receipt_id |}
      else None
  | None => None
  end.

Definition model_dump (p : t) : dict :=
  [("listing_id", VStr (listing_id p)); ("tenant_id", VStr (tenant_id p));
   ("owner_id", VStr (owner_id p)); ("amount", VNum (amount p));
   ("method", VStr (Method_str (method p)));
   ("platform_fee", VNum (platform_fee p)); ("owner_amount", VNum (owner_amount p));
   ("status", VStr (Status_str (status p))); ("receipt_id", opt_str (receipt_id p))].

Definition set_receipt_id (r : string) (p : t) : t :=
  {| listing_id := listing_id p; tenant_id := tenant_id p; owner_id := owner_id p;
     amount := amount p; method := method p; platform_fee := platform_fee p;
     owner_amount := owner_amount p; status := status p; receipt_id := Some r |}.
End Payment.

Module Receipt.
Record t := {
  payment_id : string;
  total : float;
  owner_amount : float;
  platform_fee : float;
  payee_phone : option string;
  reference : string
}.

Definition model_dump (r : t) : dict :=
  [("payment_id", VStr (payment_id r)); ("total", VNum (total r));
   ("owner_amount", VNum (owner_amount r)); ("platform_fee", VNum (platform_fee r));
   ("payee_phone", opt_str (payee_phone r)); ("reference", VStr (reference r))].
End Receipt.

End Schemas.

(* ================================================================== *)
(** * The document store and the handlers' monad *)

Module Database.
Import Py Bson Mongo Schemas.

Record DB := {
  user : list (Stored User.t);
  listing : list (Stored Listing.t);
  application : list (Stored Application.t);
  payment : list (Stored Payment.t);
  receipt : list (Stored Receipt.t);
  next_id : oid
}.

(** How a handler ends: a value, an [HTTPException], or an exception
    nobody catches (the framework answers 500). *)
Inductive outcome (A : Type) :=
| Return (a : A)
| HTTPException (status_code : Z) (detail : string)
| Uncaught (exception : string).
Arguments Return {A}.
Arguments HTTPException {A}.
Arguments Uncaught {A}.

(** Writes made before an exception stay in the store: nothing rolls back. *)
Definition M (A : Type) := DB -> outcome A * DB.

Definition ret {A} (a : A) : M A := fun db => (Return a, db).

Definition bind {A B} (m : M A) (k : A -> M B) : M B :=
  fun db =>
    match m db with
    | (Return a, db') => k a db'
    | (HTTPException c d, db') => (HTTPException c d, db')
    | (Uncaught e, db') => (Uncaught e, db')
    end.

Definition raise {A} (status_code : Z) (detail : string) : M A :=
  fun db => (HTTPException status_code detail, db).

Definition throw {A} (exception : string) : M A :=
  fun db => (Uncaught exception, db).

(** [try: m except Exception: h] -- [HTTPException] is an [Exception] too. *)
Definition try_except {A} (m : M A) (h : M A) : M A :=
  fun db =>
    match m db with
    | (Return a, db') => (Return a, db')
    | (_, db') => h db'
    end.

(** The value of a model constructor, or [ValidationError]. *)
Definition validated {A} (o : option A) : M A :=
  match o with Some a => ret a | None => throw "ValidationError" end.

(** [ObjectId(s)], or [InvalidId]. *)
Definition object_id (s : string) : M oid :=
  match ObjectId s with Some o => ret o | None => throw "InvalidId" end.

(** A named collection: where its documents live in the store and how
    its model dumps to a dictionary. *)
Record Collection (A : Type) := {
  docs : DB -> list (Stored A);
  put : list (Stored A) -> DB -> DB;
  dump : A -> dict
}.
Arguments docs {A}.
Arguments put {A}.
Arguments dump {A}.

Definition bump (db : DB) : DB :=
  {| user := user db; listing := listing db; application := application db;
     payment := payment db; receipt := receipt db; next_id := N.succ (next_id db) |}.

Definition user_c : Collection User.t :=
  {| docs := user;
     put := fun l db =>
       {| user := l; listing := listing db; application := application db;
          payment := payment db; receipt := receipt db; next_id := next_id db |};
     dump := User.model_dump |}.

Definition listing_c : Collection Listing.t :=
  {| docs := listing;
     put := fun l db =>
       {| user := user db; listing := l; application := application db;
          payment := payment db; receipt := receipt db; next_id := next_id db |};
     dump := Listing.model_dump |}.

Definition application_c : Collection Application.t :=
  {| docs := application;
     put := fun l db =>
       {| user := user db; listing := listing db; application := l;
          payment := payment db; receipt := receipt db; next_id := next_id db |};
     dump := Application.model_dump |}.

Definition payment_c : Collection Payment.t :=
  {| docs := payment;
     put := fun l db =>
       {| user := user db; listing := listing db; application := application db;
          payment := l; receipt := receipt db; next_id := next_id db |};
     dump := Payment.model_dump |}.

Definition receipt_c : Collection Receipt.t :=
  {| docs := receipt;
     put := fun l db =>
       {| user := user db; listing := listing db; application := application db;
          payment := payment db; receipt := l; next_id := next_id db |};
     dump := Receipt.model_dump |}.

(** The stored document of [c] with identifier [o], if any. *)
Definition get {A} (c : Collection A) (o : oid) (db : DB) : option (Stored A) :=
  find (fun s => (_id s =? o)%N) (docs c db).

Section Driver.
Context {re : RegexEngine}.

Definition selects {A} (c : Collection A) (q : query) (s : Stored A) : bool :=
  matches q (to_dict (dump c) s).

(** [db[c].find_one(q)]: the first stored document that [q] matches. *)
Definition find_one {A} (c : Collection A) (q : query) : M (option (Stored A)) :=
  fun db => (Return (find (selects c q) (docs c db)), db).

(** [db[c].update_one(q, {"$set": ...})]: patch the first match, if any. *)
Definition update_one {A} (c : Collection A) (q : query)
    (patch : Stored A -> Stored A) : M unit :=
  fun db => (Return tt, put c (update_first (selects c q) patch (docs c db)) db).

(** Modelled from the spec: [create_document] of [database.py], which is
    not among the sources.  It assigns a new unique identifier, stores the
    document and returns the identifier as a string. *)
Definition create_document {A} (c : Collection A) (doc : A) : M string :=
  fun db =>
    let i := next_id db in
    (Return (Bson.str i), bump (put c (docs c db ++ [mkStored i doc None]) db)).

(** Modelled from the spec: [get_documents] of [database.py], which is
    not among the sources.  It returns the matching documents in storage
    order, at most [limit] of them. *)
Definition get_documents {A} (c : Collection A) (q : query) (limit : nat)
    : M (list dict) :=
  fun db =>
    (Return (map (to_dict (dump c)) (firstn limit (filter (selects c q) (docs c db)))),
     db).

End Driver.

End Database.

Declare Scope handler_scope.
Delimit Scope handler_scope with handler.
Notation "x <- m ;; k" := (Database.bind m (fun x => k))
  (at level 61, m at next level, right associativity) : handler_scope.
Notation "m ;;; k" := (Database.bind m (fun _ => k))
  (at level 61, right associativity) : handler_scope.

(* ================================================================== *)
(** * Signed tokens, kept symbolic *)

Module Jwt.
Import Mongo.

(** What [jwt.encode] binds together: the claims, the signing key and the
    algorithm.  Only a holder of the key can produce a token that
    [decode] accepts under that key. *)
Record token := { claims : dict; key : string; alg : string }.

(** The library refuses to sign or verify with an HMAC key that is empty
    or that looks like an asymmetric key (a PEM block, an SSH public
    key); the test for the latter is the library's own and a parameter
    here. *)
Class KeyFormat := { is_asymmetric : string -> bool }.

Definition usable `{KeyFormat} (k : string) : bool :=
  negb (k =? "") && negb (is_asymmetric k).

(** A [datetime] becomes a NumericDate: whole seconds since the epoch,
    the microseconds dropped.  The instant is kept in microseconds. *)
Definition numeric_date (t : Z) : Z := (t / 1000000 * 1000000)%Z.

(** [jwt.encode]: [None] stands for [InvalidKeyError].  An [exp] claim
    given as a [datetime] is stored as a NumericDate; the payloads of
    this application carry no other time claim. *)
Definition encode `{KeyFormat} (payload : dict) (k : string) (algorithm : string)
    : option token :=
  if usable k then
    Some {| claims := match dict_get payload "exp" with
                      | Some (VDate t) => dict_set payload "exp" (VDate (numeric_date t))
                      | _ => payload
                      end;
            key := k; alg := algorithm |}
  else None.

(** [jwt.decode]: the key must be usable, the signature must verify
    under [k] with an allowed algorithm and an [exp] claim must lie in
    the future.  [None] stands for the library's exceptions. *)
Definition decode `{KeyFormat} (t : token) (k : string) (algorithms : list string)
    (now : Z) : option dict :=
  if usable k && (key t =? k) && existsb (String.eqb (alg t)) algorithms then
    match dict_get (claims t) "exp" with
    | Some (VDate e) => if (now <? e)%Z then Some (claims t) else None
    | Some _ => None
    | None => Some (claims t)
    end
  else None.

End Jwt.

(* ================================================================== *)
(** * [main.py]: request models and handlers *)

Module Main.
Import Py Bson Mongo Schemas Database.
Local Open Scope handler_scope.

(** [passlib]'s context is external: hashing draws a salt, verification
    is a function of the password and the stored hash. *)
Class CryptContext := {
  ctx_hash : string -> string -> string;      (* salt, password *)
  ctx_verify : string -> string -> bool       (* password, hash *)
}.

Module Token.
Record t := { access_token : Jwt.token; token_type : string }.
Definition new (tok : Jwt.token) : t :=
  {| access_token := tok; token_type := "bearer" |}.
End Token.

Module RegisterRequest.
Record t := {
  full_name : string;
  role : string;
  email : option string;
  phone : option string;
  national_id : string;
  password : string
}.
End RegisterRequest.

Module ListingCreate.
Record t := {
  title : string;
  description : option string;
  price : float;
  pricing_type : string;
  property_type : string;
  facilities : list string;
  media_urls : list string;
  location : dict;
  is_available : bool
}.
End ListingCreate.

Module ApplicationCreate.
Record t := { listing_id : string; message : option string; national_id : string }.
End ApplicationCreate.

Module PaymentInit.
Record t := { listing_id : string; method : string }.
End PaymentInit.

Module PaymentResponse.
Record t := {
  payment_id : string;
  receipt_id : string;
  owner_amount : float;
  platform_fee : float
}.
End PaymentResponse.

Definition upper_ascii (c : ascii) : ascii :=
  let n := N_of_ascii c in
  if ((97 <=? n) && (n <=? 122))%N then ascii_of_N (n - 32) else c.

Fixpoint upper (s : string) : string :=
  match s with
  | EmptyString => EmptyString
  | String c rest => String (upper_ascii c) (upper rest)
  end.

(** [timedelta(minutes=m)] in microseconds, the resolution of [datetime]. *)
Definition timedelta_minutes (m : Z) : Z := (m * 60 * 1000000)%Z.

(** [current.get("role") in names] *)
Definition role_in (current : Stored User.t) (names : list string) : bool :=
  existsb (String.eqb (User.Role_str (User.role (fields current)))) names.

Definition is_admin (current : Stored User.t) : bool :=
  User.Role_str (User.role (fields current)) =? "admin".

Definition by_id (o : oid) : query := [Field "_id" (Eq (VOid o))].

(** [r["_id"] = str(r["_id"])] *)
Definition stringify_id (r : dict) : dict :=
  match dict_get r "_id" with
  | Some (VOid o) => dict_set r "_id" (VStr (Bson.str o))
  | _ => r
  end.

Section Handlers.
Context {re : RegexEngine} {pwd_context : CryptContext}.
Context {keys : Jwt.KeyFormat} {lax : LaxFloat}.

(** The process environment, read once at start-up. *)
Variable environ : string -> option string.

Definition getenv (name default : string) : string :=
  match environ name with Some v => v | None => default end.

Definition JWT_SECRET : string := getenv "JWT_SECRET" "devsecret".
Definition JWT_ALG : string := "HS256".

Definition hash_password (salt password : string) : string := ctx_hash salt password.

Definition verify_password (password password_hash : string) : bool :=
  ctx_verify password password_hash.

Definition create_token (data : dict) (expires_minutes : Z) (now : Z)
    : M Jwt.token :=
  let expire := (now + timedelta_minutes expires_minutes)%Z in
  let to_encode := dict_set data "exp" (VDate expire) in
  match Jwt.encode to_encode JWT_SECRET JWT_ALG with
  | Some token => ret token
  | None => throw "InvalidKeyError"
  end.

(** The default of [expires_minutes]. *)
Definition default_expiry : Z := (60 * 24)%Z.

Definition get_current_user (token : Jwt.token) (now : Z) : M (Stored User.t) :=
  try_except
    (payload <- match Jwt.decode token JWT_SECRET [JWT_ALG] now with
                | Some p => ret p
                | None => throw "InvalidTokenError"
                end ;;
     match dict_get payload "sub" with
     | Some (VStr user_id) =>
         if user_id =? "" then raise 401 "Invalid token"
         else
           o <- object_id user_id ;;
           found <- find_one user_c (by_id o) ;;
           match found with
           | Some u => ret u
           | None => raise 401 "User not found"
           end
     | Some _ => throw "TypeError"
     | None => raise 401 "Invalid token"
     end)
    (raise 401 "Could not validate credentials").

(** ** Auth endpoints *)

Definition register (body : RegisterRequest.t) (salt : string) (now : Z)
    : M Token.t :=
  let email := RegisterRequest.email body in
  let phone := RegisterRequest.phone body in
  if negb (truthy email) && negb (truthy phone) then
    raise 400 "Email or phone required"
  else
    existing <- find_one user_c
      [Or [ (if truthy email then [("email", Eq (opt_str email))] else []);
            (if truthy phone then [("phone", Eq (opt_str phone))] else []);
            [("national_id", Eq (VStr (RegisterRequest.national_id body)))] ]] ;;
    match existing with
    | Some _ => raise 400 "User already exists"
    | None =>
        user_doc <- validated
          (User.new (RegisterRequest.full_name body) (RegisterRequest.role body)
             email phone (RegisterRequest.national_id body)
             (hash_password salt (RegisterRequest.password body))) ;;
        user_id <- create_document user_c user_doc ;;
        token <- create_token [("sub", VStr user_id)] default_expiry now ;;
        ret (Token.new token)
    end.

Definition login (username password : string) (now : Z) : M Token.t :=
  let identifier := username in
  user <- find_one user_c
    [Or [ [("email", Eq (VStr identifier))];
          [("phone", Eq (VStr identifier))];
          [("national_id", Eq (VStr identifier))] ]] ;;
  match user with
  | None => raise 401 "Invalid credentials"
  | Some u =>
      if negb (verify_password password (User.password_hash (fields u))) then
        raise 401 "Invalid credentials"
      else
        token <- create_token [("sub", VStr (Bson.str (_id u)))] default_expiry now ;;
        ret (Token.new token)
  end.

(** ** Listings *)

Definition create_listing (body : ListingCreate.t) (current : Stored User.t)
    : M string :=
  if negb (role_in current ["landlord"; "lodge_owner"; "admin"]) then
    raise 403 "Only owners can create listings"
  else
    listing <- validated
      (Listing.new (Bson.str (_id current))
         (ListingCreate.title body) (ListingCreate.description body)
         (ListingCreate.price body) (ListingCreate.pricing_type body)
         (ListingCreate.property_type body) (ListingCreate.facilities body)
         (ListingCreate.media_urls body) (ListingCreate.location body)
         (ListingCreate.is_available body)) ;;
    listing_id <- create_document listing_c listing ;;
    ret listing_id.

(** The query document that [search_listings] builds, key by key. *)
Definition search_filters (q property_type : option string)
    (min_price max_price : option float) (is_available : option bool) : query :=
  ((if truthy property_type then [Field "property_type" (Eq (opt_str property_type))]
   else [])
  ++ match is_available with
     | Some b => [Field "is_available" (Eq (VBool b))]
     | None => []
     end
  ++ match min_price, max_price with
     | None, None => []
     | _, _ => [Field "price" (Range min_price max_price)]
     end
  ++ match q with
     | Some pat =>
         if pat =? "" then []
         else [Or [ [("title", Regex pat "i")];
                    [("description", Regex pat "i")];
                    [("facilities", ElemMatchRegex pat "i")] ]]
     | None => []
     end)%list.

(** Returns the list under ["items"]. *)
Definition search_listings (q property_type : option string)
    (min_price max_price : option float) (is_available : option bool)
    : M (list dict) :=
  let filters := search_filters q property_type min_price max_price is_available in
  results <- get_documents listing_c filters 100 ;;
  ret (map stringify_id results).

Definition update_availability (listing_id : string) (is_available : bool)
    (current : Stored User.t) (now : Z) : M bool :=
  o <- object_id listing_id ;;
  listing <- find_one listing_c (by_id o) ;;
  match listing with
  | None => raise 404 "Listing not found"
  | Some l =>
      if negb (Listing.owner_id (fields l) =? Bson.str (_id current))
         && negb (is_admin current) then
        raise 403 "Not allowed"
      else
        o' <- object_id listing_id ;;
        update_one listing_c (by_id o')
          (with_fields (Listing.set_is_available is_available) now) ;;;
        ret true
  end.

(** ** Applications *)

Definition apply (body : ApplicationCreate.t) (current : Stored User.t)
    : M string :=
  if negb (role_in current ["tenant"; "admin"]) then
    raise 403 "Only tenants can apply"
  else
    o <- object_id (ApplicationCreate.listing_id body) ;;
    listing <- find_one listing_c (by_id o) ;;
    match listing with
    | None => raise 404 "Listing not found"
    | Some _ =>
        let app_doc :=
          Application.new (ApplicationCreate.listing_id body)
            (Bson.str (_id current)) (ApplicationCreate.message body)
            (ApplicationCreate.national_id body) in
        app_id <- create_document application_c app_doc ;;
        ret app_id
    end.

Definition approve_application (application_id : string) (approve : bool)
    (current : Stored User.t) (now : Z) : M bool :=
  o <- object_id application_id ;;
  application <- find_one application_c (by_id o) ;;
  match application with
  | None => raise 404 "Application not found"
  | Some a =>
      lo <- object_id (Application.listing_id (fields a)) ;;
      listing <- find_one listing_c (by_id lo) ;;
      match listing with
      | None => raise 404 "Listing not found"
      | Some l =>
          if negb (Listing.owner_id (fields l) =? Bson.str (_id current))
             && negb (is_admin current) then
            raise 403 "Not allowed"
          else
            o' <- object_id application_id ;;
            update_one application_c (by_id o')
              (with_fields
                 (Application.set_status
                    (if approve then Application.Approved else Application.Rejected))
                 now) ;;;
            ret true
      end
  end.

(** ** Payments (mock integration with 95/5 split) *)

(** A [$set] that leaves [updated_at] alone. *)
Definition only_fields {A} (f : A -> A) (s : Stored A) : Stored A :=
  mkStored (_id s) (f (fields s)) (updated_at s).

Definition init_payment (body : PaymentInit.t) (current : Stored User.t)
    : M PaymentResponse.t :=
  if negb (role_in current ["tenant"; "admin"]) then
    raise 403 "Only tenants can pay"
  else
    o <- object_id (PaymentInit.listing_id body) ;;
    listing <- find_one listing_c (by_id o) ;;
    match listing with
    | None => raise 404 "Listing not found"
    | Some l =>
        let owner_id := Listing.owner_id (fields l) in
        let amount := Listing.price (fields l) in
        let platform_fee := round (fmul amount (decimal 5 2)) 2 in
        let owner_amount := round (fsub amount platform_fee) 2 in
        payment <- validated
          (Payment.new (Bson.str (_id l)) (Bson.str (_id current)) owner_id amount
             (PaymentInit.method body) platform_fee owner_amount
             Payment.Successful None) ;;
        payment_id <- create_document payment_c payment ;;
        let receipt :=
          {| Receipt.payment_id := payment_id;
             Receipt.total := amount;
             Receipt.owner_amount := owner_amount;
             Receipt.platform_fee := platform_fee;
             Receipt.payee_phone := Some (getenv "PLATFORM_PHONE" "+263 778 864 239");
             Receipt.reference := "TAK-" ++ upper (substring 0 6 payment_id) |} in
        receipt_id <- create_document receipt_c receipt ;;
        po <- object_id payment_id ;;
        update_one payment_c (by_id po)
          (only_fields (Payment.set_receipt_id receipt_id)) ;;;
        ret {| PaymentResponse.payment_id := payment_id;
               PaymentResponse.receipt_id := receipt_id;
               PaymentResponse.owner_amount := owner_amount;
               PaymentResponse.platform_fee := platform_fee |}
    end.

(** ** Admin actions *)

(** Returns the list under ["items"]. *)
Definition list_users (current : Stored User.t) : M (list dict) :=
  if negb (is_admin current) then raise 403 "Admin only"
  else
    users <- get_documents user_c [] 200 ;;
    ret (map stringify_id users).

Definition approve_user (user_id : string) (approve : bool)
    (current : Stored User.t) (now : Z) : M bool :=
  if negb (is_admin current) then raise 403 "Admin only"
  else
    o <- object_id user_id ;;
    update_one user_c (by_id o) (with_fields (User.set_is_approved approve) now) ;;;
    ret true.

Definition verify_id (user_id : string) (verified : bool)
    (current : Stored User.t) (now : Z) : M bool :=
  if negb (is_admin current) then raise 403 "Admin only"
  else
    o <- object_id user_id ;;
    update_one user_c (by_id o) (with_fields (User.set_id_verified verified) now) ;;;
    ret true.

End Handlers.
End Main.

(* ================================================================== *)
(** * [main.py]: convenience lists for dashboards *)

Module Dashboards.
Import Py Bson Mongo Schemas Database Main.
Local Open Scope handler_scope.

(** A field condition of a query document, with the [$in] operator. *)
Inductive xcond :=
| Plain (c : cond)
| In_ (vs : list value).                       (* {field: {"$in": [ ... ]}} *)

Definition xquery := list (string * xcond).

Section Lists.
Context {re : RegexEngine}.

Definition xmatches (q : xquery) (d : dict) : bool :=
  forallb
    (fun fc =>
       match snd fc with
       | Plain c => match_cond d (fst fc) c
       | In_ vs => existsb (match_eq (dict_get d (fst fc))) vs
       end)
    q.

(** Modelled from the spec: [get_documents] of [database.py], which is
    not among the sources, on a query that uses [$in].  It returns the
    matching documents in storage order, at most [limit] of them. *)
Definition get_documents_in {A} (c : Collection A) (q : xquery) (limit : nat)
    : M (list dict) :=
  fun db =>
    (Return
       (map (to_dict (dump c))
          (firstn limit (filter (fun s => xmatches q (to_dict (dump c) s)) (docs c db)))),
     db).

(** [[str(l["_id"]) for l in rs]]; a document without ["_id"] raises
    [KeyError].  Stored documents carry an [ObjectId] there. *)
Fixpoint id_strings (rs : list dict) : M (list string) :=
  match rs with
  | [] => ret []
  | r :: rest =>
      match dict_get r "_id" with
      | Some (VOid o) => ids <- id_strings rest ;; ret (Bson.str o :: ids)
      | _ => throw "KeyError"
      end
  end.

(** Each handler returns the list under ["items"]. *)

Definition my_applications (current : Stored User.t) : M (list dict) :=
  let cur_id := Bson.str (_id current) in
  items <- get_documents application_c [Field "tenant_id" (Eq (VStr cur_id))] 200 ;;
  ret (map stringify_id items).

Definition applications_for_me (current : Stored User.t) : M (list dict) :=
  let cur_id := Bson.str (_id current) in
  owned <- get_documents listing_c [Field "owner_id" (Eq (VStr cur_id))] 500 ;;
  listing_ids <- id_strings owned ;;
  items <- get_documents_in application_c
             [("listing_id", In_ (map VStr listing_ids))] 200 ;;
  ret (map stringify_id items).

Definition my_payments (current : Stored User.t) : M (list dict) :=
  let cur_id := Bson.str (_id current) in
  items <- get_documents payment_c [Field "tenant_id" (Eq (VStr cur_id))] 200 ;;
  ret (map stringify_id items).

Definition payments_for_me (current : Stored User.t) : M (list dict) :=
  let cur_id := Bson.str (_id current) in
  items <- get_documents payment_c [Field "owner_id" (Eq (VStr cur_id))] 200 ;;
  ret (map stringify_id items).

End Lists.

End Dashboards.

(* ================================================================== *)
(** * A small deployment, used to run the handlers on concrete requests *)

Module Fixtures.
Import Py Bson Mongo Schemas Database Main.

Fixpoint prefix_ci (p s : string) : bool :=
  match p, s with
  | EmptyString, _ => true
  | String a p', String b s' =>
      Ascii.eqb (upper_ascii a) (upper_ascii b) && prefix_ci p' s'
  | _, _ => false
  end.

Fixpoint contains_ci (p s : string) : bool :=
  prefix_ci p s
  || match s with
     | EmptyString => false
     | String _ s' => contains_ci p s'
     end.

(** An engine for patterns without metacharacters: case-insensitive
    substring search. *)
Definition literal_engine : RegexEngine :=
  {| regex_search := fun p _ s => contains_ci p s |}.

(** [passlib]'s plaintext scheme. *)
Definition plaintext : CryptContext :=
  {| ctx_hash := fun _ password => password;
     ctx_verify := fun password h => password =? h |}.

(** A key format test that goes by the first characters of the key: a
    PEM block or an SSH public key. *)
Definition by_prefix : Jwt.KeyFormat :=
  {| Jwt.is_asymmetric := fun k => prefix "-----BEGIN" k || prefix "ssh-" k |}.

Definition digit (c : ascii) : option Z :=
  let n := N_of_ascii c in
  if ((48 <=? n) && (n <=? 57))%N then Some (Z.of_N (n - 48)) else None.

(** The digits of [s], with at most one point among them: the number
    they spell without the point, and how many digits follow the point. *)
Fixpoint numeral (s : string) (n : Z) (after : option Z) (seen : bool)
    : option (Z * Z) :=
  match s with
  | EmptyString =>
      if seen then Some (n, match after with Some k => k | None => 0%Z end) else None
  | String c rest =>
      match digit c with
      | Some d => numeral rest (10 * n + d)%Z (option_map Z.succ after) true
      | None =>
          if Ascii.eqb c "." then
            match after with
            | None => numeral rest n (Some 0%Z) seen
            | Some _ => None
            end
          else None
      end
  end.

(** The float nearest to a plain decimal numeral with an optional sign. *)
Definition float_of_string (s : string) : option float :=
  let '(negative, body) :=
    match s with
    | String "-" rest => (true, rest)
    | String "+" rest => (false, rest)
    | _ => (false, s)
    end in
  match numeral body 0 None false with
  | Some (Zpos m, k) =>
      Some (SFdiv prec emax (S754_finite negative m 0)
              (S754_finite false (Z.to_pos (10 ^ k)) 0))
  | Some (_, _) => Some (S754_zero negative)
  | None => None
  end.

(** A lax conversion that reads plain decimal numerals and booleans. *)
Definition plain_decimals : LaxFloat :=
  {| float_of_value := fun v =>
       match v with
       | VStr s => float_of_string s
       | VBool b => Some (of_Z (if b then 1 else 0))
       | _ => None
       end |}.

(** No variable set: every configuration value takes its default. *)
Definition no_env : string -> option string := fun _ => None.

(** The signing secret set to the empty string. *)
Definition empty_secret : string -> option string :=
  fun name => if name =? "JWT_SECRET" then Some "" else None.

Definition owner : Stored User.t :=
  mkStored 1%N
    {| User.full_name := "Rudo Moyo"; User.role := User.Landlord;
       User.email := Some "rudo@example.com"; User.phone := Some "+263771000001";
       User.national_id := "63-1234567A01"; User.password_hash := "rudo-pw";
       User.is_approved := false; User.id_verified := false |} None.

Definition tenant : Stored User.t :=
  mkStored 2%N
    {| User.full_name := "Tendai Ncube"; User.role := User.Tenant;
       User.email := Some "tendai@example.com"; User.phone := Some "+263771000002";
       User.national_id := "63-7654321B02"; User.password_hash := "tendai-pw";
       User.is_approved := false; User.id_verified := false |} None.

Definition root_admin : Stored User.t :=
  mkStored 3%N
    {| User.full_name := "Admin"; User.role := User.Admin;
       User.email := Some "admin@example.com"; User.phone := Some "+263771000003";
       User.national_id := "63-0000001C03"; User.password_hash := "admin-pw";
       User.is_approved := true; User.id_verified := true |} None.

Definition harare : Location.t :=
  {| Location.lat := decimal (-178) 1; Location.lng := decimal 310 1;
     Location.address := Some "Avondale, Harare" |}.

Definition room_at (i : oid) (p : float) : Stored Listing.t :=
  mkStored i
    {| Listing.owner_id := Bson.str 1%N; Listing.title := "Garden room";
       Listing.description := None; Listing.price := p;
       Listing.pricing_type := Listing.Monthly; Listing.property_type := Listing.Room;
       Listing.facilities := ["wifi"; "borehole"]; Listing.media_urls := [];
       Listing.location := harare; Listing.is_available := true |} None.

Definition request_1 : Stored Application.t :=
  mkStored 5%N (Application.new (Bson.str 4%N) (Bson.str 2%N) None "63-7654321B02") None.

(** Three users; listings priced 150.00, 0.105, 250.00, 89.99 and
    1000000000000001152; one pending application for the first listing. *)
Definition db0 : DB :=
  {| user := [owner; tenant; root_admin];
     listing := [room_at 4%N (decimal 15000 2); room_at 6%N (decimal 105 3);
                 room_at 7%N (decimal 25000 2); room_at 8%N (decimal 8999 2);
                 room_at 9%N (of_Z 1000000000000001152)];
     application := [request_1];
     payment := [];
     receipt := [];
     next_id := 10%N |}.

(** ** Requests *)

Definition chipo_phone_only : RegisterRequest.t :=
  {| RegisterRequest.full_name := "Chipo Dube"; RegisterRequest.role := "tenant";
     RegisterRequest.email := None; RegisterRequest.phone := Some "+263772000009";
     RegisterRequest.national_id := "63-1111111D04";
     RegisterRequest.password := "chipo-pw" |}.

Definition chipo_both : RegisterRequest.t :=
  {| RegisterRequest.full_name := "Chipo Dube"; RegisterRequest.role := "tenant";
     RegisterRequest.email := Some "chipo@example.com";
     RegisterRequest.phone := Some "+263772000009";
     RegisterRequest.national_id := "63-1111111D04";
     RegisterRequest.password := "chipo-pw" |}.

Definition apply_to (i : oid) : ApplicationCreate.t :=
  {| ApplicationCreate.listing_id := Bson.str i; ApplicationCreate.message := None;
     ApplicationCreate.national_id := "63-7654321B02" |}.

Definition pay_for (i : oid) : PaymentInit.t :=
  {| PaymentInit.listing_id := Bson.str i; PaymentInit.method := "ecocash" |}.

Definition cottage : ListingCreate.t :=
  {| ListingCreate.title := "Cottage"; ListingCreate.description := Some "Two rooms";
     ListingCreate.price := decimal 32000 2; ListingCreate.pricing_type := "monthly";
     ListingCreate.property_type := "house"; ListingCreate.facilities := ["solar"];
     ListingCreate.media_urls := [];
     ListingCreate.location := [("lat", VNum (decimal (-178) 1));
                                ("lng", VNum (decimal 310 1))];
     ListingCreate.is_available := true |}.

(** ** A store with payments and applications of two tenants *)

Definition second_tenant : Stored User.t :=
  mkStored 11%N
    {| User.full_name := "Farai Sibanda"; User.role := User.Tenant;
       User.email := Some "farai@example.com"; User.phone := Some "+263771000011";
       User.national_id := "63-2222222E05"; User.password_hash := "farai-pw";
       User.is_approved := false; User.id_verified := false |} None.

Definition second_owner : Stored User.t :=
  mkStored 12%N
    {| User.full_name := "Nyasha Lodge"; User.role := User.LodgeOwner;
       User.email := Some "nyasha@example.com"; User.phone := Some "+263771000012";
       User.national_id := "63-3333333F06"; User.password_hash := "nyasha-pw";
       User.is_approved := false; User.id_verified := false |} None.

Definition lodge_room : Stored Listing.t :=
  mkStored 13%N
    {| Listing.owner_id := Bson.str 12%N; Listing.title := "Lodge room";
       Listing.description := Some "Near the falls"; Listing.price := decimal 4500 2;
       Listing.pricing_type := Listing.Daily;
       Listing.property_type := Listing.LodgeRoom;
       Listing.facilities := ["breakfast"]; Listing.media_urls := [];
       Listing.location := harare; Listing.is_available := false |} None.

Definition request_2 : Stored Application.t :=
  mkStored 14%N
    (Application.new (Bson.str 13%N) (Bson.str 11%N) (Some "two nights")
       "63-2222222E05") None.

Definition paid (i : oid) (listing_id tenant_id owner_id : oid) : Stored Payment.t :=
  mkStored i
    {| Payment.listing_id := Bson.str listing_id;
       Payment.tenant_id := Bson.str tenant_id;
       Payment.owner_id := Bson.str owner_id;
       Payment.amount := decimal 4500 2; Payment.method := Payment.Paynow;
       Payment.platform_fee := decimal 225 2; Payment.owner_amount := decimal 4275 2;
       Payment.status := Payment.Successful; Payment.receipt_id := None |} None.

Definition db1 : DB :=
  {| user := [owner; tenant; root_admin; second_tenant; second_owner];
     listing := [room_at 4%N (decimal 15000 2); lodge_room];
     application := [request_1; request_2];
     payment := [paid 15%N 4%N 2%N 1%N; paid 16%N 13%N 11%N 12%N];
     receipt := [];
     next_id := 17%N |}.


(** ** Two people and one identifier

    The national id that Tatenda registers with is the phone number
    that Kuda registers with. *)

Definition tatenda : RegisterRequest.t :=
  {| RegisterRequest.full_name := "Tatenda Zhou"; RegisterRequest.role := "tenant";
     RegisterRequest.email := Some "tatenda@example.com";
     RegisterRequest.phone := Some "+263771000021";
     RegisterRequest.national_id := "0771000022";
     RegisterRequest.password := "tatenda-pw" |}.

Definition kuda : RegisterRequest.t :=
  {| RegisterRequest.full_name := "Kuda Phiri"; RegisterRequest.role := "landlord";
     RegisterRequest.email := Some "kuda@example.com";
     RegisterRequest.phone := Some "0771000022";
     RegisterRequest.national_id := "63-4444444G07";
     RegisterRequest.password := "kuda-pw" |}.

Definition empty_db : DB :=
  {| user := []; listing := []; application := []; payment := []; receipt := [];
     next_id := 1%N |}.

(** ** Requests that are refused *)

Definition chipo_superuser : RegisterRequest.t :=
  {| RegisterRequest.full_name := "Chipo Dube"; RegisterRequest.role := "superuser";
     RegisterRequest.email := Some "chipo@example.com";
     RegisterRequest.phone := Some "+263772000009";
     RegisterRequest.national_id := "63-1111111D04";
     RegisterRequest.password := "chipo-pw" |}.

Definition chipo_taken_id : RegisterRequest.t :=
  {| RegisterRequest.full_name := "Chipo Dube"; RegisterRequest.role := "tenant";
     RegisterRequest.email := Some "chipo@example.com";
     RegisterRequest.phone := Some "+263772000009";
     RegisterRequest.national_id := "63-1234567A01";
     RegisterRequest.password := "chipo-pw" |}.

Definition pay_with (i : oid) (m : string) : PaymentInit.t :=
  {| PaymentInit.listing_id := Bson.str i; PaymentInit.method := m |}.

(** The cottage again, its coordinates sent as strings. *)
Definition cottage_by_strings : ListingCreate.t :=
  {| ListingCreate.title := "Cottage"; ListingCreate.description := Some "Two rooms";
     ListingCreate.price := decimal 32000 2; ListingCreate.pricing_type := "monthly";
     ListingCreate.property_type := "house"; ListingCreate.facilities := ["solar"];
     ListingCreate.media_urls := [];
     ListingCreate.location := [("lat", VStr "-17.8"); ("lng", VStr "31.0")];
     ListingCreate.is_available := true |}.

Definition cottage_nowhere : ListingCreate.t :=
  {| ListingCreate.title := "Cottage"; ListingCreate.description := None;
     ListingCreate.price := decimal 32000 2; ListingCreate.pricing_type := "monthly";
     ListingCreate.property_type := "house"; ListingCreate.facilities := [];
     ListingCreate.media_urls := [];
     ListingCreate.location := [("lat", VStr "north"); ("lng", VNum (decimal 310 1))];
     ListingCreate.is_available := true |}.

Definition cottage_below_zero : ListingCreate.t :=
  {| ListingCreate.title := "Cottage"; ListingCreate.description := None;
     ListingCreate.price := decimal (-1) 2; ListingCreate.pricing_type := "monthly";
     ListingCreate.property_type := "house"; ListingCreate.facilities := [];
     ListingCreate.media_urls := [];
     ListingCreate.location := [("lat", VNum (decimal (-178) 1));
                                ("lng", VNum (decimal 310 1))];
     ListingCreate.is_available := true |}.

End Fixtures.

(* ================================================================== *)
(** * What the properties observe *)

Module Observations.
Import Py Bson Mongo Schemas Database Main.

(** Structural equality of floats: same class, sign, mantissa, exponent. *)
Definition float_same (a b : float) : bool :=
  match a, b with
  | S754_zero s, S754_zero s' => Bool.eqb s s'
  | S754_infinity s, S754_infinity s' => Bool.eqb s s'
  | S754_nan, S754_nan => true
  | S754_finite s m e, S754_finite s' m' e' =>
      Bool.eqb s s' && (m =? m')%positive && (e =? e')%Z
  | _, _ => false
  end.

(** The split of a price of [c] cents adds up to the price again, once
    the sum is rounded to 2 decimals. *)
Definition cents_add_up (c : Z) : bool :=
  let P := decimal c 2 in
  let platform_fee := round (fmul P (decimal 5 2)) 2 in
  let owner_amount := round (fsub P platform_fee) 2 in
  float_same (round (fadd platform_fee owner_amount) 2) P.

Fixpoint all_cents_from (n : nat) (lo : Z) : bool :=
  match n with
  | O => true
  | S k => cents_add_up lo && all_cents_from k (lo + 1)
  end.

Definition decision (approve : bool) : Application.Status :=
  if approve then Application.Approved else Application.Rejected.

(** The status of the stored application [o]. *)
Definition status_of (o : oid) (db : DB) : option Application.Status :=
  option_map (fun s => Application.status (fields s)) (get application_c o db).

(** A stored user matches an identifier by email, phone or national id. *)
Definition identifies (identifier : string) (u : Stored User.t) : bool :=
  match User.email (fields u) with Some e => e =? identifier | None => false end
  || match User.phone (fields u) with Some p => p =? identifier | None => false end
  || (User.national_id (fields u) =? identifier).

(** The stored field is set and equals the given one. *)
Definition same_contact (stored given : option string) : bool :=
  match stored, given with
  | Some a, Some b => a =? b
  | _, _ => false
  end.

(** The [k] low bytes of [n], most significant first. *)
Fixpoint bytes_be (k : nat) (n : N) : list N :=
  match k with
  | O => []
  | S j => (bytes_be j (n / 256)%N ++ [(n mod 256)%N])%list
  end.

(** Identifiers of a collection are pairwise distinct 12-byte values, as
    the driver generates them. *)
Definition ids_ok {A} (l : list (Stored A)) : Prop :=
  NoDup (map _id l) /\ Forall (fun s => (_id s < 2 ^ 96)%N) l.

(** The identifier the store hands out next is a 12-byte value carried
    by no document of the collection. *)
Definition fresh_for {A} (c : Collection A) (db : DB) : Prop :=
  (next_id db < 2 ^ 96)%N /\ get c (next_id db) db = None.

Section Observed.
Context {re : RegexEngine}.
Variable environ : string -> option string.

(** The store after a decision is written. *)
Definition decided (o : oid) (approve : bool) (now : Z) (db : DB) : DB :=
  put application_c
    (update_first (selects application_c (by_id o))
       (with_fields (Application.set_status (decision approve)) now)
       (application db))
    db.

(** A token embeds [user_id] as its subject, expires at the last whole
    second not after 24 hours (86400000000 microseconds) from
    [issued_at], and is signed with the process-wide key using HS256. *)
Definition issued_for (t : Jwt.token) (user_id : string) (issued_at : Z) : Prop :=
  dict_get (Jwt.claims t) "sub" = Some (VStr user_id)
  /\ dict_get (Jwt.claims t) "exp"
     = Some (VDate (Jwt.numeric_date (issued_at + 86400000000)))
  /\ Jwt.key t = JWT_SECRET environ
  /\ Jwt.alg t = "HS256".

End Observed.

End Observations.

(* ================================================================== *)
(** * Rounding errors of the float operations

    Every operation of [SpecFloat] rounds the exact result to the nearest
    float, ties to even.  For positive operands in the range of the
    normal numbers the error is at most half a unit in the last place:
    at most [2^(E-54)] for a result below [2^E]. *)

Module FloatFacts.
Import Py FloatValue.
Local Open Scope R_scope.

(** ** Powers of two *)

Lemma bpow_gt_0 (e : Z) : 0 < bpow e.
Proof. apply powerRZ_lt. lra. Qed.

Lemma bpow_add (a b : Z) : bpow (a + b) = bpow a * bpow b.
Proof. apply powerRZ_add. lra. Qed.

Lemma bpow_opp (a : Z) : bpow (- a) = / bpow a.
Proof. apply powerRZ_neg'. Qed.

Lemma bpow_IZR (e : Z) : (0 <= e)%Z -> bpow e = IZR (2 ^ e).
Proof.
  intros H. unfold bpow.
  rewrite <- (Z2Nat.id e H), <- pow_powerRZ, <- pow_IZR. reflexivity.
Qed.

Lemma bpow_ge_1 (e : Z) : (0 <= e)%Z -> 1 <= bpow e.
Proof.
  intros H. rewrite (bpow_IZR e H). apply IZR_le.
  pose proof (Z.pow_pos_nonneg 2 e ltac:(lia) H). lia.
Qed.

Lemma bpow_le (a b : Z) : (a <= b)%Z -> bpow a <= bpow b.
Proof.
  intros H. replace b with (a + (b - a))%Z by lia. rewrite bpow_add.
  pose proof (bpow_gt_0 a). pose proof (bpow_ge_1 (b - a) ltac:(lia)). nra.
Qed.

Lemma bpow_lt (a b : Z) : (a < b)%Z -> bpow a < bpow b.
Proof.
  intros H. replace b with (a + 1 + (b - a - 1))%Z by lia. rewrite !bpow_add.
  pose proof (bpow_gt_0 a). pose proof (bpow_ge_1 (b - a - 1) ltac:(lia)).
  change (bpow 1) with (2 * 1). nra.
Qed.

Lemma bpow_lt_inv (a b : Z) : bpow a < bpow b -> (a < b)%Z.
Proof.
  intros H. destruct (Z_lt_le_dec a b) as [Hlt|Hle]; [exact Hlt|].
  pose proof (bpow_le b a Hle). lra.
Qed.

Lemma bpow_le_inv (a b : Z) : bpow a <= bpow b -> (a <= b)%Z.
Proof.
  intros H. destruct (Z_le_gt_dec a b) as [Hle|Hgt]; [exact Hle|].
  pose proof (bpow_lt b a ltac:(lia)). lra.
Qed.

Lemma F2R_shift (m e k : Z) : (0 <= k)%Z -> F2R (m * 2 ^ k) (e - k) = F2R m e.
Proof.
  intros H. unfold F2R. rewrite mult_IZR, <- (bpow_IZR k H).
  replace e with ((e - k) + k)%Z at 2 by lia. rewrite bpow_add. ring.
Qed.

(** ** Number of binary digits *)

Lemma digits2_bounds (p : positive) :
  (2 ^ (Z.pos (digits2_pos p) - 1) <= Z.pos p < 2 ^ Z.pos (digits2_pos p))%Z.
Proof.
  induction p as [p IH|p IH|]; cbn [digits2_pos].
  - rewrite Pos2Z.inj_succ.
    replace (Z.succ (Z.pos (digits2_pos p)) - 1)%Z
      with (Z.succ (Z.pos (digits2_pos p) - 1)) by lia.
    rewrite !Z.pow_succ_r by lia. lia.
  - rewrite Pos2Z.inj_succ.
    replace (Z.succ (Z.pos (digits2_pos p)) - 1)%Z
      with (Z.succ (Z.pos (digits2_pos p) - 1)) by lia.
    rewrite !Z.pow_succ_r by lia. lia.
  - cbn. lia.
Qed.

Lemma digits2_unique (p : positive) (k : Z) :
  (2 ^ (k - 1) <= Z.pos p < 2 ^ k)%Z -> Z.pos (digits2_pos p) = k.
Proof.
  intros [Hlo Hhi]. pose proof (digits2_bounds p) as [Dlo Dhi].
  set (d := Z.pos (digits2_pos p)) in *.
  assert (0 < k)%Z.
  { destruct (Z_lt_le_dec 0 k) as [|Hk]; [assumption|].
    destruct (Z.eq_dec k 0) as [->|Hne].
    - cbn in Hhi. lia.
    - rewrite (Z.pow_neg_r 2 k) in Hhi by lia. lia. }
  destruct (Z.lt_trichotomy d k) as [Hlt|[Heq|Hgt]]; [|exact Heq|].
  - pose proof (Z.pow_le_mono_r 2 d (k - 1) ltac:(lia) ltac:(lia)). lia.
  - pose proof (Z.pow_le_mono_r 2 k (d - 1) ltac:(lia) ltac:(lia)). lia.
Qed.

Lemma digits2_R (p : positive) :
  bpow (Z.pos (digits2_pos p) - 1) <= IZR (Z.pos p) < bpow (Z.pos (digits2_pos p)).
Proof.
  pose proof (digits2_bounds p) as [Hlo Hhi].
  rewrite !bpow_IZR by lia. split; [apply IZR_le|apply IZR_lt]; assumption.
Qed.

Lemma pos_iter_xO (p k : positive) :
  Z.pos (Pos.iter xO p k) = (Z.pos p * 2 ^ Z.pos k)%Z.
Proof.
  induction k as [|k IH] using Pos.peano_ind.
  - cbn. lia.
  - rewrite Pos.iter_succ, Pos2Z.inj_succ, Z.pow_succ_r by lia.
    change (Z.pos (Pos.iter xO p k)~0) with (2 * Z.pos (Pos.iter xO p k))%Z.
    rewrite IH. lia.
Qed.

(** ** Shifting right and rounding *)

Lemma located_bounds (x : R) (mrs : shr_record) :
  located x mrs -> IZR (shr_m mrs) <= x < IZR (shr_m mrs) + 1.
Proof. unfold located. destruct (shr_r mrs), (shr_s mrs); lra. Qed.

Lemma located_shr_1 (x : R) (mrs : shr_record) :
  (0 <= shr_m mrs)%Z -> located x mrs ->
  located (x / 2) (shr_1 mrs) /\ (0 <= shr_m (shr_1 mrs))%Z.
Proof.
  destruct mrs as [m r s]. cbn [shr_m]. intros Hm.
  destruct m as [|p|p]; [| |lia].
  - destruct r, s; unfold located; cbn; intros H; split; try lia; lra.
  - destruct p as [p|p|]; unfold located; cbn [shr_1 shr_m shr_r shr_s orb];
      try (change (IZR (Z.pos p~1)) with (IZR (2 * Z.pos p + 1)));
      try (change (IZR (Z.pos p~0)) with (IZR (2 * Z.pos p)));
      rewrite ?plus_IZR, ?mult_IZR;
      destruct r, s; cbn [orb]; intros H; split; try lia; lra.
Qed.

Lemma located_iter_pos (n : positive) (x : R) (mrs : shr_record) :
  (0 <= shr_m mrs)%Z -> located x mrs ->
  located (x * bpow (- Z.pos n)) (iter_pos shr_1 n mrs)
  /\ (0 <= shr_m (iter_pos shr_1 n mrs))%Z.
Proof.
  revert x mrs. induction n as [n IH|n IH|]; intros x mrs Hm Hx; cbn [iter_pos].
  - destruct (located_shr_1 x mrs Hm Hx) as [H1 M1].
    destruct (IH _ _ M1 H1) as [H2 M2]. destruct (IH _ _ M2 H2) as [H3 M3].
    split; [|exact M3].
    replace (x * bpow (- Z.pos n~1))
      with (x / 2 * bpow (- Z.pos n) * bpow (- Z.pos n)); [exact H3|].
    replace (- Z.pos n~1)%Z with (- (1) + (- Z.pos n + - Z.pos n))%Z by lia.
    rewrite !bpow_add. change (bpow (- (1))) with (/ (2 * 1)). field.
  - destruct (IH _ _ Hm Hx) as [H2 M2]. destruct (IH _ _ M2 H2) as [H3 M3].
    split; [|exact M3].
    replace (x * bpow (- Z.pos n~0))
      with (x * bpow (- Z.pos n) * bpow (- Z.pos n)); [exact H3|].
    replace (- Z.pos n~0)%Z with (- Z.pos n + - Z.pos n)%Z by lia.
    rewrite !bpow_add. ring.
  - destruct (located_shr_1 x mrs Hm Hx) as [H1 M1]. split; [|exact M1].
    replace (x * bpow (- (1))) with (x / 2); [exact H1|].
    change (bpow (- (1))) with (/ (2 * 1)). field.
Qed.

Lemma located_shr (mrs : shr_record) (e n : Z) (x : R) :
  (0 <= shr_m mrs)%Z -> located x mrs ->
  let '(mrs', e') := shr mrs e n in
  e' = (e + Z.max 0 n)%Z
  /\ located (x * bpow (e - e')) mrs' /\ (0 <= shr_m mrs')%Z.
Proof.
  intros Hm Hx. unfold shr. destruct n as [|p|p].
  - split; [lia|]. replace (e - e)%Z with 0%Z by lia.
    change (bpow 0) with 1. rewrite Rmult_1_r. auto.
  - destruct (located_iter_pos p x mrs Hm Hx) as [H1 M1].
    split; [lia|]. replace (e - (e + Z.pos p))%Z with (- Z.pos p)%Z by lia. auto.
  - split; [lia|]. replace (e - e)%Z with 0%Z by lia.
    change (bpow 0) with 1. rewrite Rmult_1_r. auto.
Qed.

Lemma located_of_loc (m : Z) (l : location) :
  loc_of_shr_record (shr_record_of_loc m l) = l
  /\ shr_m (shr_record_of_loc m l) = m.
Proof. destruct l as [|[]]; split; reflexivity. Qed.

Lemma round_nearest_even_located (x : R) (mrs : shr_record) :
  located x mrs ->
  let m' := round_nearest_even (shr_m mrs) (loc_of_shr_record mrs) in
  Rabs (IZR m' - x) <= 1 / 2 /\ (shr_m mrs <= m' <= shr_m mrs + 1)%Z.
Proof.
  destruct mrs as [m r s]. unfold located. cbn [shr_m shr_r shr_s].
  destruct r, s; cbn [loc_of_shr_record round_nearest_even]; intros H.
  - rewrite plus_IZR. split; [apply Rabs_le; lra|lia].
  - destruct (Z.even m); [|rewrite plus_IZR]; (split; [apply Rabs_le; lra|lia]).
  - split; [apply Rabs_le; lra|lia].
  - split; [apply Rabs_le; lra|lia].
Qed.

Lemma fexp_normal (e : Z) : (-1074 <= e - 53)%Z -> fexp prec emax e = (e - 53)%Z.
Proof. intros H. unfold fexp, emin, prec, emax. lia. Qed.

(** Rounding a positive value whose integer part has at least 53 digits
    and that lies in the range of the normal numbers. *)
Lemma binary_round_aux_normal (mx : positive) (ex : Z) (lx : location) (x : R) :
  located x (shr_record_of_loc (Z.pos mx) lx) ->
  let d := Z.pos (digits2_pos mx) in
  (53 <= d)%Z -> (-1074 <= d + ex - 53)%Z -> (d + ex <= 1023)%Z ->
  exists (m : positive) (e : Z),
    binary_round_aux prec emax false (Z.pos mx) ex lx = S754_finite false m e
    /\ (2 ^ 52 <= Z.pos m < 2 ^ 53)%Z
    /\ (d + ex - 53 <= e <= d + ex - 52)%Z
    /\ Rabs (F2R (Z.pos m) e - x * bpow ex) <= bpow (d + ex - 54).
Proof.
  intros Hx d Hd Hlo Hhi.
  pose proof (digits2_R mx) as Hdig. fold d in Hdig.
  pose proof (located_bounds _ _ Hx) as Hxb.
  rewrite (proj2 (located_of_loc _ _)) in Hxb.
  unfold binary_round_aux, shr_fexp. cbn [Zdigits2]. fold d.
  rewrite fexp_normal by lia.
  pose proof (located_shr (shr_record_of_loc (Z.pos mx) lx) ex (d + ex - 53 - ex) x)
    as Hshr.
  rewrite (proj2 (located_of_loc _ _)) in Hshr.
  specialize (Hshr ltac:(lia) Hx).
  destruct (shr (shr_record_of_loc (Z.pos mx) lx) ex (d + ex - 53 - ex))
    as [mrs' e'].
  destruct Hshr as (He' & Hloc' & Hm').
  assert (He : e' = (d + ex - 53)%Z) by lia. clear He'. subst e'.
  set (x' := x * bpow (ex - (d + ex - 53))) in *.
  pose proof (located_bounds _ _ Hloc') as Hb'.
  assert (Hxhi : x < bpow d).
  { pose proof (digits2_bounds mx) as [_ Hlt]. fold d in Hlt.
    rewrite bpow_IZR by lia.
    assert (IZR (Z.pos mx) + 1 <= IZR (2 ^ d))
      by (rewrite <- (plus_IZR _ 1); apply IZR_le; lia).
    lra. }
  assert (Hx' : bpow 52 <= x' < bpow 53).
  { unfold x'. replace (ex - (d + ex - 53))%Z with (53 - d)%Z by lia.
    pose proof (bpow_gt_0 (53 - d)).
    assert (E52 : bpow 52 = bpow (d - 1) * bpow (53 - d))
      by (rewrite <- bpow_add; f_equal; lia).
    assert (E53 : bpow 53 = bpow d * bpow (53 - d))
      by (rewrite <- bpow_add; f_equal; lia).
    rewrite E52, E53.
    split; [apply Rmult_le_compat_r|apply Rmult_lt_compat_r]; lra. }
  rewrite !bpow_IZR in Hx' by lia.
  assert (Hm1 : (2 ^ 52 <= shr_m mrs' < 2 ^ 53)%Z).
  { split.
    - apply Z.lt_succ_r. apply lt_IZR. unfold Z.succ. rewrite plus_IZR. lra.
    - apply lt_IZR. lra. }
  pose proof (round_nearest_even_located x' mrs' Hloc') as [Hr Hm2].
  set (m2 := round_nearest_even (shr_m mrs') (loc_of_shr_record mrs')) in *.
  assert (Herr : forall m e, F2R m e = IZR m2 * bpow (d + ex - 53) ->
            Rabs (F2R m e - x * bpow ex) <= bpow (d + ex - 54)).
  { intros m e ->.
    replace (x * bpow ex) with (x' * bpow (d + ex - 53)).
    - rewrite <- Rmult_minus_distr_r, Rabs_mult.
      pose proof (bpow_gt_0 (d + ex - 53)).
      rewrite (Rabs_pos_eq (bpow _)) by lra.
      replace (d + ex - 53)%Z with (1 + (d + ex - 54))%Z by lia.
      rewrite bpow_add. change (bpow 1) with (2 * 1).
      pose proof (bpow_gt_0 (d + ex - 54)). nra.
    - unfold x'. rewrite Rmult_assoc, <- bpow_add. f_equal. f_equal. lia. }
  destruct (Z.eq_dec m2 (2 ^ 53)) as [Hcarry|Hnocarry].
  - rewrite Hcarry. change (Zdigits2 (2 ^ 53)) with 54%Z.
    rewrite fexp_normal by lia.
    replace (54 + (d + ex - 53) - 53 - (d + ex - 53))%Z with 1%Z by lia.
    unfold shr. cbn [iter_pos].
    change (shr_1 (shr_record_of_loc (2 ^ 53) loc_Exact))
      with (Build_shr_record (Z.pos 4503599627370496) false false).
    cbn [shr_m].
    replace (d + ex - 53 + 1 <=? emax - prec)%Z with true
      by (symmetry; apply Z.leb_le; unfold emax, prec; lia).
    eexists _, _. split; [reflexivity|]. split; [cbn; lia|]. split; [lia|].
    apply Herr. rewrite Hcarry. unfold F2R.
    replace (d + ex - 53 + 1)%Z with (1 + (d + ex - 53))%Z by lia.
    rewrite bpow_add. change (bpow 1) with (2 * 1).
    change (Z.pos 4503599627370496) with (2 ^ 52)%Z.
    rewrite <- !bpow_IZR by lia.
    change (bpow 53) with (bpow (1 + 52)). rewrite (bpow_add 1 52).
    change (bpow 1) with (2 * 1). ring.
  - assert (Hm2' : (2 ^ 52 <= m2 < 2 ^ 53)%Z) by lia.
    destruct m2 as [|p2|p2]; [lia| |lia].
    cbn [Zdigits2]. rewrite (digits2_unique p2 53) by (cbn; lia).
    rewrite fexp_normal by lia.
    replace (53 + (d + ex - 53) - 53 - (d + ex - 53))%Z with 0%Z by lia.
    cbn [shr shr_record_of_loc shr_m].
    replace (d + ex - 53 <=? emax - prec)%Z with true
      by (symmetry; apply Z.leb_le; unfold emax, prec; lia).
    exists p2, (d + ex - 53)%Z. split; [reflexivity|]. split; [exact Hm2'|].
    split; [lia|]. apply Herr. reflexivity.
Qed.

Lemma F2R_exponent (m : positive) (e L U : Z) :
  (2 ^ 52 <= Z.pos m < 2 ^ 53)%Z ->
  bpow L <= F2R (Z.pos m) e < bpow U -> (L - 52 <= e <= U - 53)%Z.
Proof.
  intros [Hlo Hhi] [HL HU]. unfold F2R in *.
  pose proof (bpow_gt_0 e).
  assert (bpow 52 <= IZR (Z.pos m)) by (rewrite bpow_IZR by lia; now apply IZR_le).
  assert (IZR (Z.pos m) < bpow 53) by (rewrite bpow_IZR by lia; now apply IZR_lt).
  split.
  - assert (bpow L < bpow (53 + e)) by (rewrite bpow_add; nra).
    apply bpow_lt_inv in H2. lia.
  - assert (bpow (52 + e) < bpow U) by (rewrite bpow_add; nra).
    apply bpow_lt_inv in H2. lia.
Qed.

(** The error bound of [binary_round_aux_normal], from the magnitude of
    the value that is rounded. *)
Lemma binary_round_aux_bound (mx : positive) (ex : Z) (lx : location) (x : R) (E : Z) :
  located x (shr_record_of_loc (Z.pos mx) lx) ->
  let d := Z.pos (digits2_pos mx) in
  (53 <= d)%Z -> (-1074 <= d + ex - 53)%Z -> (E <= 1023)%Z ->
  x * bpow ex < bpow E ->
  exists v,
    nf (binary_round_aux prec emax false (Z.pos mx) ex lx) v
    /\ Rabs (v - x * bpow ex) <= bpow (E - 54).
Proof.
  intros Hx d Hd Hlo HE Hmag.
  assert (HdE : (d + ex <= E)%Z).
  { pose proof (located_bounds _ _ Hx) as Hxb.
    rewrite (proj2 (located_of_loc _ _)) in Hxb.
    pose proof (digits2_R mx) as Hdig. fold d in Hdig.
    pose proof (bpow_gt_0 ex).
    assert (bpow (d - 1 + ex) < bpow E) by (rewrite bpow_add; nra).
    apply bpow_lt_inv in H0. lia. }
  destruct (binary_round_aux_normal mx ex lx x Hx Hd Hlo ltac:(fold d; lia))
    as (m & e & Hrun & Hm & He & Herr).
  fold d in He, Herr.
  exists (F2R (Z.pos m) e). split.
  - exists m, e. auto.
  - eapply Rle_trans; [exact Herr|]. apply bpow_le. lia.
Qed.

(** ** Multiplication *)

Lemma SFmul_nf (x y : float) (vx vy : R) (E : Z) :
  nf x vx -> nf y vy ->
  bpow (-400) <= vx < bpow 400 -> bpow (-400) <= vy < bpow 400 ->
  (E <= 1023)%Z -> vx * vy < bpow E ->
  exists v, nf (fmul x y) v /\ Rabs (v - vx * vy) <= bpow (E - 54).
Proof.
  intros (mx & ex & -> & Hmx & ->) (my & ey & -> & Hmy & ->) Hvx Hvy HE Hmag.
  pose proof (F2R_exponent mx ex _ _ Hmx Hvx) as Hex.
  pose proof (F2R_exponent my ey _ _ Hmy Hvy) as Hey.
  unfold fmul, SFmul. cbn [xorb].
  assert (Hval : IZR (Z.pos (mx * my)) * bpow (ex + ey)
                 = F2R (Z.pos mx) ex * F2R (Z.pos my) ey).
  { unfold F2R. rewrite Pos2Z.inj_mul, mult_IZR, bpow_add. ring. }
  rewrite <- Hval in Hmag |- *.
  apply binary_round_aux_bound; try assumption.
  - reflexivity.
  - pose proof (digits2_bounds (mx * my)) as [_ Hhi].
    rewrite Pos2Z.inj_mul in Hhi.
    assert ((2 ^ 52) * (2 ^ 52) <= Z.pos mx * Z.pos my)%Z by nia.
    destruct (Z_lt_le_dec (Z.pos (digits2_pos (mx * my))) 53) as [Hlt|]; [|lia].
    pose proof (Z.pow_le_mono_r 2 (Z.pos (digits2_pos (mx * my))) 52
                  ltac:(lia) ltac:(lia)).
    change (2 ^ 52 * 2 ^ 52)%Z with (2 ^ 104)%Z in H.
    assert (2 ^ 52 < 2 ^ 104)%Z by reflexivity. lia.
  - pose proof (digits2_bounds (mx * my)) as [Hlo _].
    assert (1 <= Z.pos (digits2_pos (mx * my)))%Z by lia. lia.
Qed.

(** ** Normalisation of an exact positive value *)

Lemma binary_normalize_nf (M : positive) (e : Z) (E : Z) :
  let d := Z.pos (digits2_pos M) in
  (-1074 <= d + e - 53)%Z -> (E <= 1023)%Z ->
  F2R (Z.pos M) e < bpow E ->
  exists v,
    nf (binary_normalize prec emax (Z.pos M) e false) v
    /\ Rabs (v - F2R (Z.pos M) e) <= bpow (E - 54).
Proof.
  intros d Hlo HE Hmag. unfold binary_normalize, binary_round.
  fold d. rewrite fexp_normal by lia. unfold shl_align.
  destruct (d + e - 53 - e)%Z as [|k|k] eqn:Hk.
  - apply binary_round_aux_bound; try assumption; try reflexivity; fold d; lia.
  - apply binary_round_aux_bound; try assumption; try reflexivity; fold d; lia.
  - assert (Hd : (d = 53 - Z.pos k)%Z) by lia.
    pose proof (digits2_bounds M) as HM. fold d in HM.
    assert (Hshift : Z.pos (Pos.iter xO M k) = (Z.pos M * 2 ^ Z.pos k)%Z)
      by apply pos_iter_xO.
    assert (Hp : (0 < 2 ^ Z.pos k)%Z) by (apply Z.pow_pos_nonneg; lia).
    assert (Hdig : Z.pos (digits2_pos (Pos.iter xO M k)) = 53%Z).
    { apply digits2_unique. rewrite Hshift.
      replace (2 ^ (53 - 1))%Z with (2 ^ (d - 1) * 2 ^ Z.pos k)%Z
        by (rewrite <- Z.pow_add_r by lia; f_equal; lia).
      replace (2 ^ 53)%Z with (2 ^ d * 2 ^ Z.pos k)%Z
        by (rewrite <- Z.pow_add_r by lia; f_equal; lia).
      nia. }
    assert (Hval : IZR (Z.pos (Pos.iter xO M k)) * bpow (d + e - 53)
                   = F2R (Z.pos M) e).
    { rewrite Hshift. replace (d + e - 53)%Z with (e - Z.pos k)%Z by lia.
      apply (F2R_shift (Z.pos M) e (Z.pos k)). lia. }
    rewrite <- Hval in Hmag |- *.
    apply binary_round_aux_bound; try assumption; try reflexivity;
      rewrite Hdig; lia.
Qed.

Lemma shl_align_fst (m : positive) (e e' : Z) :
  (e' <= e)%Z -> Z.pos (fst (shl_align m e e')) = (Z.pos m * 2 ^ (e - e'))%Z.
Proof.
  intros H. unfold shl_align. destruct (e' - e)%Z as [|k|k] eqn:Hk.
  - replace (e - e')%Z with 0%Z by lia. cbn [fst]. lia.
  - lia.
  - cbn [fst]. rewrite pos_iter_xO. f_equal. f_equal. lia.
Qed.

(** ** Addition and subtraction of positive floats *)

Lemma SFadd_nf (x y : float) (vx vy : R) (E : Z) :
  nf x vx -> nf y vy ->
  bpow (-400) <= vx < bpow 400 -> bpow (-400) <= vy < bpow 400 ->
  (E <= 1023)%Z -> vx + vy < bpow E ->
  exists v, nf (fadd x y) v /\ Rabs (v - (vx + vy)) <= bpow (E - 54).
Proof.
  intros (mx & ex & -> & Hmx & ->) (my & ey & -> & Hmy & ->) Hvx Hvy HE Hmag.
  pose proof (F2R_exponent mx ex _ _ Hmx Hvx) as Hex.
  pose proof (F2R_exponent my ey _ _ Hmy Hvy) as Hey.
  unfold fadd, SFadd. cbn [cond_Zopp].
  set (ez := Z.min ex ey).
  rewrite !shl_align_fst by (unfold ez; lia).
  assert (Hpx : (0 < 2 ^ (ex - ez))%Z) by (apply Z.pow_pos_nonneg; unfold ez; lia).
  assert (Hpy : (0 < 2 ^ (ey - ez))%Z) by (apply Z.pow_pos_nonneg; unfold ez; lia).
  destruct (Z.pos mx * 2 ^ (ex - ez) + Z.pos my * 2 ^ (ey - ez))%Z as [|M|M] eqn:HM;
    [nia| |nia].
  assert (Hval : F2R (Z.pos M) ez = F2R (Z.pos mx) ex + F2R (Z.pos my) ey).
  { rewrite <- HM. unfold F2R at 1. rewrite plus_IZR, Rmult_plus_distr_r.
    f_equal.
    - replace ez with (ex - (ex - ez))%Z at 2 by lia.
      apply (F2R_shift (Z.pos mx) ex (ex - ez)). unfold ez. lia.
    - replace ez with (ey - (ey - ez))%Z at 2 by lia.
      apply (F2R_shift (Z.pos my) ey (ey - ez)). unfold ez. lia. }
  rewrite <- Hval in Hmag |- *.
  apply binary_normalize_nf; try assumption.
  pose proof (digits2_bounds M) as [_ Hhi].
  assert (1 <= Z.pos (digits2_pos M))%Z by lia. unfold ez. lia.
Qed.

Lemma SFsub_nf (x y : float) (vx vy : R) (E : Z) :
  nf x vx -> nf y vy ->
  bpow (-400) <= vx < bpow 400 -> bpow (-400) <= vy < bpow 400 ->
  (E <= 1023)%Z -> vy < vx -> vx - vy < bpow E ->
  exists v, nf (fsub x y) v /\ Rabs (v - (vx - vy)) <= bpow (E - 54).
Proof.
  intros (mx & ex & -> & Hmx & ->) (my & ey & -> & Hmy & ->) Hvx Hvy HE Hlt Hmag.
  pose proof (F2R_exponent mx ex _ _ Hmx Hvx) as Hex.
  pose proof (F2R_exponent my ey _ _ Hmy Hvy) as Hey.
  unfold fsub, SFsub. cbn [cond_Zopp].
  set (ez := Z.min ex ey).
  rewrite !shl_align_fst by (unfold ez; lia).
  assert (Hval : F2R (Z.pos mx * 2 ^ (ex - ez) - Z.pos my * 2 ^ (ey - ez)) ez
                 = F2R (Z.pos mx) ex - F2R (Z.pos my) ey).
  { unfold F2R at 1. rewrite minus_IZR, Rmult_minus_distr_r.
    f_equal.
    - replace ez with (ex - (ex - ez))%Z at 2 by lia.
      apply (F2R_shift (Z.pos mx) ex (ex - ez)). unfold ez. lia.
    - replace ez with (ey - (ey - ez))%Z at 2 by lia.
      apply (F2R_shift (Z.pos my) ey (ey - ez)). unfold ez. lia. }
  destruct (Z.pos mx * 2 ^ (ex - ez) - Z.pos my * 2 ^ (ey - ez))%Z as [|M|M] eqn:HM.
  - exfalso. unfold F2R at 1 in Hval. rewrite Rmult_0_l in Hval. lra.
  - rewrite <- Hval in Hmag |- *.
    apply binary_normalize_nf; try assumption.
    pose proof (digits2_bounds M) as [_ Hhi].
    assert (1 <= Z.pos (digits2_pos M))%Z by lia. unfold ez. lia.
  - exfalso. unfold F2R at 1 in Hval. pose proof (bpow_gt_0 ez).
    assert (IZR (Z.neg M) < 0) by (apply IZR_lt; lia). nra.
Qed.

(** ** Division *)

Lemma new_location_located (q m2 r : Z) :
  (0 <= r < m2)%Z ->
  located (IZR q + IZR r / IZR m2) (shr_record_of_loc q (new_location m2 r)).
Proof.
  intros Hr.
  assert (Hy : 0 < IZR m2) by (apply IZR_lt; lia).
  set (rho := IZR r / IZR m2).
  assert (Hrho : rho * IZR m2 = IZR r) by (unfold rho; field; lra).
  assert (H0 : (r = 0)%Z -> rho = 0).
  { intros ->. unfold rho. field. lra. }
  assert (Hlt : (2 * r < m2)%Z -> rho < 1 / 2).
  { intros H. apply IZR_lt in H. rewrite mult_IZR in H. nra. }
  assert (Hgt : (m2 < 2 * r)%Z -> 1 / 2 < rho).
  { intros H. apply IZR_lt in H. rewrite mult_IZR in H. nra. }
  assert (Heq : (2 * r = m2)%Z -> rho = 1 / 2).
  { intros H. apply (f_equal IZR) in H. rewrite mult_IZR in H. nra. }
  assert (Hpos : (r <> 0)%Z -> 0 < rho).
  { intros H. assert (0 < IZR r) by (apply IZR_lt; lia). nra. }
  assert (Hone : rho < 1).
  { assert (IZR r < IZR m2) by (apply IZR_lt; lia). nra. }
  unfold new_location.
  destruct (Z.even m2) eqn:Heven.
  - unfold new_location_even. destruct (Z.eqb_spec r 0) as [Hz|Hnz].
    + unfold located. cbn. rewrite (H0 Hz). lra.
    + specialize (Hpos Hnz).
      destruct (Z.compare_spec (2 * r) m2) as [Hc|Hc|Hc];
        unfold located; cbn.
      * rewrite (Heq Hc). lra.
      * specialize (Hlt Hc). lra.
      * specialize (Hgt Hc). lra.
  - unfold new_location_odd. destruct (Z.eqb_spec r 0) as [Hz|Hnz].
    + unfold located. cbn. rewrite (H0 Hz). lra.
    + specialize (Hpos Hnz).
      assert (Hodd : (2 * r <> m2)%Z).
      { intros <-. rewrite Z.even_mul in Heven. discriminate. }
      destruct (Z.compare_spec (2 * r + 1) m2) as [Hc|Hc|Hc];
        unfold located; cbn.
      * specialize (Hlt ltac:(lia)). lra.
      * specialize (Hlt ltac:(lia)). lra.
      * specialize (Hgt ltac:(lia)). lra.
Qed.

(** What [SFdiv_core_binary] returns when the quotient is in the range
    of the normal numbers and the dividend has at most 53 digits more
    than the divisor. *)
Lemma SFdiv_core_binary_normal (m1 m2 : positive) (e1 e2 : Z) :
  let d1 := Z.pos (digits2_pos m1) in
  let d2 := Z.pos (digits2_pos m2) in
  let e' := (d1 + e1 - (d2 + e2) - 53)%Z in
  let m' := (Z.pos m1 * 2 ^ (d2 + 53 - d1))%Z in
  (-1074 <= e')%Z -> (d1 <= d2 + 53)%Z ->
  SFdiv_core_binary prec emax (Z.pos m1) e1 (Z.pos m2) e2
  = (m' / Z.pos m2, e', new_location (Z.pos m2) (m' mod Z.pos m2))%Z.
Proof.
  intros d1 d2 e' m' Hlo Hd. unfold SFdiv_core_binary. cbn [Zdigits2].
  fold d1 d2. rewrite fexp_normal by (unfold e' in Hlo; lia).
  replace (Z.min (d1 + e1 - (d2 + e2) - 53) (e1 - e2)) with e'
    by (unfold e'; lia).
  assert (Hs : (e1 - e2 - e' = d2 + 53 - d1)%Z) by (unfold e'; lia).
  rewrite Hs.
  assert (Hm' : match (d2 + 53 - d1)%Z with
                | Z.pos _ => Z.shiftl (Z.pos m1) (d2 + 53 - d1)
                | 0%Z => Z.pos m1
                | Z.neg _ => 0%Z
                end = m').
  { unfold m'. destruct (d2 + 53 - d1)%Z as [|s|s] eqn:Es.
    - cbn. lia.
    - apply Z.shiftl_mul_pow2. lia.
    - lia. }
  rewrite Hm'. unfold Z.div, Z.modulo.
  destruct (Z.div_eucl m' (Z.pos m2)) as [q r]. reflexivity.
Qed.

Lemma SFdiv_nf (m1 m2 : positive) (e1 e2 : Z) (E : Z) :
  let d1 := Z.pos (digits2_pos m1) in
  let d2 := Z.pos (digits2_pos m2) in
  (-1074 <= d1 + e1 - (d2 + e2) - 53)%Z -> (d1 <= d2 + 53)%Z -> (E <= 1023)%Z ->
  F2R (Z.pos m1) e1 / F2R (Z.pos m2) e2 < bpow E ->
  exists v,
    nf (fdiv (S754_finite false m1 e1) (S754_finite false m2 e2)) v
    /\ Rabs (v - F2R (Z.pos m1) e1 / F2R (Z.pos m2) e2) <= bpow (E - 54).
Proof.
  intros d1 d2 Hlo Hd HE Hmag. unfold fdiv, SFdiv. cbn [xorb].
  rewrite SFdiv_core_binary_normal by (fold d1 d2; lia).
  fold d1 d2.
  set (e' := (d1 + e1 - (d2 + e2) - 53)%Z).
  set (s := (d2 + 53 - d1)%Z).
  set (m' := (Z.pos m1 * 2 ^ s)%Z).
  assert (Hs : (0 <= s)%Z) by (unfold s; lia).
  assert (Hps : (0 < 2 ^ s)%Z) by (apply Z.pow_pos_nonneg; lia).
  pose proof (digits2_bounds m1) as Hm1. fold d1 in Hm1.
  pose proof (digits2_bounds m2) as Hm2. fold d2 in Hm2.
  pose proof (Z.div_mod m' (Z.pos m2) ltac:(lia)) as Hdm.
  pose proof (Z.mod_pos_bound m' (Z.pos m2) ltac:(lia)) as Hr.
  set (q := (m' / Z.pos m2)%Z) in *. set (r := (m' mod Z.pos m2)%Z) in *.
  (* the quotient has 53 or 54 digits *)
  assert (Hm'lo : (2 ^ 52 * 2 ^ d2 <= m')%Z).
  { unfold m'.
    replace (2 ^ 52 * 2 ^ d2)%Z with (2 ^ (d1 - 1) * 2 ^ s)%Z
      by (rewrite <- !Z.pow_add_r by lia; f_equal; unfold s; lia).
    nia. }
  assert (Hq : (2 ^ 52 <= q)%Z).
  { apply Z.div_le_lower_bound; [lia|]. nia. }
  destruct q as [|pq|pq] eqn:Eq; [lia| |lia].
  assert (Hval : (IZR (Z.pos pq) + IZR r / IZR (Z.pos m2)) * bpow e'
                 = F2R (Z.pos m1) e1 / F2R (Z.pos m2) e2).
  { assert (Hy : 0 < IZR (Z.pos m2)) by (apply IZR_lt; lia).
    assert (HM : IZR m' = IZR (Z.pos m2) * IZR (Z.pos pq) + IZR r)
      by (rewrite Hdm at 1; now rewrite plus_IZR, mult_IZR).
    unfold m' in HM. rewrite mult_IZR, <- (bpow_IZR s Hs) in HM.
    unfold F2R.
    pose proof (bpow_gt_0 e2). pose proof (bpow_gt_0 e').
    assert (He1 : bpow e1 = bpow s * bpow e' * bpow e2).
    { rewrite <- !bpow_add. f_equal. unfold s, e'. lia. }
    rewrite He1.
    replace (IZR (Z.pos m1) * (bpow s * bpow e' * bpow e2))
      with ((IZR (Z.pos m2) * IZR (Z.pos pq) + IZR r) * bpow e' * bpow e2)
      by (rewrite <- HM; ring).
    field. split; lra. }
  rewrite <- Hval in Hmag |- *.
  apply binary_round_aux_bound; try assumption.
  - apply new_location_located. exact Hr.
  - pose proof (digits2_bounds pq) as [_ Hhi].
    destruct (Z_lt_le_dec (Z.pos (digits2_pos pq)) 53) as [Hlt|]; [|lia].
    pose proof (Z.pow_le_mono_r 2 (Z.pos (digits2_pos pq)) 52 ltac:(lia) ltac:(lia)).
    lia.
  - pose proof (digits2_bounds pq) as [_ Hhi].
    assert (1 <= Z.pos (digits2_pos pq))%Z by lia. fold e' in Hlo.
    destruct (Z_lt_le_dec (Z.pos (digits2_pos pq)) 53) as [Hlt|]; [|lia].
    pose proof (Z.pow_le_mono_r 2 (Z.pos (digits2_pos pq)) 52 ltac:(lia) ltac:(lia)).
    lia.
Qed.

Lemma Rabs_le_inv (x y : R) : Rabs x <= y -> - y <= x <= y.
Proof. unfold Rabs. destruct (Rcase_abs x); lra. Qed.

Lemma IZR_near (a b : Z) : Rabs (IZR a - IZR b) < 1 -> a = b.
Proof.
  intros H. apply Rabs_def2 in H. rewrite <- minus_IZR in H.
  destruct H as [H1 H2]. apply lt_IZR in H1.
  change (- (1)) with (IZR (-1)) in H2. apply lt_IZR in H2. lia.
Qed.

Lemma bpow_neg_IZR (k : Z) : (0 <= k)%Z -> bpow (- k) = / IZR (2 ^ k).
Proof. intros H. now rewrite bpow_opp, bpow_IZR. Qed.

(** ** Whole cents: an integer divided by 100 *)

Lemma of_Z_100 : of_Z 100 = S754_finite false 7036874417766400 (-46).
Proof. reflexivity. Qed.

Lemma F2R_100 : F2R 7036874417766400 (-46) = 100.
Proof.
  change 7036874417766400%Z with (100 * 2 ^ 46)%Z.
  change (-46)%Z with (0 - 46)%Z. rewrite F2R_shift by lia.
  unfold F2R. change (bpow 0) with 1. lra.
Qed.

Lemma cents_nf (n : positive) (E : Z) :
  (Z.pos n < 2 ^ 53)%Z -> (E <= 1023)%Z ->
  IZR (Z.pos n) / 100 < bpow E ->
  exists v,
    nf (fdiv (S754_finite false n 0) (of_Z 100)) v
    /\ Rabs (v - IZR (Z.pos n) / 100) <= bpow (E - 54).
Proof.
  intros Hn HE Hmag. rewrite of_Z_100.
  assert (Hval : F2R (Z.pos n) 0 / F2R 7036874417766400 (-46)
                 = IZR (Z.pos n) / 100).
  { rewrite F2R_100. unfold F2R. change (bpow 0) with 1. now rewrite Rmult_1_r. }
  rewrite <- Hval in Hmag |- *.
  pose proof (digits2_bounds n) as [Hlo _].
  assert (Hd : (1 <= Z.pos (digits2_pos n) <= 53)%Z).
  { split; [lia|].
    destruct (Z_le_gt_dec (Z.pos (digits2_pos n)) 53) as [|Hgt]; [assumption|].
    pose proof (Z.pow_le_mono_r 2 53 (Z.pos (digits2_pos n) - 1)
                  ltac:(lia) ltac:(lia)). lia. }
  apply SFdiv_nf; try assumption.
  - change (Z.pos (digits2_pos 7036874417766400)) with 53%Z. lia.
  - change (Z.pos (digits2_pos 7036874417766400)) with 53%Z. lia.
Qed.

(** ** [round(x, 2)] *)

Lemma round_half_even_near (num den : Z) :
  (0 < den)%Z ->
  Rabs (IZR (round_half_even num den) - IZR num / IZR den) <= 1 / 2.
Proof.
  intros Hden. unfold round_half_even.
  pose proof (Z.div_mod num den ltac:(lia)) as Hdm.
  pose proof (Z.mod_pos_bound num den Hden) as Hr.
  set (q := (num / den)%Z) in *. set (r := (num mod den)%Z) in *.
  assert (Hy : 0 < IZR den) by (apply IZR_lt; lia).
  assert (Hnum : IZR num / IZR den = IZR q + IZR r / IZR den).
  { rewrite Hdm, plus_IZR, mult_IZR. field. lra. }
  rewrite Hnum.
  set (rho := IZR r / IZR den).
  assert (Hrho : rho * IZR den = IZR r) by (unfold rho; field; lra).
  assert (H0 : 0 <= rho).
  { assert (0 <= IZR r) by (apply IZR_le; lia). unfold rho.
    apply Rmult_le_pos; [assumption|]. left. now apply Rinv_0_lt_compat. }
  assert (H1 : rho < 1).
  { assert (IZR r < IZR den) by (apply IZR_lt; lia). nra. }
  destruct (Z.compare_spec (2 * r) den) as [Hc|Hc|Hc].
  - assert (rho = 1 / 2).
    { apply (f_equal IZR) in Hc. rewrite mult_IZR in Hc. nra. }
    destruct (Z.even q); [|rewrite plus_IZR]; apply Rabs_le; lra.
  - assert (rho < 1 / 2).
    { apply IZR_lt in Hc. rewrite mult_IZR in Hc. nra. }
    apply Rabs_le; lra.
  - assert (1 / 2 < rho).
    { apply IZR_lt in Hc. rewrite mult_IZR in Hc. nra. }
    rewrite plus_IZR. apply Rabs_le; lra.
Qed.

Lemma round_half_even_nonneg (num den : Z) :
  (0 <= num)%Z -> (0 < den)%Z -> (0 <= round_half_even num den)%Z.
Proof.
  intros Hnum Hden. unfold round_half_even.
  pose proof (Z.div_pos num den Hnum Hden).
  destruct (2 * (num mod den) ?= den)%Z; [destruct (Z.even _)| |]; lia.
Qed.

(** [round(x, 2)] of a positive float below [2^52] is the nearest whole
    number of cents, divided by 100. *)
Lemma round_nf (x : float) (v : R) :
  nf x v -> v < bpow 52 ->
  exists n : Z,
    (0 <= n)%Z
    /\ Rabs (IZR n - 100 * v) <= 1 / 2
    /\ round x 2 = match n with
                   | Z.pos p => fdiv (S754_finite false p 0) (of_Z 100)
                   | _ => S754_zero false
                   end.
Proof.
  intros (m & e & -> & Hm & ->) Hv.
  assert (He : (e < 0)%Z).
  { unfold F2R in Hv. pose proof (bpow_gt_0 e).
    assert (bpow 52 <= IZR (Z.pos m))
      by (rewrite bpow_IZR by lia; apply IZR_le; lia).
    assert (bpow (52 + e) < bpow 52) by (rewrite bpow_add; nra).
    apply bpow_lt_inv in H1. lia. }
  assert (Hden : (0 < 2 ^ (- e))%Z) by (apply Z.pow_pos_nonneg; lia).
  exists (round_half_even (Z.pos m * 100) (2 ^ (- e))).
  split; [apply round_half_even_nonneg; lia|]. split.
  - replace (100 * F2R (Z.pos m) e)
      with (IZR (Z.pos m * 100) / IZR (2 ^ (- e))).
    + apply round_half_even_near. exact Hden.
    + unfold F2R. replace e with (- (- e))%Z at 2 by lia.
      rewrite bpow_neg_IZR by lia. rewrite mult_IZR.
      assert (0 < IZR (2 ^ (- e))) by (apply IZR_lt; lia).
      field. lra.
  - unfold round. replace (0 <=? e)%Z with false by (symmetry; apply Z.leb_gt; lia).
    change (10 ^ 2)%Z with 100%Z.
    destruct (round_half_even (Z.pos m * 100) (2 ^ (- e))); reflexivity.
Qed.

(** ** The float nearest to a whole number of cents *)

Lemma binary_round_aux_exact (mx : positive) (ex : Z) :
  Z.pos (digits2_pos mx) = 53%Z -> (-1074 <= ex <= 971)%Z ->
  binary_round_aux prec emax false (Z.pos mx) ex loc_Exact = S754_finite false mx ex.
Proof.
  intros Hd He. unfold binary_round_aux, shr_fexp. cbn [Zdigits2].
  rewrite Hd, fexp_normal by lia.
  replace (53 + ex - 53 - ex)%Z with 0%Z by lia.
  cbn [shr shr_record_of_loc shr_m loc_of_shr_record round_nearest_even Zdigits2].
  rewrite Hd, fexp_normal by lia.
  replace (53 + ex - 53 - ex)%Z with 0%Z by lia.
  cbn [shr shr_record_of_loc shr_m].
  replace (ex <=? emax - prec)%Z with true
    by (symmetry; apply Z.leb_le; unfold emax, prec; lia).
  reflexivity.
Qed.

Lemma decimal_cents (c : positive) :
  (Z.pos c < 2 ^ 53)%Z ->
  decimal (Z.pos c) 2 = fdiv (S754_finite false c 0) (of_Z 100).
Proof.
  intros Hc. unfold decimal. change (10 ^ 2)%Z with 100%Z.
  pose proof (digits2_bounds c) as Hdc.
  set (d := Z.pos (digits2_pos c)) in *.
  assert (Hd : (1 <= d <= 53)%Z).
  { split; [unfold d; lia|].
    destruct (Z_le_gt_dec d 53) as [|Hgt]; [assumption|].
    pose proof (Z.pow_le_mono_r 2 53 (d - 1) ltac:(lia) ltac:(lia)). lia. }
  assert (Hof : exists mz : positive,
             of_Z (Z.pos c) = S754_finite false mz (d - 53)
             /\ Z.pos mz = (Z.pos c * 2 ^ (53 - d))%Z
             /\ Z.pos (digits2_pos mz) = 53%Z).
  { unfold of_Z, binary_normalize, binary_round. fold d.
    rewrite Z.add_0_r, fexp_normal by lia. unfold shl_align.
    destruct (d - 53 - 0)%Z as [|k|k] eqn:Hk.
    - assert (Hd53 : d = 53%Z) by lia.
      exists c. rewrite Hd53.
      split; [apply binary_round_aux_exact; [exact Hd53|lia]|].
      split; [cbn; lia|exact Hd53].
    - lia.
    - exists (Pos.iter xO c k).
      assert (Hshift : Z.pos (Pos.iter xO c k) = (Z.pos c * 2 ^ (53 - d))%Z).
      { rewrite pos_iter_xO. f_equal. f_equal. lia. }
      assert (Hp : (0 < 2 ^ (53 - d))%Z) by (apply Z.pow_pos_nonneg; lia).
      assert (Hdig : Z.pos (digits2_pos (Pos.iter xO c k)) = 53%Z).
      { apply digits2_unique. rewrite Hshift.
        replace (2 ^ (53 - 1))%Z with (2 ^ (d - 1) * 2 ^ (53 - d))%Z
          by (rewrite <- Z.pow_add_r by lia; f_equal; lia).
        replace (2 ^ 53)%Z with (2 ^ d * 2 ^ (53 - d))%Z
          by (rewrite <- Z.pow_add_r by lia; f_equal; lia).
        nia. }
      split; [apply binary_round_aux_exact; [assumption|lia]|].
      split; assumption. }
  destruct Hof as (mz & -> & Hmz & Hdz).
  rewrite of_Z_100. unfold fdiv, SFdiv.
  rewrite !SFdiv_core_binary_normal;
    rewrite ?Hdz; fold d;
    change (Z.pos (digits2_pos 7036874417766400)) with 53%Z; try lia.
  rewrite Hmz.
  replace (53 + (d - 53) - (53 + -46) - 53)%Z with (d + 0 - (53 + -46) - 53)%Z by lia.
  replace (Z.pos c * 2 ^ (53 - d) * 2 ^ (53 + 53 - 53))%Z
    with (Z.pos c * 2 ^ (53 + 53 - d))%Z.
  - reflexivity.
  - rewrite <- Z.mul_assoc, <- Z.pow_add_r by lia. f_equal. f_equal. lia.
Qed.

(** ** The payment split on whole cents *)

Lemma decimal_5_2 : decimal 5 2 = S754_finite false 7205759403792794 (-57).
Proof. reflexivity. Qed.

Lemma F2R_5_100 :
  5 / 100 <= F2R 7205759403792794 (-57) <= 5000000001 / 100000000000.
Proof.
  unfold F2R. change (-57)%Z with (- (57))%Z. rewrite bpow_neg_IZR by lia.
  change (2 ^ 57)%Z with 144115188075855872%Z. lra.
Qed.

Lemma bpow_m9 : bpow (-9) = / 512.
Proof. change (-9)%Z with (- (9))%Z. rewrite bpow_neg_IZR by lia. reflexivity. Qed.

Lemma bpow_m13 : bpow (-13) = / 8192.
Proof. change (-13)%Z with (- (13))%Z. rewrite bpow_neg_IZR by lia. reflexivity. Qed.

Lemma bpow_41 : bpow 41 = 2199023255552.
Proof. rewrite bpow_IZR by lia. reflexivity. Qed.

Lemma bpow_45 : bpow 45 = 35184372088832.
Proof. rewrite bpow_IZR by lia. reflexivity. Qed.

Lemma bpow_52 : bpow 52 = 4503599627370496.
Proof. rewrite bpow_IZR by lia. reflexivity. Qed.

Lemma range_ok (v : R) :
  / 1024 <= v -> v < bpow 52 -> bpow (-400) <= v < bpow 400.
Proof.
  intros Hlo Hhi. split.
  - apply Rle_trans with (bpow (-10)); [apply bpow_le; lia|].
    change (-10)%Z with (- (10))%Z. rewrite bpow_neg_IZR by lia.
    change (2 ^ 10)%Z with 1024%Z. exact Hlo.
  - apply Rlt_le_trans with (bpow 52); [exact Hhi|apply bpow_le; lia].
Qed.

(** The split of a price of [c] cents, for 1.00 <= P < 2^45. *)
Lemma split_adds_up (c : positive) :
  (100 <= Z.pos c < 3518437208883200)%Z ->
  let P := decimal (Z.pos c) 2 in
  let platform_fee := round (fmul P (decimal 5 2)) 2 in
  let owner_amount := round (fsub P platform_fee) 2 in
  round (fadd platform_fee owner_amount) 2 = P.
Proof.
  intros Hc. cbv zeta.
  assert (Hc53 : (Z.pos c < 2 ^ 53)%Z) by (change (2 ^ 53)%Z with 9007199254740992%Z; lia).
  rewrite (decimal_cents c Hc53), decimal_5_2.
  set (C := IZR (Z.pos c)).
  assert (HC : 100 <= C <= 3518437208883199) by (unfold C; split; apply IZR_le; lia).
  (* the price *)
  destruct (cents_nf c 45 Hc53 ltac:(lia)) as (vP & HnfP & HeP).
  { rewrite bpow_45. fold C. lra. }
  fold C in HeP. change (45 - 54)%Z with (-9)%Z in HeP. rewrite bpow_m9 in HeP.
  apply Rabs_le_inv in HeP.
  set (P := fdiv (S754_finite false c 0) (of_Z 100)) in *.
  (* the rate *)
  pose proof F2R_5_100 as H5.
  set (v5 := F2R 7205759403792794 (-57)) in *.
  assert (Hnf5 : nf (S754_finite false 7205759403792794 (-57)) v5).
  { exists 7205759403792794%positive, (-57)%Z.
    split; [reflexivity|]. split; [cbn; lia|reflexivity]. }
  assert (Hprod : 5 / 100 * vP <= vP * v5 <= 5000000001 / 100000000000 * vP) by nra.
  (* the product *)
  destruct (SFmul_nf P _ vP v5 41 HnfP Hnf5) as (vt & Hnft & Het).
  { apply range_ok; [lra|rewrite bpow_52; lra]. }
  { apply range_ok; [lra|rewrite bpow_52; lra]. }
  { lia. }
  { rewrite bpow_41. lra. }
  change (41 - 54)%Z with (-13)%Z in Het. rewrite bpow_m13 in Het.
  apply Rabs_le_inv in Het.
  (* the fee *)
  destruct (round_nf _ vt Hnft) as (f & Hf0 & Hfn & Hfee).
  { rewrite bpow_52. lra. }
  apply Rabs_le_inv in Hfn.
  assert (Hf1 : (1 <= f)%Z) by (apply le_IZR; lra).
  destruct f as [|pf|pf]; [lia| |lia].
  rewrite Hfee. clear Hfee.
  set (F := IZR (Z.pos pf)) in *.
  assert (Hpf : (Z.pos pf < 2 ^ 53)%Z).
  { apply lt_IZR. fold F. change (2 ^ 53)%Z with 9007199254740992%Z. lra. }
  destruct (cents_nf pf 41 Hpf ltac:(lia)) as (vfee & Hnffee & Hefee).
  { rewrite bpow_41. fold F. lra. }
  fold F in Hefee. change (41 - 54)%Z with (-13)%Z in Hefee.
  rewrite bpow_m13 in Hefee. apply Rabs_le_inv in Hefee.
  set (fee := fdiv (S754_finite false pf 0) (of_Z 100)) in *.
  (* the difference *)
  destruct (SFsub_nf P fee vP vfee 45 HnfP Hnffee) as (vd & Hnfd & Hed).
  { apply range_ok; [lra|rewrite bpow_52; lra]. }
  { apply range_ok; [lra|rewrite bpow_52; lra]. }
  { lia. }
  { lra. }
  { rewrite bpow_45. lra. }
  change (45 - 54)%Z with (-9)%Z in Hed. rewrite bpow_m9 in Hed.
  apply Rabs_le_inv in Hed.
  (* the owner's amount *)
  destruct (round_nf _ vd Hnfd) as (o & Ho0 & Hon & Hown).
  { rewrite bpow_52. lra. }
  apply Rabs_le_inv in Hon.
  assert (Ho : o = (Z.pos c - Z.pos pf)%Z).
  { apply IZR_near. rewrite minus_IZR. fold C F. apply Rabs_def1; lra. }
  assert (Ho1 : (1 <= o)%Z).
  { apply le_IZR. rewrite Ho, minus_IZR. fold C F. lra. }
  destruct o as [|po|po]; [lia| |lia].
  rewrite Hown. clear Hown.
  set (O := IZR (Z.pos po)) in *.
  assert (HO : O = C - F) by (unfold O; rewrite Ho, minus_IZR; reflexivity).
  assert (Hpo : (Z.pos po < 2 ^ 53)%Z) by lia.
  destruct (cents_nf po 45 Hpo ltac:(lia)) as (vown & Hnfown & Heown).
  { rewrite bpow_45. fold O. lra. }
  fold O in Heown. change (45 - 54)%Z with (-9)%Z in Heown.
  rewrite bpow_m9 in Heown. apply Rabs_le_inv in Heown.
  set (own := fdiv (S754_finite false po 0) (of_Z 100)) in *.
  (* the sum *)
  destruct (SFadd_nf fee own vfee vown 45 Hnffee Hnfown) as (vs & Hnfs & Hes).
  { apply range_ok; [lra|rewrite bpow_52; lra]. }
  { apply range_ok; [lra|rewrite bpow_52; lra]. }
  { lia. }
  { rewrite bpow_45. lra. }
  change (45 - 54)%Z with (-9)%Z in Hes. rewrite bpow_m9 in Hes.
  apply Rabs_le_inv in Hes.
  destruct (round_nf _ vs Hnfs) as (n & Hn0 & Hnn & Hsum).
  { rewrite bpow_52. lra. }
  apply Rabs_le_inv in Hnn.
  assert (Hn : n = Z.pos c).
  { apply IZR_near. fold C. apply Rabs_def1; lra. }
  rewrite Hsum, Hn. reflexivity.
Qed.

End FloatFacts.

(* ================================================================== *)
(** * Properties of the handlers *)

Module Properties.
Import Py Bson Mongo Schemas Database Main Observations.

(** ** Lists *)

Lemma find_update_first_hit {A} (p : A -> bool) (f : A -> A) (l : list A) (a : A) :
  find p l = Some a -> p (f a) = true ->
  find p (update_first p f l) = Some (f a).
Proof.
  induction l as [|x rest IH]; simpl; [discriminate|].
  destruct (p x) eqn:Hx; intros Hfind Hf.
  - injection Hfind as ->. simpl. now rewrite Hf.
  - simpl. rewrite Hx. auto.
Qed.

Lemma update_first_miss {A} (p : A -> bool) (f : A -> A) (l : list A) :
  find p l = None -> update_first p f l = l.
Proof.
  induction l as [|x rest IH]; simpl; [reflexivity|].
  destruct (p x); [discriminate|]. intros H. now rewrite IH.
Qed.

Lemma update_first_In {A} (p : A -> bool) (f : A -> A) (l : list A) (x : A) :
  In x l -> In x (update_first p f l) \/ In (f x) (update_first p f l).
Proof.
  induction l as [|y rest IH]; simpl; [tauto|].
  intros [Heq|Hin]; destruct (p y) eqn:Hy; simpl; subst; auto.
  destruct (IH Hin); auto.
Qed.

Lemma find_none_forall {A} (p : A -> bool) (l : list A) :
  (forall x, In x l -> p x = false) -> find p l = None.
Proof.
  induction l as [|x rest IH]; simpl; [reflexivity|].
  intros H. rewrite (H x (or_introl eq_refl)). apply IH. auto.
Qed.

Lemma firstn_incl {A} (n : nat) (l : list A) (x : A) :
  In x (firstn n l) -> In x l.
Proof.
  revert l. induction n as [|n IH]; intros [|y rest]; simpl; try tauto.
  intros [->|Hin]; auto.
Qed.

(** ** Roles *)

Lemma is_admin_iff (current : Stored User.t) :
  is_admin current = true <-> User.role (fields current) = User.Admin.
Proof.
  unfold is_admin. destruct (User.role (fields current)); simpl;
    split; intros H; try reflexivity; discriminate.
Qed.

Lemma not_admin (current : Stored User.t) :
  User.role (fields current) <> User.Admin -> is_admin current = false.
Proof.
  intros H. destruct (is_admin current) eqn:E; [|reflexivity].
  apply is_admin_iff in E. contradiction.
Qed.

Section Store.
Context {re : RegexEngine}.

(** ** Lookups by identifier *)

Lemma selects_by_id {A} (c : Collection A) (o : oid) (s : Stored A) :
  selects c (by_id o) s = (_id s =? o)%N.
Proof.
  unfold selects, by_id, to_dict, matches. simpl. apply andb_true_r.
Qed.

Lemma find_by_id {A} (c : Collection A) (o : oid) (l : list (Stored A)) :
  find (selects c (by_id o)) l = find (fun s => (_id s =? o)%N) l.
Proof.
  induction l as [|x rest IH]; cbn [find]; [reflexivity|].
  now rewrite selects_by_id, IH.
Qed.

Lemma find_one_by_id {A} (c : Collection A) (o : oid) (db : DB) :
  find_one c (by_id o) db = (Return (get c o db), db).
Proof. unfold find_one, get. now rewrite find_by_id. Qed.

(** Patching the document with identifier [o] keeps it findable under
    [o], provided the patch keeps identifiers. *)
Lemma get_after_patch {A} (c : Collection A) (o : oid) (f : Stored A -> Stored A)
    (l : list (Stored A)) (a : Stored A) :
  (forall s, _id (f s) = _id s) ->
  find (fun s => (_id s =? o)%N) l = Some a ->
  find (fun s => (_id s =? o)%N) (update_first (selects c (by_id o)) f l) = Some (f a).
Proof.
  intros Hid Hfind.
  rewrite <- (find_by_id c). rewrite <- (find_by_id c) in Hfind.
  apply find_update_first_hit; [assumption|].
  rewrite selects_by_id, Hid.
  apply find_some in Hfind. now rewrite selects_by_id in Hfind.
Qed.

End Store.

(** ** Application decisions *)

Section Decisions.
Context {re : RegexEngine}.

(** What [approve_application] does once the application and its
    listing are found. *)
Lemma approve_application_run
    (application_id : string) (approve : bool) (current : Stored User.t) (now : Z)
    (db : DB) (o lo : oid) (a : Stored Application.t) (l : Stored Listing.t) :
  ObjectId application_id = Some o ->
  get application_c o db = Some a ->
  ObjectId (Application.listing_id (fields a)) = Some lo ->
  get listing_c lo db = Some l ->
  approve_application application_id approve current now db =
    if negb (Listing.owner_id (fields l) =? Bson.str (_id current))
       && negb (is_admin current)
    then (HTTPException 403 "Not allowed", db)
    else (Return true, decided o approve now db).
Proof.
  intros Ho Ha Hlo Hl.
  unfold approve_application, bind, object_id.
  rewrite Ho. cbn [ret]. rewrite find_one_by_id, Ha, Hlo. cbn [ret].
  rewrite find_one_by_id, Hl.
  destruct (negb (Listing.owner_id (fields l) =? Bson.str (_id current))
            && negb (is_admin current)); reflexivity.
Qed.

Lemma decided_status (o : oid) (approve : bool) (now : Z) (db : DB)
    (a : Stored Application.t) :
  get application_c o db = Some a ->
  get application_c o (decided o approve now db)
  = Some (with_fields (Application.set_status (decision approve)) now a).
Proof.
  intros Ha. unfold decided, get. cbn [application_c docs put application].
  apply get_after_patch; [reflexivity|exact Ha].
Qed.

Lemma decided_listing (o lo : oid) (approve : bool) (now : Z) (db : DB) :
  get listing_c lo (decided o approve now db) = get listing_c lo db.
Proof. reflexivity. Qed.

End Decisions.

Section DecisionTheorems.
Context {re : RegexEngine}.

(** C4.  For an existing application whose listing exists: an actor who
    is neither the listing's owner nor an admin gets 403 and the store
    (so the application's status) is unchanged; the owner or an admin
    gets a success and the application's status becomes approved when
    [approve] is true and rejected when it is false. *)
Theorem approve_application_authorization
    (application_id : string) (approve : bool) (current : Stored User.t) (now : Z)
    (db : DB) (o lo : oid) (a : Stored Application.t) (l : Stored Listing.t) :
  ObjectId application_id = Some o ->
  get application_c o db = Some a ->
  ObjectId (Application.listing_id (fields a)) = Some lo ->
  get listing_c lo db = Some l ->
  (Listing.owner_id (fields l) <> Bson.str (_id current) ->
   User.role (fields current) <> User.Admin ->
   approve_application application_id approve current now db
   = (HTTPException 403 "Not allowed", db))
  /\
  (Listing.owner_id (fields l) = Bson.str (_id current)
   \/ User.role (fields current) = User.Admin ->
   exists db',
     approve_application application_id approve current now db = (Return true, db')
     /\ status_of o db'
        = Some (if approve then Application.Approved else Application.Rejected)).
Proof.
  intros Ho Ha Hlo Hl.
  rewrite (approve_application_run _ _ _ _ _ _ _ _ _ Ho Ha Hlo Hl).
  split.
  - intros Howner Hrole.
    apply String.eqb_neq in Howner. rewrite Howner, (not_admin _ Hrole).
    reflexivity.
  - intros Hauth.
    assert (negb (Listing.owner_id (fields l) =? Bson.str (_id current))
            && negb (is_admin current) = false) as ->.
    { destruct Hauth as [Howner|Hrole].
      - apply String.eqb_eq in Howner. now rewrite Howner.
      - apply is_admin_iff in Hrole. rewrite Hrole. apply andb_false_r. }
    exists (decided o approve now db). split; [reflexivity|].
    unfold status_of. rewrite (decided_status _ _ _ _ _ Ha).
    destruct approve; reflexivity.
Qed.

(** C8.  Two decisions by authorized actors on an existing application,
    whatever its status before: both succeed, the final status is the
    one the last invocation asked for, and when both ask for the same
    value the second leaves the status where the first put it. *)
Theorem approve_application_last_writer_wins
    (application_id : string) (approve1 approve2 : bool)
    (actor1 actor2 : Stored User.t) (now1 now2 : Z)
    (db : DB) (o lo : oid) (a : Stored Application.t) (l : Stored Listing.t) :
  ObjectId application_id = Some o ->
  get application_c o db = Some a ->
  ObjectId (Application.listing_id (fields a)) = Some lo ->
  get listing_c lo db = Some l ->
  (Listing.owner_id (fields l) = Bson.str (_id actor1)
   \/ User.role (fields actor1) = User.Admin) ->
  (Listing.owner_id (fields l) = Bson.str (_id actor2)
   \/ User.role (fields actor2) = User.Admin) ->
  exists db1 db2,
    approve_application application_id approve1 actor1 now1 db = (Return true, db1)
    /\ approve_application application_id approve2 actor2 now2 db1 = (Return true, db2)
    /\ status_of o db2
       = Some (if approve2 then Application.Approved else Application.Rejected)
    /\ (approve1 = approve2 -> status_of o db2 = status_of o db1).
Proof.
  intros Ho Ha Hlo Hl Hauth1 Hauth2.
  assert (Hgo : forall actor,
    Listing.owner_id (fields l) = Bson.str (_id actor)
    \/ User.role (fields actor) = User.Admin ->
    negb (Listing.owner_id (fields l) =? Bson.str (_id actor))
    && negb (is_admin actor) = false).
  { intros actor [Howner|Hrole].
    - apply String.eqb_eq in Howner. now rewrite Howner.
    - apply is_admin_iff in Hrole. rewrite Hrole. apply andb_false_r. }
  pose (a1 := with_fields (Application.set_status (decision approve1)) now1 a).
  assert (Ha1 : get application_c o (decided o approve1 now1 db) = Some a1)
    by exact (decided_status _ _ _ _ _ Ha).
  exists (decided o approve1 now1 db).
  exists (decided o approve2 now2 (decided o approve1 now1 db)).
  split; [|split; [|split]].
  - rewrite (approve_application_run _ _ _ _ _ _ _ _ _ Ho Ha Hlo Hl).
    now rewrite (Hgo _ Hauth1).
  - rewrite (approve_application_run _ _ _ _ _ o lo a1 l Ho Ha1 Hlo Hl).
    now rewrite (Hgo _ Hauth2).
  - unfold status_of. rewrite (decided_status _ _ _ _ _ Ha1).
    destruct approve2; reflexivity.
  - intros <-. unfold status_of.
    rewrite (decided_status _ _ _ _ _ Ha1), Ha1. reflexivity.
Qed.

End DecisionTheorems.

(** ** Role gates and not-found checks *)

Section Gates.
Context {re : RegexEngine}.
Variable environ : string -> option string.

(** C5.  An actor whose role is not admin gets 403 from each admin
    operation (user listing, user approval, id verification), and the
    store -- in particular every stored user -- is left as it was. *)
Theorem admin_operations_forbidden (current : Stored User.t) (db : DB) :
  User.role (fields current) <> User.Admin ->
  list_users current db = (HTTPException 403 "Admin only", db)
  /\ (forall user_id approve now,
        approve_user user_id approve current now db
        = (HTTPException 403 "Admin only", db))
  /\ (forall user_id verified now,
        verify_id user_id verified current now db
        = (HTTPException 403 "Admin only", db)).
Proof.
  intros Hrole. apply not_admin in Hrole.
  unfold list_users, approve_user, verify_id. rewrite Hrole.
  repeat split.
Qed.

Lemma role_in_tenant_admin (current : Stored User.t) :
  role_in current ["tenant"; "admin"] = true
  <-> User.role (fields current) = User.Tenant
      \/ User.role (fields current) = User.Admin.
Proof.
  unfold role_in. destruct (User.role (fields current)); simpl; split;
    intros H; auto; try discriminate; destruct H; discriminate.
Qed.

Lemma role_in_owners (current : Stored User.t) :
  role_in current ["landlord"; "lodge_owner"; "admin"] = true
  <-> User.role (fields current) <> User.Tenant.
Proof.
  unfold role_in. destruct (User.role (fields current)); simpl; split;
    intros H; auto; try discriminate; try congruence.
Qed.

Lemma not_tenant_admin (current : Stored User.t) :
  User.role (fields current) = User.Landlord
  \/ User.role (fields current) = User.LodgeOwner ->
  role_in current ["tenant"; "admin"] = false.
Proof.
  intros H. destruct (role_in current ["tenant"; "admin"]) eqn:E; [|reflexivity].
  apply role_in_tenant_admin in E. destruct H, E; congruence.
Qed.

(** C3, as the code has it.  With a well-formed identifier of an absent
    resource: the availability update and the application decision
    answer 404 to every actor, before any ownership check; application
    creation and payment initiation check the actor's role first, so a
    landlord or lodge owner gets 403 whether or not the listing exists,
    and a tenant or admin gets 404.  The store is unchanged throughout. *)
Theorem not_found_and_role_order (current : Stored User.t) (db : DB) (o : oid) :
  (forall listing_id is_available now,
     ObjectId listing_id = Some o -> get listing_c o db = None ->
     update_availability listing_id is_available current now db
     = (HTTPException 404 "Listing not found", db))
  /\ (forall application_id approve now,
        ObjectId application_id = Some o -> get application_c o db = None ->
        approve_application application_id approve current now db
        = (HTTPException 404 "Application not found", db))
  /\ (forall application_id approve now a lo,
        ObjectId application_id = Some o -> get application_c o db = Some a ->
        ObjectId (Application.listing_id (fields a)) = Some lo ->
        get listing_c lo db = None ->
        approve_application application_id approve current now db
        = (HTTPException 404 "Listing not found", db))
  /\ (User.role (fields current) = User.Landlord
      \/ User.role (fields current) = User.LodgeOwner ->
      (forall body,
         apply body current db = (HTTPException 403 "Only tenants can apply", db))
      /\ (forall body,
            init_payment environ body current db
            = (HTTPException 403 "Only tenants can pay", db)))
  /\ (User.role (fields current) = User.Tenant
      \/ User.role (fields current) = User.Admin ->
      (forall body,
         ObjectId (ApplicationCreate.listing_id body) = Some o ->
         get listing_c o db = None ->
         apply body current db = (HTTPException 404 "Listing not found", db))
      /\ (forall body,
            ObjectId (PaymentInit.listing_id body) = Some o ->
            get listing_c o db = None ->
            init_payment environ body current db
            = (HTTPException 404 "Listing not found", db))).
Proof.
  split; [|split; [|split; [|split]]].
  - intros listing_id is_available now Ho Hnone.
    unfold update_availability, bind, object_id.
    rewrite Ho. cbn [ret]. now rewrite find_one_by_id, Hnone.
  - intros application_id approve now Ho Hnone.
    unfold approve_application, bind, object_id.
    rewrite Ho. cbn [ret]. now rewrite find_one_by_id, Hnone.
  - intros application_id approve now a lo Ho Ha Hlo Hnone.
    unfold approve_application, bind, object_id.
    rewrite Ho. cbn [ret]. rewrite find_one_by_id, Ha, Hlo. cbn [ret].
    now rewrite find_one_by_id, Hnone.
  - intros Hrole. pose proof (not_tenant_admin _ Hrole) as Hgate.
    split; intros body; [unfold apply|unfold init_payment]; now rewrite Hgate.
  - intros Hrole. apply role_in_tenant_admin in Hrole.
    split; intros body Ho Hnone;
      [unfold apply|unfold init_payment]; unfold bind, object_id;
      rewrite Hrole, Ho; cbn [negb ret]; now rewrite find_one_by_id, Hnone.
Qed.

End Gates.

(** ** Listing creation *)

Section Creation.
Context {lax : LaxFloat}.

Lemma Listing_new_owner owner_id title description price pricing_type property_type
    facilities media_urls location is_available (l : Listing.t) :
  Listing.new owner_id title description price pricing_type property_type
    facilities media_urls location is_available = Some l ->
  Listing.owner_id l = owner_id.
Proof.
  unfold Listing.new.
  destruct (Listing.PricingType_of pricing_type); [|discriminate].
  destruct (Listing.PropertyType_of property_type); [|discriminate].
  destruct (Location.validate location); [|discriminate].
  destruct (fle (of_Z 0) price); [|discriminate].
  intros H. injection H as <-. reflexivity.
Qed.

(** C10.  Whenever [create_listing] succeeds, exactly one listing is
    added to the store, under the returned identifier, and its
    [owner_id] is the caller's identifier whatever the request body
    holds: [ListingCreate] has no owner field. *)
Theorem create_listing_owner_is_caller
    (body : ListingCreate.t) (current : Stored User.t) (db db' : DB)
    (listing_id : string) :
  create_listing body current db = (Return listing_id, db') ->
  exists l : Listing.t,
    listing db' = (listing db ++ [mkStored (next_id db) l None])%list
    /\ listing_id = Bson.str (next_id db)
    /\ Listing.owner_id l = Bson.str (_id current).
Proof.
  unfold create_listing.
  destruct (negb (role_in current ["landlord"; "lodge_owner"; "admin"]));
    [discriminate|].
  unfold bind, validated.
  destruct (Listing.new _ _ _ _ _ _ _ _ _ _) as [l|] eqn:Hnew; [|discriminate].
  cbn. intros H. injection H as <- <-.
  exists l. repeat split. exact (Listing_new_owner _ _ _ _ _ _ _ _ _ _ _ Hnew).
Qed.

End Creation.

(** ** Login *)

Section Login.
Context {re : RegexEngine} {pwd_context : CryptContext} {keys : Jwt.KeyFormat}.
Variable environ : string -> option string.

Lemma identifies_iff (identifier : string) (u : Stored User.t) :
  identifies identifier u = true
  <-> User.email (fields u) = Some identifier
      \/ User.phone (fields u) = Some identifier
      \/ User.national_id (fields u) = identifier.
Proof.
  unfold identifies. rewrite !orb_true_iff.
  destruct (User.email (fields u)) as [e|], (User.phone (fields u)) as [p|];
    rewrite ?String.eqb_eq; intuition congruence.
Qed.

Lemma login_query_selects (identifier : string) (u : Stored User.t) :
  selects user_c
    [Or [ [("email", Eq (VStr identifier))];
          [("phone", Eq (VStr identifier))];
          [("national_id", Eq (VStr identifier))] ]] u
  = identifies identifier u.
Proof.
  unfold selects, identifies, matches, to_dict.
  destruct u as [i [fn r e p n h ia iv] upd]. cbn.
  destruct e, p; cbn; rewrite ?andb_true_r, ?orb_false_r, ?orb_assoc; reflexivity.
Qed.

Lemma login_find (identifier : string) (l : list (Stored User.t)) :
  find (selects user_c
          [Or [ [("email", Eq (VStr identifier))];
                [("phone", Eq (VStr identifier))];
                [("national_id", Eq (VStr identifier))] ]]) l
  = find (identifies identifier) l.
Proof.
  induction l as [|x rest IH]; cbn [find]; [reflexivity|].
  now rewrite login_query_selects, IH.
Qed.

(** What [create_token] does for a subject: the key decides. *)
Lemma create_token_run (user_id : string) (now : Z) (db : DB) :
  create_token environ [("sub", VStr user_id)] default_expiry now db
  = if Jwt.usable (JWT_SECRET environ)
    then (Return
            {| Jwt.claims :=
                 [("sub", VStr user_id);
                  ("exp", VDate (Jwt.numeric_date (now + 86400000000)))];
               Jwt.key := JWT_SECRET environ; Jwt.alg := "HS256" |}, db)
    else (Uncaught "InvalidKeyError", db).
Proof.
  unfold create_token, Jwt.encode.
  destruct (Jwt.usable (JWT_SECRET environ)); reflexivity.
Qed.

Lemma create_token_issued (user_id : string) (now : Z) (db db' : DB) (tok : Jwt.token) :
  create_token environ [("sub", VStr user_id)] default_expiry now db = (Return tok, db') ->
  Jwt.usable (JWT_SECRET environ) = true /\ db' = db /\ issued_for environ tok user_id now.
Proof.
  rewrite create_token_run.
  destruct (Jwt.usable (JWT_SECRET environ)); [|discriminate].
  intros H. injection H as <- <-. repeat split.
Qed.

(** What [login] does: the first stored user that the identifier
    matches decides, then the password, then the key. *)
Lemma login_run (username password : string) (now : Z) (db : DB) :
  login environ username password now db
  = match find (identifies username) (user db) with
    | None => (HTTPException 401 "Invalid credentials", db)
    | Some u =>
        if verify_password password (User.password_hash (fields u)) then
          match create_token environ [("sub", VStr (Bson.str (_id u)))]
                  default_expiry now db with
          | (Return token, db') => (Return (Token.new token), db')
          | (HTTPException c d, db') => (HTTPException c d, db')
          | (Uncaught e, db') => (Uncaught e, db')
          end
        else (HTTPException 401 "Invalid credentials", db)
    end.
Proof.
  unfold login, bind at 1, find_one. cbn [docs user_c]. rewrite login_find.
  destruct (find (identifies username) (user db)) as [u|]; [|reflexivity].
  destruct (verify_password password (User.password_hash (fields u)));
    [|reflexivity].
  cbn [negb]. unfold bind, ret.
  destruct (create_token _ _ _ _ _) as [[token|c d|e] db']; reflexivity.
Qed.

(** C6, as the code has it.  [login] answers 401 "Invalid credentials"
    both when no stored user matches the identifier and when the first
    stored user that matches it ([find] returns the first in storage
    order) has a password hash the password does not verify against --
    whether or not a later user matches too.  When the password verifies
    against the hash of that first user, [login] returns a token whose
    subject is that user's identifier if the signing key is one the
    token library accepts, and ends in the library's uncaught
    [InvalidKeyError] if not.  The store is never changed. *)
Theorem login_invalid_credentials (username password : string) (now : Z) (db : DB) :
  ((forall u, In u (user db) ->
      ~ (User.email (fields u) = Some username
         \/ User.phone (fields u) = Some username
         \/ User.national_id (fields u) = username)) ->
   login environ username password now db
   = (HTTPException 401 "Invalid credentials", db))
  /\ (forall u,
        find (identifies username) (user db) = Some u ->
        verify_password password (User.password_hash (fields u)) = false ->
        login environ username password now db
        = (HTTPException 401 "Invalid credentials", db))
  /\ (forall u,
        find (identifies username) (user db) = Some u ->
        verify_password password (User.password_hash (fields u)) = true ->
        Jwt.usable (JWT_SECRET environ) = true ->
        exists tok,
          login environ username password now db = (Return tok, db)
          /\ dict_get (Jwt.claims (Token.access_token tok)) "sub"
             = Some (VStr (Bson.str (_id u))))
  /\ (forall u,
        find (identifies username) (user db) = Some u ->
        verify_password password (User.password_hash (fields u)) = true ->
        Jwt.usable (JWT_SECRET environ) = false ->
        login environ username password now db = (Uncaught "InvalidKeyError", db)).
Proof.
  rewrite login_run. split; [|split; [|split]].
  - intros Hnone. rewrite find_none_forall; [reflexivity|].
    intros u Hin. destruct (identifies username u) eqn:E; [|reflexivity].
    apply identifies_iff in E. destruct (Hnone u Hin E).
  - intros u -> ->. reflexivity.
  - intros u -> -> Hkey. rewrite create_token_run, Hkey.
    eexists. split; reflexivity.
  - intros u -> -> Hkey. rewrite create_token_run, Hkey. reflexivity.
Qed.

End Login.

(** ** Registration and issued tokens *)

Section Tokens.
Context {re : RegexEngine} {pwd_context : CryptContext} {keys : Jwt.KeyFormat}.
Variable environ : string -> option string.

(** What a successful registration did. *)
Lemma register_success (body : RegisterRequest.t) (salt : string) (now : Z)
    (db db' : DB) (tok : Token.t) :
  register environ body salt now db = (Return tok, db') ->
  exists u : User.t,
    User.new (RegisterRequest.full_name body) (RegisterRequest.role body)
      (RegisterRequest.email body) (RegisterRequest.phone body)
      (RegisterRequest.national_id body)
      (hash_password salt (RegisterRequest.password body)) = Some u
    /\ db' = bump (put user_c (user db ++ [mkStored (next_id db) u None])%list db)
    /\ Jwt.usable (JWT_SECRET environ) = true
    /\ issued_for environ (Token.access_token tok) (Bson.str (next_id db)) now.
Proof.
  unfold register.
  destruct (negb (truthy (RegisterRequest.email body))
            && negb (truthy (RegisterRequest.phone body))); [discriminate|].
  unfold bind at 1, find_one.
  destruct (find _ _); [discriminate|].
  unfold bind at 1, validated.
  destruct (User.new _ _ _ _ _ _) as [u|]; [|discriminate].
  cbn [ret]. unfold bind at 1, create_document. unfold bind.
  destruct (create_token _ _ _ _ _) as [[token|c d|e] db1] eqn:Htok;
    try discriminate.
  cbn [ret]. intros H. injection H as <- <-.
  destruct (create_token_issued _ _ _ _ _ _ Htok) as (Hkey & -> & Hiss).
  exists u. split; [reflexivity|]. split; [reflexivity|]. split; assumption.
Qed.

Lemma login_success (username password : string) (now : Z) (db db' : DB)
    (tok : Token.t) :
  login environ username password now db = (Return tok, db') ->
  exists u : Stored User.t,
    find (identifies username) (user db) = Some u
    /\ verify_password password (User.password_hash (fields u)) = true
    /\ db' = db
    /\ Jwt.usable (JWT_SECRET environ) = true
    /\ issued_for environ (Token.access_token tok) (Bson.str (_id u)) now.
Proof.
  rewrite login_run.
  destruct (find (identifies username) (user db)) as [u|]; [|discriminate].
  destruct (verify_password password (User.password_hash (fields u))) eqn:Hver;
    [|discriminate].
  destruct (create_token _ _ _ _ _) as [[token|c d|e] db1] eqn:Htok;
    try discriminate.
  intros H. injection H as <- <-.
  destruct (create_token_issued _ _ _ _ _ _ Htok) as (Hkey & -> & Hiss).
  exists u. split; [reflexivity|]. split; [exact Hver|].
  split; [reflexivity|]. split; assumption.
Qed.

Lemma numeric_date_bounds (t : Z) :
  (t - 1000000 < Jwt.numeric_date t <= t)%Z
  /\ (Jwt.numeric_date t mod 1000000 = 0)%Z
  /\ ((t mod 1000000 = 0)%Z -> Jwt.numeric_date t = t).
Proof.
  unfold Jwt.numeric_date.
  pose proof (Z.div_mod t 1000000 ltac:(lia)) as Hdm.
  pose proof (Z.mod_pos_bound t 1000000 ltac:(lia)) as Hm.
  split; [lia|]. split; [apply Z.mod_mul; lia|]. lia.
Qed.

(** C9, as the code has it.  The token built for a user id embeds that
    id as its subject, is signed with the process-wide secret using
    HS256, and expires at the issuance time plus 24 hours cut down to
    the whole second: between 24 hours less one second (exclusive) and
    24 hours (inclusive) after issuance, and exactly 24 hours after only
    when the issuance time is itself a whole second.  The token
    returned by a successful [register] is the one built for the newly
    stored user's id; the token returned by a successful [login] is the
    one built for the id of the first stored user that the identifier
    matches, whose hash the password verified against. *)
Theorem issued_token_subject_expiry_key (now : Z) :
  (forall user_id db,
     Jwt.usable (JWT_SECRET environ) = true ->
     exists tok,
       create_token environ [("sub", VStr user_id)] default_expiry now db
       = (Return tok, db)
       /\ issued_for environ tok user_id now)
  /\ (forall body salt db tok db',
        register environ body salt now db = (Return tok, db') ->
        issued_for environ (Token.access_token tok) (Bson.str (next_id db)) now
        /\ exists u, user db' = (user db ++ [mkStored (next_id db) u None])%list)
  /\ (forall username password db tok db',
        login environ username password now db = (Return tok, db') ->
        exists u,
          find (identifies username) (user db) = Some u
          /\ verify_password password (User.password_hash (fields u)) = true
          /\ issued_for environ (Token.access_token tok) (Bson.str (_id u)) now)
  /\ (now + 86400000000 - 1000000 < Jwt.numeric_date (now + 86400000000)
      <= now + 86400000000)%Z
  /\ (Jwt.numeric_date (now + 86400000000) mod 1000000 = 0)%Z
  /\ ((now mod 1000000 = 0)%Z ->
      Jwt.numeric_date (now + 86400000000) = (now + 86400000000)%Z).
Proof.
  split; [|split; [|split]].
  - intros user_id db Hkey. rewrite create_token_run, Hkey.
    eexists. split; [reflexivity|]. repeat split.
  - intros body salt db tok db' H.
    destruct (register_success _ _ _ _ _ _ H) as (u & _ & -> & _ & Hiss).
    split; [exact Hiss|]. now exists u.
  - intros username password db tok db' H.
    destruct (login_success _ _ _ _ _ _ H) as (u & Hfind & Hver & _ & _ & Hiss).
    exists u. split; [exact Hfind|split; [exact Hver|exact Hiss]].
  - destruct (numeric_date_bounds (now + 86400000000)) as (Hb & Hm & Hw).
    split; [exact Hb|]. split; [exact Hm|].
    intros Hnow. apply Hw.
    rewrite Z.add_mod by lia. rewrite Hnow. reflexivity.
Qed.

End Tokens.

(** ** Listing search *)

Section Search.
Context {re : RegexEngine}.

Lemma matches_app (q1 q2 : query) (d : dict) :
  matches (q1 ++ q2)%list d = matches q1 d && matches q2 d.
Proof. apply forallb_app. Qed.

Lemma listing_item_price (s : Stored Listing.t) :
  dict_get (stringify_id (to_dict Listing.model_dump s)) "price"
  = Some (VNum (Listing.price (fields s))).
Proof. destruct s as [i l upd]. reflexivity. Qed.

(** A listing selected by the filters of a search lies within the price
    bounds that were given. *)
Lemma search_filters_price (q property_type : option string)
    (min_price max_price : option float) (is_available : option bool)
    (s : Stored Listing.t) :
  selects listing_c
    (search_filters q property_type min_price max_price is_available) s = true ->
  (forall lo, min_price = Some lo -> fle lo (Listing.price (fields s)) = true)
  /\ (forall hi, max_price = Some hi -> fle (Listing.price (fields s)) hi = true).
Proof.
  unfold selects, search_filters. rewrite !matches_app, !andb_true_iff.
  intros (_ & _ & Hprice & _).
  assert (Hget : dict_get (to_dict (dump listing_c) s) "price"
                 = Some (VNum (Listing.price (fields s))))
    by (destruct s; reflexivity).
  destruct min_price as [lo0|], max_price as [hi0|];
    cbn [matches forallb match_clause match_cond] in Hprice;
    try rewrite Hget in Hprice; cbn [match_range] in Hprice;
    rewrite ?andb_true_iff in Hprice;
    split; intros x Hx; try discriminate; injection Hx as <-; tauto.
Qed.

Lemma search_listings_run (q property_type : option string)
    (min_price max_price : option float) (is_available : option bool) (db : DB) :
  search_listings q property_type min_price max_price is_available db
  = (Return
       (map stringify_id
          (map (to_dict Listing.model_dump)
             (firstn 100
                (filter
                   (selects listing_c
                      (search_filters q property_type min_price max_price
                         is_available))
                   (listing db))))),
     db).
Proof. reflexivity. Qed.

(** C7.  Every item returned by [search_listings] carries a price that
    is at least [min_price] when a minimum is given and at most
    [max_price] when a maximum is given, both bounds inclusive; at most
    100 items are returned and the store is unchanged. *)
Theorem search_listings_price_bounds (q property_type : option string)
    (min_price max_price : option float) (is_available : option bool)
    (db db' : DB) (items : list dict) :
  search_listings q property_type min_price max_price is_available db
  = (Return items, db') ->
  db' = db
  /\ (List.length items <= 100)%nat
  /\ forall item, In item items ->
       exists p, dict_get item "price" = Some (VNum p)
                 /\ (forall lo, min_price = Some lo -> fle lo p = true)
                 /\ (forall hi, max_price = Some hi -> fle p hi = true).
Proof.
  rewrite search_listings_run. intros H.
  assert (Hdb : db' = db) by congruence.
  assert (Hitems : items = map stringify_id
            (map (to_dict Listing.model_dump)
               (firstn 100
                  (filter
                     (selects listing_c
                        (search_filters q property_type min_price max_price
                           is_available))
                     (listing db))))) by congruence.
  clear H. subst items.
  split; [exact Hdb|split].
  - rewrite !length_map. apply firstn_le_length.
  - intros item Hin.
    apply in_map_iff in Hin. destruct Hin as (d & <- & Hin).
    apply in_map_iff in Hin. destruct Hin as (s & <- & Hin).
    apply firstn_incl, filter_In in Hin. destruct Hin as [_ Hsel].
    exists (Listing.price (fields s)). split; [apply listing_item_price|].
    exact (search_filters_price _ _ _ _ _ _ Hsel).
Qed.

End Search.

(** ** Payment split *)

Lemma float_same_eq (a b : float) : float_same a b = true -> a = b.
Proof.
  destruct a, b; simpl; try discriminate; try reflexivity.
  - intros H. apply Bool.eqb_prop in H. now subst.
  - intros H. apply Bool.eqb_prop in H. now subst.
  - rewrite !andb_true_iff. intros [[Hs Hm] He].
    apply Bool.eqb_prop in Hs. apply Pos.eqb_eq in Hm. apply Z.eqb_eq in He.
    now subst.
Qed.

Lemma all_cents_from_sound (n : nat) (lo : Z) :
  all_cents_from n lo = true ->
  forall c, (lo <= c < lo + Z.of_nat n)%Z -> cents_add_up c = true.
Proof.
  revert lo. induction n as [|n IH]; intros lo Hall c Hc; [lia|].
  cbn [all_cents_from] in Hall. apply andb_true_iff in Hall as [Hlo Hrest].
  destruct (Z.eq_dec c lo) as [->|Hne]; [exact Hlo|].
  apply (IH (lo + 1)%Z Hrest). lia.
Qed.

Lemma cents_below_1_00 : all_cents_from (Z.to_nat 100) 0 = true.
Proof. vm_compute. reflexivity. Qed.

Lemma cents_from_2_45 : all_cents_from (Z.to_nat 102) 3518437208883200 = true.
Proof. vm_compute. reflexivity. Qed.

(** The two parts add up for every whole number of cents below
    35184372088833.02: below 1.00 and from [2^45] on by evaluation, in
    between by the error bounds of the operations. *)
Lemma whole_cents_add_up (c : Z) :
  (0 <= c < 3518437208883302)%Z ->
  let P := decimal c 2 in
  let platform_fee := round (fmul P (decimal 5 2)) 2 in
  let owner_amount := round (fsub P platform_fee) 2 in
  round (fadd platform_fee owner_amount) 2 = P.
Proof.
  intros Hc.
  destruct (Z_lt_le_dec c 100) as [Hsmall|Hge].
  - apply float_same_eq.
    apply (all_cents_from_sound (Z.to_nat 100) 0 cents_below_1_00). lia.
  - destruct (Z_lt_le_dec c 3518437208883200) as [Hmid|Htop].
    + destruct c as [|pc|pc]; [lia| |lia].
      apply FloatFacts.split_adds_up. lia.
    + apply float_same_eq.
      apply (all_cents_from_sound (Z.to_nat 102) 3518437208883200 cents_from_2_45).
      lia.
Qed.

Lemma Payment_new_fields listing_id tenant_id owner_id amount method
    platform_fee owner_amount status receipt_id (p : Payment.t) :
  Payment.new listing_id tenant_id owner_id amount method platform_fee
    owner_amount status receipt_id = Some p ->
  Payment.amount p = amount
  /\ Payment.platform_fee p = platform_fee
  /\ Payment.owner_amount p = owner_amount.
Proof.
  unfold Payment.new.
  destruct (Payment.Method_of method); [|discriminate].
  destruct (fle (of_Z 0) amount); [|discriminate].
  intros H. injection H as <-. repeat split.
Qed.

Section Payments.
Context {re : RegexEngine}.
Variable environ : string -> option string.

(** C1, as the code has it.  A successful [init_payment] on a listing
    priced [P] stores one new payment with [amount = P],
    [platform_fee = round(P * 0.05, 2)] and
    [owner_amount = round(P - platform_fee, 2)]; when [P] is a whole
    number of cents below 35184372088833.02 -- the float nearest to
    [c / 100] for an integer [0 <= c < 3518437208883302] -- the two
    parts add up to [P] again once the sum is rounded to 2 decimals. *)
Theorem init_payment_split (body : PaymentInit.t) (current : Stored User.t)
    (db db' : DB) (resp : PaymentResponse.t) :
  init_payment environ body current db = (Return resp, db') ->
  exists (l : Stored Listing.t) (p : Stored Payment.t),
    ObjectId (PaymentInit.listing_id body) = Some (_id l)
    /\ In l (listing db)
    /\ In p (payment db')
    /\ _id p = next_id db
    /\ PaymentResponse.payment_id resp = Bson.str (_id p)
    /\ Payment.amount (fields p) = Listing.price (fields l)
    /\ Payment.platform_fee (fields p)
       = round (fmul (Listing.price (fields l)) (decimal 5 2)) 2
    /\ Payment.owner_amount (fields p)
       = round (fsub (Listing.price (fields l)) (Payment.platform_fee (fields p))) 2
    /\ (forall c, (0 <= c < 3518437208883302)%Z ->
          Listing.price (fields l) = decimal c 2 ->
          round (fadd (Payment.platform_fee (fields p))
                      (Payment.owner_amount (fields p))) 2
          = Listing.price (fields l)).
Proof.
  unfold init_payment.
  destruct (negb (role_in current ["tenant"; "admin"])); [discriminate|].
  unfold bind at 1, object_id.
  destruct (ObjectId (PaymentInit.listing_id body)) as [o|] eqn:Ho;
    [|discriminate].
  cbn [ret]. unfold bind at 1. rewrite find_one_by_id.
  destruct (get listing_c o db) as [l|] eqn:Hl; [|discriminate].
  unfold bind at 1, validated.
  destruct (Payment.new _ _ _ _ _ _ _ _ _) as [pay|] eqn:Hnew; [|discriminate].
  cbn [ret]. unfold bind at 1, create_document at 1.
  unfold bind at 1, create_document at 1.
  unfold bind at 1.
  destruct (ObjectId (Bson.str (next_id db))) as [po|]; [|discriminate].
  cbn [ret]. unfold bind, update_one, ret.
  intros H. injection H as <- <-.
  apply find_some in Hl. destruct Hl as [Hin Hid]. apply N.eqb_eq in Hid.
  destruct (Payment_new_fields _ _ _ _ _ _ _ _ _ _ Hnew) as (Ha & Hf & Hw).
  pose (stored := mkStored (next_id db) pay None).
  assert (Hstored : In stored (payment db ++ [stored])%list)
    by (apply in_or_app; right; left; reflexivity).
  destruct (update_first_In
              (selects payment_c (by_id po))
              (only_fields (Payment.set_receipt_id (Bson.str (N.succ (next_id db)))))
              _ _ Hstored) as [Hp|Hp].
  - exists l, stored. subst o. cbn [_id fields stored].
    rewrite Ha, Hf, Hw.
    repeat split; try assumption; try reflexivity.
    intros c Hc HP. rewrite HP. exact (whole_cents_add_up c Hc).
  - exists l, (only_fields (Payment.set_receipt_id
                              (Bson.str (N.succ (next_id db)))) stored).
    subst o. cbn [_id fields stored only_fields Payment.set_receipt_id
                  Payment.amount Payment.platform_fee Payment.owner_amount].
    rewrite Ha, Hf, Hw.
    repeat split; try assumption; try reflexivity.
    intros c Hc HP. rewrite HP. exact (whole_cents_add_up c Hc).
Qed.

End Payments.

(** ** Registration: what the uniqueness query selects *)

Lemma find_exists {A} (p : A -> bool) (l : list A) (x : A) :
  In x l -> p x = true -> exists y, find p l = Some y.
Proof.
  induction l as [|z rest IH]; simpl; [tauto|].
  intros [->|Hin] Hx.
  - rewrite Hx. eauto.
  - destruct (p z); eauto.
Qed.

Section Registration.
Context {re : RegexEngine} {pwd_context : CryptContext} {keys : Jwt.KeyFormat}.
Variable environ : string -> option string.

Lemma same_contact_neq (stored given : option string) :
  stored <> given -> same_contact stored given = false.
Proof.
  destruct stored as [a|], given as [b|]; cbn; try reflexivity.
  intros H. apply String.eqb_neq. congruence.
Qed.

(** The query of [register]: an alternative for a contact that was not
    given is the empty document, which every stored user satisfies. *)
Lemma register_query_selects (email phone : option string) (national_id : string)
    (u : Stored User.t) :
  selects user_c
    [Or [ (if truthy email then [("email", Eq (opt_str email))] else []);
          (if truthy phone then [("phone", Eq (opt_str phone))] else []);
          [("national_id", Eq (VStr national_id))] ]] u
  = (if truthy email then same_contact (User.email (fields u)) email else true)
    || (if truthy phone then same_contact (User.phone (fields u)) phone else true)
    || (User.national_id (fields u) =? national_id).
Proof.
  unfold selects, matches, to_dict.
  destruct u as [i [fn r e p n h ia iv] upd].
  cbn [forallb match_clause existsb fields dump user_c User.model_dump
       User.email User.phone User.national_id].
  rewrite andb_true_r, orb_false_r, orb_assoc.
  f_equal; [f_equal|].
  - destruct email as [x|]; [|reflexivity]. cbn [truthy].
    destruct (negb (x =? "")); [|reflexivity].
    destruct e; cbn; now rewrite ?andb_true_r.
  - destruct phone as [x|]; [|reflexivity]. cbn [truthy].
    destruct (negb (x =? "")); [|reflexivity].
    destruct p; cbn; now rewrite ?andb_true_r.
  - cbn. apply andb_true_r.
Qed.

(** With only one of email and phone given, [register] answers 400 as
    soon as the store holds any user at all. *)
Lemma register_one_contact_rejected (body : RegisterRequest.t) (salt : string)
    (now : Z) (db : DB) :
  truthy (RegisterRequest.email body) = false
  \/ truthy (RegisterRequest.phone body) = false ->
  user db <> [] ->
  exists detail,
    register environ body salt now db = (HTTPException 400 detail, db).
Proof.
  intros Hone Hne. unfold register.
  destruct (negb (truthy (RegisterRequest.email body))
            && negb (truthy (RegisterRequest.phone body))); [eexists; reflexivity|].
  unfold bind, find_one. cbn [docs user_c].
  destruct (user db) as [|u rest]; [contradiction|].
  cbn [find]. rewrite register_query_selects.
  assert ((if truthy (RegisterRequest.email body)
           then same_contact (User.email (fields u)) (RegisterRequest.email body)
           else true)
          || (if truthy (RegisterRequest.phone body)
              then same_contact (User.phone (fields u)) (RegisterRequest.phone body)
              else true)
          || (User.national_id (fields u) =? RegisterRequest.national_id body)
          = true) as ->.
  { destruct Hone as [-> | ->]; rewrite ?orb_true_r; reflexivity. }
  eexists; reflexivity.
Qed.

(** X6.  A request whose email, phone or national id is already stored
    gets 400, and nothing is written. *)
Lemma register_duplicate_rejected (body : RegisterRequest.t) (salt : string)
    (now : Z) (db : DB) (u : Stored User.t) :
  In u (user db) ->
  (truthy (RegisterRequest.email body) = true
   /\ User.email (fields u) = RegisterRequest.email body)
  \/ (truthy (RegisterRequest.phone body) = true
      /\ User.phone (fields u) = RegisterRequest.phone body)
  \/ User.national_id (fields u) = RegisterRequest.national_id body ->
  exists detail,
    register environ body salt now db = (HTTPException 400 detail, db).
Proof.
  intros Hin Hdup. unfold register.
  destruct (negb (truthy (RegisterRequest.email body))
            && negb (truthy (RegisterRequest.phone body))); [eexists; reflexivity|].
  unfold bind, find_one. cbn [docs user_c].
  match goal with
  | |- context [find ?q (user db)] =>
      destruct (find_exists q (user db) u Hin) as [y Hy]
  end.
  - rewrite register_query_selects.
    destruct Hdup as [[Ht He]|[[Ht Hp]|Hn]].
    + rewrite Ht, He. destruct (RegisterRequest.email body) as [x|];
        [|discriminate]. cbn. now rewrite String.eqb_refl.
    + rewrite Ht, Hp. destruct (RegisterRequest.phone body) as [x|];
        [|discriminate]. cbn. rewrite String.eqb_refl.
      now rewrite orb_true_r.
    + rewrite Hn, String.eqb_refl. apply orb_true_r.
  - rewrite Hy. eexists; reflexivity.
Qed.

(** X7.  With both email and phone given, a valid role and no stored
    user sharing the email, the phone or the national id, [register]
    stores the new user; it then returns a token whose subject is the
    new user's identifier when the signing key is one the token library
    accepts, and ends in the library's uncaught [InvalidKeyError], the
    user already stored, when it is not. *)
Lemma register_both_contacts_fresh (body : RegisterRequest.t) (salt : string)
    (now : Z) (db : DB) (r : User.Role) :
  truthy (RegisterRequest.email body) = true ->
  truthy (RegisterRequest.phone body) = true ->
  User.Role_of (RegisterRequest.role body) = Some r ->
  (forall u, In u (user db) ->
     User.email (fields u) <> RegisterRequest.email body
     /\ User.phone (fields u) <> RegisterRequest.phone body
     /\ User.national_id (fields u) <> RegisterRequest.national_id body) ->
  (Jwt.usable (JWT_SECRET environ) = true ->
   exists tok db' u,
     register environ body salt now db = (Return tok, db')
     /\ user db' = (user db ++ [mkStored (next_id db) u None])%list
     /\ dict_get (Jwt.claims (Token.access_token tok)) "sub"
        = Some (VStr (Bson.str (next_id db))))
  /\ (Jwt.usable (JWT_SECRET environ) = false ->
      exists db' u,
        register environ body salt now db = (Uncaught "InvalidKeyError", db')
        /\ user db' = (user db ++ [mkStored (next_id db) u None])%list).
Proof.
  intros He Hp Hr Hfresh.
  assert (Hnone :
    find (selects user_c
            [Or [ [("email", Eq (opt_str (RegisterRequest.email body)))];
                  [("phone", Eq (opt_str (RegisterRequest.phone body)))];
                  [("national_id", Eq (VStr (RegisterRequest.national_id body)))] ]])
      (user db) = None).
  { apply find_none_forall.
    intros u Hin. destruct (Hfresh u Hin) as (Hue & Hup & Hun).
    pose proof (register_query_selects (RegisterRequest.email body)
                  (RegisterRequest.phone body)
                  (RegisterRequest.national_id body) u) as Hq.
    rewrite He, Hp in Hq. cbv iota in Hq. rewrite Hq.
    apply String.eqb_neq in Hun.
    now rewrite Hun, (same_contact_neq _ _ Hue), (same_contact_neq _ _ Hup). }
  split; intros Hkey; unfold register; rewrite He, Hp; cbn [negb andb];
    unfold bind at 1, find_one; cbn [docs user_c]; rewrite Hnone;
    unfold bind at 1, validated, User.new; rewrite Hr; cbn [ret];
    unfold bind at 1, create_document; unfold bind at 1;
    rewrite create_token_run, Hkey; cbn.
  - eexists _, _, _. repeat split.
  - eexists _, _. repeat split.
Qed.

End Registration.

End Properties.

(* ================================================================== *)
(** * The handlers on concrete requests *)

Module Examples.
Import Py Bson Mongo Schemas Database Main Observations Fixtures Properties.

#[local] Existing Instance literal_engine.
#[local] Existing Instance plaintext.
#[local] Existing Instance by_prefix.
#[local] Existing Instance plain_decimals.

(** ** Payment split *)

(** C1 fails as stated.  Paying for the listing priced 0.105 stores a
    fee of 0.01 and an owner amount of 0.10: their sum is 0.11 to 2
    decimals, the price is 0.10 to 2 decimals.  Paying for the listing
    priced 1000000000000001152 stores two parts whose sum is 128 below
    the price. *)
Lemma init_payment_sum_differs_from_price :
  (exists resp db' p,
     init_payment no_env (pay_for 6%N) tenant db0 = (Return resp, db')
     /\ payment db' = [p]
     /\ Payment.amount (fields p) = decimal 105 3
     /\ Payment.platform_fee (fields p) = decimal 1 2
     /\ Payment.owner_amount (fields p) = decimal 10 2
     /\ round (fadd (Payment.platform_fee (fields p))
                    (Payment.owner_amount (fields p))) 2 = decimal 11 2
     /\ round (Payment.amount (fields p)) 2 = decimal 10 2
     /\ feq (round (fadd (Payment.platform_fee (fields p))
                         (Payment.owner_amount (fields p))) 2)
            (round (Payment.amount (fields p)) 2) = false)
  /\ (exists resp db' p,
        init_payment no_env (pay_for 9%N) tenant db0 = (Return resp, db')
        /\ payment db' = [p]
        /\ Payment.amount (fields p) = of_Z 1000000000000001152
        /\ fadd (Payment.platform_fee (fields p)) (Payment.owner_amount (fields p))
           = of_Z 1000000000000001024
        /\ feq (round (fadd (Payment.platform_fee (fields p))
                            (Payment.owner_amount (fields p))) 2)
               (round (Payment.amount (fields p)) 2) = false).
Proof.
  split.
  - eexists _, _, _. split; [vm_compute; reflexivity|].
    split; [reflexivity|]. vm_compute. repeat split.
  - eexists _, _, _. split; [vm_compute; reflexivity|].
    split; [reflexivity|]. vm_compute. repeat split.
Qed.

Lemma init_payment_split_witness :
  exists resp db' p,
    init_payment no_env (pay_for 8%N) tenant db0 = (Return resp, db')
    /\ In p (payment db')
    /\ Payment.platform_fee (fields p) = round (fmul (decimal 8999 2) (decimal 5 2)) 2
    /\ round (fadd (Payment.platform_fee (fields p))
                   (Payment.owner_amount (fields p))) 2 = decimal 8999 2.
Proof.
  assert (Hex : exists resp db',
             init_payment no_env (pay_for 8%N) tenant db0 = (Return resp, db'))
    by (vm_compute; eauto).
  destruct Hex as (resp & db' & Hrun).
  destruct (init_payment_split no_env _ _ _ _ _ Hrun)
    as (l & p & Ho & Hl & Hp & _ & _ & _ & Hfee & _ & Hsum).
  assert (Hprice : Listing.price (fields l) = decimal 8999 2).
  { simpl in Hl. destruct Hl as [<-|[<-|[<-|[<-|[<-|[]]]]]];
      vm_compute in Ho; try discriminate Ho. reflexivity. }
  exists resp, db', p. rewrite Hprice in Hfee, Hsum.
  repeat split; try assumption.
  apply (Hsum 8999%Z); [lia|reflexivity].
Defined.

(** The range of whole cents in C1 cannot be extended: at the price
    35184372088833.02 the fee is 1759218604441.65, the owner amount
    33425153484391.38, and their sum is 35184372088833.03 to 2
    decimals. *)
Lemma first_whole_cents_off_by_one :
  let P := decimal 3518437208883302 2 in
  let platform_fee := round (fmul P (decimal 5 2)) 2 in
  let owner_amount := round (fsub P platform_fee) 2 in
  platform_fee = decimal 175921860444165 2
  /\ owner_amount = decimal 3342515348439138 2
  /\ round (fadd platform_fee owner_amount) 2 = decimal 3518437208883303 2
  /\ cents_add_up 3518437208883302 = false.
Proof. vm_compute. repeat split. Qed.

(** ** Registration *)

(** C2 fails on the code: no stored user has Chipo's phone or national
    id, she gives no email, and [register] still answers "User already
    exists", because the alternative built for the missing email is the
    empty document. *)
Lemma register_phone_only_rejected :
  (forall u, In u (user db0) ->
     User.phone (fields u) <> RegisterRequest.phone chipo_phone_only
     /\ User.national_id (fields u) <> RegisterRequest.national_id chipo_phone_only)
  /\ register no_env chipo_phone_only "salt" 0 db0
     = (HTTPException 400 "User already exists", db0).
Proof.
  split; [|reflexivity].
  intros u [<-|[<-|[<-|[]]]]; split; discriminate.
Qed.

(** ** Gates *)

(** C3 fails as stated: listing 99 does not exist, and a landlord who
    applies for it is answered 403, not 404. *)
Lemma apply_absent_listing_forbidden_first :
  ObjectId (ApplicationCreate.listing_id (apply_to 99%N)) = Some 99%N
  /\ get listing_c 99%N db0 = None
  /\ apply (apply_to 99%N) owner db0
     = (HTTPException 403 "Only tenants can apply", db0).
Proof. repeat split. Qed.

Lemma not_found_and_role_order_witness :
  update_availability (Bson.str 99%N) false tenant 5 db0
  = (HTTPException 404 "Listing not found", db0)
  /\ approve_application (Bson.str 99%N) true tenant 5 db0
     = (HTTPException 404 "Application not found", db0)
  /\ init_payment no_env (pay_for 8%N) owner db0
     = (HTTPException 403 "Only tenants can pay", db0)
  /\ apply (apply_to 99%N) tenant db0
     = (HTTPException 404 "Listing not found", db0)
  /\ init_payment no_env (pay_for 99%N) root_admin db0
     = (HTTPException 404 "Listing not found", db0).
Proof.
  split; [|split; [|split; [|split]]].
  - apply (proj1 (not_found_and_role_order no_env tenant db0 99%N)); reflexivity.
  - apply (proj1 (proj2 (not_found_and_role_order no_env tenant db0 99%N)));
      reflexivity.
  - apply (proj1 (proj2 (proj2 (proj2
             (not_found_and_role_order no_env owner db0 99%N))))).
    left. reflexivity.
  - apply (proj2 (proj2 (proj2 (proj2
             (not_found_and_role_order no_env tenant db0 99%N))))).
    + left. reflexivity.
    + reflexivity.
    + reflexivity.
  - apply (proj2 (proj2 (proj2 (proj2
             (not_found_and_role_order no_env root_admin db0 99%N))))).
    + right. reflexivity.
    + reflexivity.
    + reflexivity.
Defined.

Lemma admin_operations_forbidden_witness :
  list_users tenant db0 = (HTTPException 403 "Admin only", db0)
  /\ approve_user (Bson.str 2%N) true tenant 5 db0
     = (HTTPException 403 "Admin only", db0)
  /\ verify_id (Bson.str 2%N) true owner 5 db0
     = (HTTPException 403 "Admin only", db0).
Proof.
  split; [|split].
  - apply (admin_operations_forbidden tenant db0). discriminate.
  - apply (admin_operations_forbidden tenant db0). discriminate.
  - apply (admin_operations_forbidden owner db0). discriminate.
Defined.

(** ** Decisions *)

Lemma approve_application_authorization_witness :
  approve_application (Bson.str 5%N) true tenant 77 db0
  = (HTTPException 403 "Not allowed", db0)
  /\ exists db',
       approve_application (Bson.str 5%N) false root_admin 77 db0 = (Return true, db')
       /\ status_of 5%N db' = Some Application.Rejected.
Proof.
  split.
  - apply (approve_application_authorization (Bson.str 5%N) true tenant 77 db0
             5%N 4%N request_1 (room_at 4%N (decimal 15000 2)));
      try reflexivity; discriminate.
  - apply (approve_application_authorization (Bson.str 5%N) false root_admin 77 db0
             5%N 4%N request_1 (room_at 4%N (decimal 15000 2)));
      try reflexivity. right. reflexivity.
Defined.

Lemma approve_application_last_writer_wins_witness :
  exists db1 db2,
    approve_application (Bson.str 5%N) true owner 10 db0 = (Return true, db1)
    /\ approve_application (Bson.str 5%N) false root_admin 20 db1 = (Return true, db2)
    /\ status_of 5%N db2 = Some Application.Rejected
    /\ (true = false -> status_of 5%N db2 = status_of 5%N db1).
Proof.
  apply (approve_application_last_writer_wins (Bson.str 5%N) true false
           owner root_admin 10 20 db0 5%N 4%N request_1
           (room_at 4%N (decimal 15000 2)));
    try reflexivity.
  - left. reflexivity.
  - right. reflexivity.
Defined.

(** ** Login and tokens *)

(** C6 fails as stated.  Tatenda and Kuda both register; the national
    id of the first is the phone number of the second.  Kuda then logs
    in with that phone number and the right password: a stored user
    matches the identifier and the password verifies against its hash,
    yet [login] answers 401, because the lookup returned Tatenda. *)
Lemma login_later_match_refused :
  exists tok1 db1 tok2 db2 u,
    register no_env tatenda "salt" 0 empty_db = (Return tok1, db1)
    /\ register no_env kuda "salt" 1 db1 = (Return tok2, db2)
    /\ In u (user db2)
    /\ User.phone (fields u) = Some "0771000022"
    /\ verify_password "kuda-pw" (User.password_hash (fields u)) = true
    /\ login no_env "0771000022" "kuda-pw" 2 db2
       = (HTTPException 401 "Invalid credentials", db2).
Proof.
  eexists _, _, _, _, _.
  split; [vm_compute; reflexivity|].
  split; [vm_compute; reflexivity|].
  split; [right; left; reflexivity|].
  repeat split.
Qed.

Lemma login_invalid_credentials_witness :
  login no_env "nobody@example.com" "rudo-pw" 0 db0
  = (HTTPException 401 "Invalid credentials", db0)
  /\ login no_env "rudo@example.com" "guess" 0 db0
     = (HTTPException 401 "Invalid credentials", db0)
  /\ (exists tok,
        login no_env "63-1234567A01" "rudo-pw" 0 db0 = (Return tok, db0)
        /\ dict_get (Jwt.claims (Token.access_token tok)) "sub"
           = Some (VStr (Bson.str 1%N)))
  /\ login empty_secret "63-1234567A01" "rudo-pw" 0 db0
     = (Uncaught "InvalidKeyError", db0).
Proof.
  split; [|split; [|split]].
  - apply (proj1 (login_invalid_credentials no_env "nobody@example.com" "rudo-pw"
                    0 db0)).
    intros u [<-|[<-|[<-|[]]]] [H|[H|H]]; discriminate H.
  - apply (proj1 (proj2 (login_invalid_credentials no_env "rudo@example.com"
                           "guess" 0 db0)) owner); reflexivity.
  - apply (proj1 (proj2 (proj2 (login_invalid_credentials no_env "63-1234567A01"
                                  "rudo-pw" 0 db0))) owner); reflexivity.
  - apply (proj2 (proj2 (proj2 (login_invalid_credentials empty_secret
                                  "63-1234567A01" "rudo-pw" 0 db0))) owner);
      reflexivity.
Defined.

(** C9 fails as stated.  A token issued one millisecond after a whole
    second expires 24 hours after that whole second, one millisecond
    short of 24 hours after issuance; presented half a millisecond
    before the 24 hours are over it is refused. *)
Lemma token_expires_on_whole_second :
  exists tok,
    login no_env "+263771000002" "tendai-pw" 1000 db0 = (Return tok, db0)
    /\ dict_get (Jwt.claims (Token.access_token tok)) "exp"
       = Some (VDate 86400000000)
    /\ (86400000000 <> 1000 + 86400000000)%Z
    /\ (86400000500 < 1000 + 86400000000)%Z
    /\ get_current_user no_env (Token.access_token tok) 86400000500 db0
       = (HTTPException 401 "Could not validate credentials", db0)
    /\ get_current_user no_env (Token.access_token tok) 86399999999 db0
       = (Return tenant, db0).
Proof.
  eexists. split; [vm_compute; reflexivity|].
  split; [reflexivity|]. split; [discriminate|]. split; [reflexivity|].
  split; reflexivity.
Qed.

Lemma issued_token_subject_expiry_key_witness :
  (exists tok db',
     register no_env chipo_both "salt" 1000 db0 = (Return tok, db')
     /\ issued_for no_env (Token.access_token tok) (Bson.str 10%N) 1000)
  /\ (exists tok,
        login no_env "+263771000002" "tendai-pw" 1000 db0 = (Return tok, db0)
        /\ issued_for no_env (Token.access_token tok) (Bson.str 2%N) 1000)
  /\ (exists tok,
        create_token no_env [("sub", VStr (Bson.str 2%N))] default_expiry 0 db0
        = (Return tok, db0)
        /\ dict_get (Jwt.claims tok) "exp" = Some (VDate 86400000000)).
Proof.
  split; [|split].
  - assert (Hex : exists tok db',
               register no_env chipo_both "salt" 1000 db0 = (Return tok, db'))
      by (vm_compute; eauto).
    destruct Hex as (tok & db' & Hrun). exists tok, db'. split; [exact Hrun|].
    exact (proj1 (proj1 (proj2 (issued_token_subject_expiry_key no_env 1000))
                    chipo_both "salt" db0 tok db' Hrun)).
  - assert (Hex : exists tok,
               login no_env "+263771000002" "tendai-pw" 1000 db0 = (Return tok, db0))
      by (vm_compute; eauto).
    destruct Hex as (tok & Hrun).
    destruct (proj1 (proj2 (proj2 (issued_token_subject_expiry_key no_env 1000)))
                _ _ _ _ _ Hrun) as (u & Hfind & _ & Hiss).
    vm_compute in Hfind. injection Hfind as <-.
    exists tok. split; [exact Hrun|exact Hiss].
  - assert (Hkey : Jwt.usable (JWT_SECRET no_env) = true) by reflexivity.
    destruct (proj1 (issued_token_subject_expiry_key no_env 0)
                (Bson.str 2%N) db0 Hkey) as (tok & Hrun & Hiss).
    exists tok. split; [exact Hrun|].
    rewrite (proj1 (proj2 Hiss)). reflexivity.
Defined.

(** ** Listings *)

Lemma search_listings_price_bounds_witness :
  exists items,
    search_listings None None (Some (of_Z 100)) (Some (of_Z 200)) (Some true) db0
    = (Return items, db0)
    /\ List.length items = 1%nat
    /\ forall item, In item items ->
         exists p, dict_get item "price" = Some (VNum p)
                   /\ fle (of_Z 100) p = true /\ fle p (of_Z 200) = true.
Proof.
  eexists. split; [reflexivity|]. split; [reflexivity|].
  intros item Hin.
  destruct (proj2 (proj2 (search_listings_price_bounds None None
                            (Some (of_Z 100)) (Some (of_Z 200)) (Some true)
                            db0 db0 _ eq_refl)) item Hin)
    as (p & Hp & Hlo & Hhi).
  exists p. repeat split; [exact Hp|apply Hlo|apply Hhi]; reflexivity.
Defined.

Lemma create_listing_owner_is_caller_witness :
  exists listing_id db' l,
    create_listing cottage root_admin db0 = (Return listing_id, db')
    /\ listing db' = (listing db0 ++ [mkStored 10%N l None])%list
    /\ Listing.owner_id l = Bson.str 3%N.
Proof.
  assert (Hex : exists listing_id db',
             create_listing cottage root_admin db0 = (Return listing_id, db'))
    by (vm_compute; eauto).
  destruct Hex as (listing_id & db' & Hrun).
  destruct (create_listing_owner_is_caller _ _ _ _ _ Hrun) as (l & Hl & _ & Ho).
  exists listing_id, db', l. repeat split; assumption.
Defined.

End Examples.

(* ================================================================== *)
(** * Further properties of the handlers *)

Module Coverage.
Import Py Bson Mongo Schemas Database Main Dashboards Observations Properties.

(** ** Identifiers and their strings *)

Lemma hex_val_digit (d : N) : (d < 16)%N -> hex_val (hex_digit d) = Some d.
Proof.
  intros H.
  assert (d = 0 \/ d = 1 \/ d = 2 \/ d = 3 \/ d = 4 \/ d = 5 \/ d = 6 \/ d = 7
          \/ d = 8 \/ d = 9 \/ d = 10 \/ d = 11 \/ d = 12 \/ d = 13 \/ d = 14
          \/ d = 15)%N as Hd by lia.
  repeat (destruct Hd as [->|Hd]; [reflexivity|]). subst. reflexivity.
Qed.

Lemma tohex_length (k : nat) (n : N) (acc : string) :
  String.length (tohex k n acc) = (k + String.length acc)%nat.
Proof.
  revert n acc. induction k as [|k IH]; intros n acc; simpl; [reflexivity|].
  rewrite IH. simpl. lia.
Qed.

Lemma is_space_digit (d : N) : (d < 16)%N -> is_space (hex_digit d) = false.
Proof.
  intros H.
  assert (d = 0 \/ d = 1 \/ d = 2 \/ d = 3 \/ d = 4 \/ d = 5 \/ d = 6 \/ d = 7
          \/ d = 8 \/ d = 9 \/ d = 10 \/ d = 11 \/ d = 12 \/ d = 13 \/ d = 14
          \/ d = 15)%N as Hd by lia.
  repeat (destruct Hd as [->|Hd]; [reflexivity|]). subst. reflexivity.
Qed.

Lemma fromhex_tohex (k : nat) (n : N) (acc : string) :
  fromhex (tohex (2 * k) n acc) = option_map (app (bytes_be k n)) (fromhex acc).
Proof.
  revert n acc. induction k as [|k IH]; intros n acc.
  - change (2 * 0)%nat with 0%nat. cbn [tohex bytes_be].
    destruct (fromhex acc); reflexivity.
  - replace (2 * S k)%nat with (S (S (2 * k))) by lia.
    cbn [tohex bytes_be]. rewrite IH. cbn [fromhex].
    rewrite is_space_digit, !hex_val_digit by (apply N.mod_lt; lia).
    replace (n / 16 / 16)%N with (n / 256)%N
      by (rewrite N.Div0.div_div; reflexivity).
    replace (16 * ((n / 16) mod 16) + n mod 16)%N with (n mod 256)%N
      by (change 256%N with (16 * 16)%N; rewrite (N.Div0.mod_mul_r n 16 16); lia).
    destruct (fromhex acc) as [bs|]; [|reflexivity].
    cbn [option_map]. now rewrite <- app_assoc.
Qed.

Lemma bytes_be_length (k : nat) (n : N) : List.length (bytes_be k n) = k.
Proof.
  revert n. induction k as [|k IH]; intros n; [reflexivity|].
  cbn [bytes_be]. rewrite length_app, IH. cbn. lia.
Qed.

Lemma bytes_be_value (k : nat) (n : N) :
  fold_left (fun acc b => (256 * acc + b)%N) (bytes_be k n) 0%N
  = (n mod 256 ^ N.of_nat k)%N.
Proof.
  revert n. induction k as [|k IH]; intros n.
  - cbn. now rewrite N.mod_1_r.
  - cbn [bytes_be]. rewrite fold_left_app, IH. cbn [fold_left].
    rewrite Nat2N.inj_succ, N.pow_succ_r'.
    rewrite (N.Div0.mod_mul_r n 256 (256 ^ N.of_nat k)). lia.
Qed.

Lemma ObjectId_str_bytes (o : oid) :
  ObjectId (Bson.str o) = Some (o mod 2 ^ 96)%N.
Proof.
  unfold ObjectId, Bson.str. rewrite tohex_length.
  cbn [String.length Nat.add Nat.eqb].
  change 24%nat with (2 * 12)%nat. rewrite fromhex_tohex.
  cbn [fromhex option_map]. rewrite app_nil_r.
  unfold of_bytes. rewrite bytes_be_length, bytes_be_value. reflexivity.
Qed.

(** Parsing the string of a 12-byte identifier gives the identifier back. *)
Lemma ObjectId_str (o : oid) : (o < 2 ^ 96)%N -> ObjectId (Bson.str o) = Some o.
Proof.
  intros H. rewrite ObjectId_str_bytes. f_equal. now apply N.mod_small.
Qed.

(** The string of any identifier parses. *)
Lemma ObjectId_str_some (o : oid) : exists o', ObjectId (Bson.str o) = Some o'.
Proof. rewrite ObjectId_str_bytes. eauto. Qed.

(** Fewer than 12 bytes make an identifier that is no 12-byte value. *)
Lemma of_bytes_short (bs : list N) :
  (List.length bs < 12)%nat -> (2 ^ 96 <= of_bytes bs)%N.
Proof.
  intros H. unfold of_bytes.
  destruct (Nat.eqb_spec (List.length bs) 12) as [Heq|_]; [lia|].
  assert (1 <= N.of_nat (12 - List.length bs))%N by lia. nia.
Qed.

Lemma get_of_ids_ok {A} (c : Collection A) (db : DB) (s : Stored A) :
  NoDup (map _id (docs c db)) -> In s (docs c db) -> get c (_id s) db = Some s.
Proof.
  unfold get. induction (docs c db) as [|x rest IH]; simpl; [tauto|].
  intros Hnd [->|Hin].
  - now rewrite N.eqb_refl.
  - inversion Hnd as [|? ? Hnotin Hnd']; subst.
    destruct (N.eqb_spec (_id x) (_id s)) as [Heq|Hne]; [|auto].
    exfalso. apply Hnotin. rewrite Heq. now apply in_map.
Qed.

Lemma str_not_empty (o : oid) : (Bson.str o =? "") = false.
Proof.
  apply String.eqb_neq. intros H.
  pose proof (tohex_length 24 o "") as Hlen. fold (Bson.str o) in Hlen.
  rewrite H in Hlen. discriminate Hlen.
Qed.

Lemma find_app_last {A} (p : A -> bool) (l : list A) (x : A) :
  find p l = None -> p x = true -> find p (l ++ [x]) = Some x.
Proof.
  induction l as [|y rest IH]; simpl; intros Hnone Hx; [now rewrite Hx|].
  destruct (p y); [discriminate|auto].
Qed.

(** ** Authentication *)

Section Authentication.
Context {re : RegexEngine} {pwd_context : CryptContext} {keys : Jwt.KeyFormat}.
Variable environ : string -> option string.

(** X1.  [get_current_user] either returns a stored user -- the token
    then verifies under the process key with HS256, is not expired, and
    its subject parses to that user's identifier -- or answers 401
    "Could not validate credentials": the details "Invalid token" and
    "User not found" raised inside never reach the caller.  The store is
    unchanged either way. *)
Theorem get_current_user_outcomes (token : Jwt.token) (now : Z) (db : DB) :
  (exists u user_id,
     get_current_user environ token now db = (Return u, db)
     /\ In u (user db)
     /\ Jwt.decode token (JWT_SECRET environ) ["HS256"] now = Some (Jwt.claims token)
     /\ dict_get (Jwt.claims token) "sub" = Some (VStr user_id)
     /\ ObjectId user_id = Some (_id u))
  \/ get_current_user environ token now db
     = (HTTPException 401 "Could not validate credentials", db).
Proof.
  unfold get_current_user, try_except, bind.
  destruct (Jwt.decode token (JWT_SECRET environ) [JWT_ALG] now) as [payload|] eqn:Hdec;
    [|right; reflexivity].
  assert (Hpay : payload = Jwt.claims token).
  { unfold Jwt.decode in Hdec.
    destruct (_ && _); [|discriminate].
    destruct (dict_get (Jwt.claims token) "exp") as [[]|];
      try discriminate; try congruence.
    destruct (now <? t)%Z; congruence. }
  subst payload. cbn [ret].
  destruct (dict_get (Jwt.claims token) "sub") as [[| |user_id| | | | |]|] eqn:Hsub;
    try (right; reflexivity).
  destruct (user_id =? ""); [right; reflexivity|].
  unfold object_id.
  destruct (ObjectId user_id) as [o|] eqn:Ho; [|right; reflexivity].
  cbn [ret]. rewrite find_one_by_id.
  destruct (get user_c o db) as [u|] eqn:Hget; [|right; reflexivity].
  left. exists u, user_id.
  apply find_some in Hget. destruct Hget as [Hin Hid]. apply N.eqb_eq in Hid.
  subst o. repeat split; assumption.
Qed.

(** A token issued for a stored user is accepted until it expires. *)
Lemma get_current_user_accepts (tok : Jwt.token) (o : oid) (u : Stored User.t)
    (issued later : Z) (db : DB) :
  issued_for environ tok (Bson.str o) issued ->
  Jwt.usable (JWT_SECRET environ) = true ->
  (later < Jwt.numeric_date (issued + 86400000000))%Z ->
  (o < 2 ^ 96)%N -> get user_c o db = Some u ->
  get_current_user environ tok later db = (Return u, db).
Proof.
  intros (Hsub & Hexp & Hkey & Halg) Hok Hlater Ho Hget.
  unfold get_current_user, try_except, bind, Jwt.decode.
  rewrite Hok, Hkey, Halg, String.eqb_refl, Hexp.
  apply Z.ltb_lt in Hlater. rewrite Hlater.
  cbn [andb existsb orb ret JWT_ALG String.eqb Ascii.eqb Bool.eqb].
  rewrite Hsub, str_not_empty. unfold object_id.
  rewrite (ObjectId_str o Ho). cbn [ret].
  rewrite find_one_by_id, Hget. reflexivity.
Qed.

Lemma get_current_user_expired (tok : Jwt.token) (sub : string) (issued later : Z)
    (db : DB) :
  issued_for environ tok sub issued ->
  (Jwt.numeric_date (issued + 86400000000) <= later)%Z ->
  get_current_user environ tok later db
  = (HTTPException 401 "Could not validate credentials", db).
Proof.
  intros (_ & Hexp & _ & _) Hlater.
  unfold get_current_user, try_except, bind, Jwt.decode.
  rewrite Hexp. apply Z.ltb_ge in Hlater. rewrite Hlater.
  destruct (_ && _); reflexivity.
Qed.

(** X2.  In a store whose user identifiers are distinct 12-byte values,
    the token returned by a successful [login] authenticates as the
    first stored user that the identifier matches until the token
    expires, which is at the last whole second not after 24 hours from
    issuance; from then on it is refused with 401.  So it is accepted
    for at least 24 hours less one second and refused from 24 hours on. *)
Theorem login_token_authenticates (username password : string) (now later : Z)
    (db db' : DB) (tok : Token.t) :
  ids_ok (user db) ->
  login environ username password now db = (Return tok, db') ->
  exists u,
    find (identifies username) (user db) = Some u
    /\ ((later < Jwt.numeric_date (now + 86400000000))%Z ->
        get_current_user environ (Token.access_token tok) later db' = (Return u, db'))
    /\ ((Jwt.numeric_date (now + 86400000000) <= later)%Z ->
        get_current_user environ (Token.access_token tok) later db'
        = (HTTPException 401 "Could not validate credentials", db'))
    /\ ((later <= now + 86399000000)%Z ->
        get_current_user environ (Token.access_token tok) later db' = (Return u, db'))
    /\ ((now + 86400000000 <= later)%Z ->
        get_current_user environ (Token.access_token tok) later db'
        = (HTTPException 401 "Could not validate credentials", db')).
Proof.
  intros [Hnd Hsmall] Hlogin.
  destruct (login_success _ _ _ _ _ _ _ Hlogin) as (u & Hfind & _ & -> & Hkey & Hiss).
  exists u. split; [exact Hfind|].
  apply find_some in Hfind. destruct Hfind as [Hin _].
  rewrite Forall_forall in Hsmall.
  pose proof (get_of_ids_ok user_c db u Hnd Hin) as Hget.
  pose proof (numeric_date_bounds (now + 86400000000)) as (Hb & _ & _).
  split; [|split; [|split]]; intros Hlater.
  - apply (get_current_user_accepts _ (_id u) u now); auto.
  - now apply (get_current_user_expired _ (Bson.str (_id u)) now).
  - apply (get_current_user_accepts _ (_id u) u now); auto. lia.
  - apply (get_current_user_expired _ (Bson.str (_id u)) now); auto. lia.
Qed.

(** X3.  When the identifier the store hands out next is a 12-byte value
    no stored user carries, the token returned by a successful
    [register] authenticates, until it expires at the last whole second
    not after 24 hours from issuance, as the user that was just stored. *)
Theorem register_token_authenticates (body : RegisterRequest.t) (salt : string)
    (now later : Z) (db db' : DB) (tok : Token.t) :
  fresh_for user_c db ->
  register environ body salt now db = (Return tok, db') ->
  (later < Jwt.numeric_date (now + 86400000000))%Z ->
  exists u,
    get_current_user environ (Token.access_token tok) later db' = (Return u, db')
    /\ _id u = next_id db
    /\ User.national_id (fields u) = RegisterRequest.national_id body
    /\ In u (user db').
Proof.
  intros [Hsmall Hfresh] Hreg Hlater.
  destruct (register_success _ _ _ _ _ _ _ Hreg) as (u & Hnew & -> & Hkey & Hiss).
  exists (mkStored (next_id db) u None).
  assert (Hget : get user_c (next_id db)
                   (bump (put user_c (user db ++ [mkStored (next_id db) u None])%list db))
                 = Some (mkStored (next_id db) u None)).
  { unfold get. cbn [docs user_c put bump user].
    apply find_app_last; [exact Hfresh|]. cbn [_id]. apply N.eqb_refl. }
  split; [|split; [reflexivity|split]].
  - apply (get_current_user_accepts _ (next_id db) _ now); assumption.
  - unfold User.new in Hnew. destruct (User.Role_of _); [|discriminate].
    injection Hnew as <-. reflexivity.
  - cbn [bump put user_c user]. apply in_or_app. right. left. reflexivity.
Qed.

End Authentication.

(** ** Registration *)

Section Registering.
Context {re : RegexEngine} {pwd_context : CryptContext} {keys : Jwt.KeyFormat}.
Variable environ : string -> option string.

(** The user a successful [register] stored. *)
Lemma register_success_user (body : RegisterRequest.t) (salt : string)
    (now : Z) (db db' : DB) (tok : Token.t) :
  register environ body salt now db = (Return tok, db') ->
  exists r,
    User.Role_of (RegisterRequest.role body) = Some r
    /\ Jwt.usable (JWT_SECRET environ) = true
    /\ db' = bump (put user_c
                     (user db ++
                      [mkStored (next_id db)
                         {| User.full_name := RegisterRequest.full_name body;
                            User.role := r;
                            User.email := RegisterRequest.email body;
                            User.phone := RegisterRequest.phone body;
                            User.national_id := RegisterRequest.national_id body;
                            User.password_hash :=
                              hash_password salt (RegisterRequest.password body);
                            User.is_approved := false;
                            User.id_verified := false |} None])%list db).
Proof.
  intros Hreg.
  destruct (register_success _ _ _ _ _ _ _ Hreg) as (u & Hnew & -> & Hkey & _).
  unfold User.new in Hnew.
  destruct (User.Role_of (RegisterRequest.role body)) as [r|]; [|discriminate].
  injection Hnew as <-. exists r. split; [reflexivity|]. split; [exact Hkey|reflexivity].
Qed.

(** X4.  A successful [register] appends exactly one user, under the
    identifier the store hands out: its name, contacts and national id
    are the request's, its role is the requested one of the four, its
    password is stored hashed, and it is neither approved nor
    id-verified whatever the request says.  No other collection changes. *)
Theorem register_stores_requested_user (body : RegisterRequest.t) (salt : string)
    (now : Z) (db db' : DB) (tok : Token.t) :
  register environ body salt now db = (Return tok, db') ->
  exists r,
    User.Role_of (RegisterRequest.role body) = Some r
    /\ user db'
       = (user db ++
          [mkStored (next_id db)
             {| User.full_name := RegisterRequest.full_name body;
                User.role := r;
                User.email := RegisterRequest.email body;
                User.phone := RegisterRequest.phone body;
                User.national_id := RegisterRequest.national_id body;
                User.password_hash :=
                  hash_password salt (RegisterRequest.password body);
                User.is_approved := false;
                User.id_verified := false |} None])%list
    /\ next_id db' = N.succ (next_id db)
    /\ listing db' = listing db /\ application db' = application db
    /\ payment db' = payment db /\ receipt db' = receipt db.
Proof.
  intros Hreg.
  destruct (register_success_user _ _ _ _ _ _ Hreg) as (r & Hr & _ & ->).
  exists r. repeat split. exact Hr.
Qed.

(** X5.  A request whose role is not one of the four never registers
    and never writes; when both contacts are given and nothing about it
    is stored yet, the failure is the model's [ValidationError], which
    no handler catches, not a 400. *)
Theorem register_unknown_role (body : RegisterRequest.t) (salt : string)
    (now : Z) (db : DB) :
  User.Role_of (RegisterRequest.role body) = None ->
  (exists out, register environ body salt now db = (out, db)
               /\ forall tok, out <> Return tok)
  /\ (truthy (RegisterRequest.email body) = true ->
      truthy (RegisterRequest.phone body) = true ->
      (forall u, In u (user db) ->
         User.email (fields u) <> RegisterRequest.email body
         /\ User.phone (fields u) <> RegisterRequest.phone body
         /\ User.national_id (fields u) <> RegisterRequest.national_id body) ->
      register environ body salt now db = (Uncaught "ValidationError", db)).
Proof.
  intros Hrole. split.
  - unfold register.
    destruct (negb _ && negb _); [eexists; split; [reflexivity|discriminate]|].
    unfold bind, find_one. destruct (find _ _);
      [eexists; split; [reflexivity|discriminate]|].
    unfold validated, User.new. rewrite Hrole.
    eexists; split; [reflexivity|discriminate].
  - intros He Hp Hfresh. unfold register. rewrite He, Hp. cbn [negb andb].
    unfold bind, find_one. cbn [docs user_c].
    rewrite find_none_forall.
    + unfold validated, User.new. now rewrite Hrole.
    + intros u Hin. destruct (Hfresh u Hin) as (Hue & Hup & Hun).
      pose proof (register_query_selects (RegisterRequest.email body)
                    (RegisterRequest.phone body)
                    (RegisterRequest.national_id body) u) as Hq.
      rewrite He, Hp in Hq. cbv iota in Hq. rewrite Hq.
      apply String.eqb_neq in Hun.
      now rewrite Hun, (same_contact_neq _ _ Hue), (same_contact_neq _ _ Hup).
Qed.

(** X8.  After a successful [register], [login] with an identifier of
    the request (its email, phone or national id) that matched no user
    stored before, and with the request's password, returns a token
    whose subject is the new user's identifier -- provided the password
    context verifies a password against its own hash. *)
Theorem login_after_register (body : RegisterRequest.t) (salt identifier : string)
    (now now' : Z) (db db' : DB) (tok : Token.t) :
  register environ body salt now db = (Return tok, db') ->
  verify_password (RegisterRequest.password body)
    (hash_password salt (RegisterRequest.password body)) = true ->
  RegisterRequest.email body = Some identifier
  \/ RegisterRequest.phone body = Some identifier
  \/ RegisterRequest.national_id body = identifier ->
  (forall u, In u (user db) -> identifies identifier u = false) ->
  exists tok',
    login environ identifier (RegisterRequest.password body) now' db'
    = (Return tok', db')
    /\ dict_get (Jwt.claims (Token.access_token tok')) "sub"
       = Some (VStr (Bson.str (next_id db))).
Proof.
  intros Hreg Hverify Hid Hnone.
  destruct (register_success_user _ _ _ _ _ _ Hreg) as (r & _ & Hkey & ->).
  rewrite login_run. cbn [put bump user_c user].
  rewrite (find_app_last (identifies identifier) (user db) _
             (find_none_forall _ _ Hnone)).
  - cbn [fields User.password_hash _id]. rewrite Hverify.
    rewrite create_token_run, Hkey. eexists. split; reflexivity.
  - apply (identifies_iff environ).
    cbn [fields User.email User.phone User.national_id]. exact Hid.
Qed.

End Registering.

(** ** Listings *)

Lemma find_update_first_other {A} (p q : A -> bool) (f : A -> A) (l : list A) :
  (forall x, p x = true -> q x = false /\ q (f x) = false) ->
  find q (update_first p f l) = find q l.
Proof.
  intros H. induction l as [|x rest IH]; simpl; [reflexivity|].
  destruct (p x) eqn:Hp; simpl.
  - destruct (H x Hp) as [-> ->]. reflexivity.
  - now rewrite IH.
Qed.

Lemma PricingType_of_str (s : string) (p : Listing.PricingType) :
  Listing.PricingType_of s = Some p -> Listing.PricingType_str p = s.
Proof.
  unfold Listing.PricingType_of.
  repeat match goal with
         | |- context [if ?a =? ?b then _ else _] =>
             destruct (String.eqb_spec a b)
         end; intros H; try discriminate; injection H as <-; subst; reflexivity.
Qed.

Lemma PropertyType_of_str (s : string) (p : Listing.PropertyType) :
  Listing.PropertyType_of s = Some p -> Listing.PropertyType_str p = s.
Proof.
  unfold Listing.PropertyType_of.
  repeat match goal with
         | |- context [if ?a =? ?b then _ else _] =>
             destruct (String.eqb_spec a b)
         end; intros H; try discriminate; injection H as <-; subst; reflexivity.
Qed.

Section Listings.
Context {re : RegexEngine} {lax : LaxFloat}.

(** X9.  On an existing listing, [update_availability] by an actor who
    is neither its owner nor an admin answers 403 and changes nothing;
    by the owner or an admin it succeeds, the listing then has the given
    availability and the time of the update, its other fields are as
    before, and no other listing or collection changes. *)
Theorem update_availability_effect (listing_id : string) (is_available : bool)
    (current : Stored User.t) (now : Z) (db : DB) (o : oid) (l : Stored Listing.t) :
  ObjectId listing_id = Some o ->
  get listing_c o db = Some l ->
  (Listing.owner_id (fields l) <> Bson.str (_id current) ->
   User.role (fields current) <> User.Admin ->
   update_availability listing_id is_available current now db
   = (HTTPException 403 "Not allowed", db))
  /\
  (Listing.owner_id (fields l) = Bson.str (_id current)
   \/ User.role (fields current) = User.Admin ->
   exists db' l',
     update_availability listing_id is_available current now db = (Return true, db')
     /\ get listing_c o db' = Some l'
     /\ Listing.is_available (fields l') = is_available
     /\ updated_at l' = Some now
     /\ Listing.owner_id (fields l') = Listing.owner_id (fields l)
     /\ Listing.price (fields l') = Listing.price (fields l)
     /\ Listing.title (fields l') = Listing.title (fields l)
     /\ (forall o', o' <> o -> get listing_c o' db' = get listing_c o' db)
     /\ user db' = user db /\ application db' = application db
     /\ payment db' = payment db /\ receipt db' = receipt db
     /\ next_id db' = next_id db).
Proof.
  intros Ho Hl.
  unfold update_availability, bind, object_id. rewrite Ho. cbn [ret].
  rewrite find_one_by_id, Hl. split.
  - intros Howner Hrole. apply String.eqb_neq in Howner.
    now rewrite Howner, (not_admin _ Hrole).
  - intros Hauth.
    assert (negb (Listing.owner_id (fields l) =? Bson.str (_id current))
            && negb (is_admin current) = false) as ->.
    { destruct Hauth as [Howner|Hrole].
      - apply String.eqb_eq in Howner. now rewrite Howner.
      - apply is_admin_iff in Hrole. rewrite Hrole. apply andb_false_r. }
    unfold update_one, ret.
    eexists _, (with_fields (Listing.set_is_available is_available) now l).
    split; [reflexivity|]. split; [|repeat split].
    + unfold get. cbn [docs put listing_c listing].
      apply get_after_patch; [reflexivity|exact Hl].
    + intros o' Hne. unfold get. cbn [docs put listing_c listing].
      apply find_update_first_other. intros x Hx.
      rewrite selects_by_id in Hx. apply N.eqb_eq in Hx.
      cbn [with_fields _id]. rewrite Hx.
      split; apply N.eqb_neq; congruence.
Qed.

Lemma Listing_new_fields owner_id title description price pricing_type
    property_type facilities media_urls location is_available (l : Listing.t) :
  Listing.new owner_id title description price pricing_type property_type
    facilities media_urls location is_available = Some l ->
  Listing.title l = title
  /\ Listing.description l = description
  /\ Listing.price l = price
  /\ fle (of_Z 0) price = true
  /\ Listing.PricingType_str (Listing.pricing_type l) = pricing_type
  /\ Listing.PropertyType_str (Listing.property_type l) = property_type
  /\ Listing.facilities l = facilities
  /\ Listing.media_urls l = media_urls
  /\ Location.validate location = Some (Listing.location l)
  /\ Listing.is_available l = is_available.
Proof.
  unfold Listing.new.
  destruct (Listing.PricingType_of pricing_type) as [pt|] eqn:Hpt; [|discriminate].
  destruct (Listing.PropertyType_of property_type) as [ty|] eqn:Hty; [|discriminate].
  destruct (Location.validate location) as [loc|]; [|discriminate].
  destruct (fle (of_Z 0) price) eqn:Hge; [|discriminate].
  intros H. injection H as <-. cbn.
  repeat split; auto using PricingType_of_str, PropertyType_of_str.
Qed.

(** What a successful [create_listing] did. *)
Lemma create_listing_success (body : ListingCreate.t) (current : Stored User.t)
    (db db' : DB) (listing_id : string) :
  create_listing body current db = (Return listing_id, db') ->
  role_in current ["landlord"; "lodge_owner"; "admin"] = true
  /\ listing_id = Bson.str (next_id db)
  /\ exists l : Listing.t,
       Listing.new (Bson.str (_id current))
         (ListingCreate.title body) (ListingCreate.description body)
         (ListingCreate.price body) (ListingCreate.pricing_type body)
         (ListingCreate.property_type body) (ListingCreate.facilities body)
         (ListingCreate.media_urls body) (ListingCreate.location body)
         (ListingCreate.is_available body) = Some l
       /\ db' = bump (put listing_c
                        (listing db ++ [mkStored (next_id db) l None])%list db).
Proof.
  unfold create_listing.
  destruct (role_in current ["landlord"; "lodge_owner"; "admin"]); [|discriminate].
  cbn [negb]. unfold bind, validated.
  destruct (Listing.new _ _ _ _ _ _ _ _ _ _) as [l|] eqn:Hnew; [|discriminate].
  cbn. intros H. injection H as <- <-.
  split; [reflexivity|split; [reflexivity|]]. exists l. split; reflexivity.
Qed.

(** X12.  Whenever [create_listing] succeeds the caller is not a tenant
    and the listing stored carries the request's fields after
    validation: a price that is not negative (and not a NaN), a pricing
    type and a property type among the allowed literals, and the
    location that [Location] read from the request's [dict], its
    coordinates converted to floats where they were not numbers. *)
Theorem create_listing_stores_validated_request
    (body : ListingCreate.t) (current : Stored User.t) (db db' : DB)
    (listing_id : string) :
  create_listing body current db = (Return listing_id, db') ->
  User.role (fields current) <> User.Tenant
  /\ exists l : Listing.t,
       listing db' = (listing db ++ [mkStored (next_id db) l None])%list
       /\ Listing.title l = ListingCreate.title body
       /\ Listing.price l = ListingCreate.price body
       /\ fle (of_Z 0) (Listing.price l) = true
       /\ Listing.PricingType_str (Listing.pricing_type l)
          = ListingCreate.pricing_type body
       /\ Listing.PropertyType_str (Listing.property_type l)
          = ListingCreate.property_type body
       /\ Location.validate (ListingCreate.location body) = Some (Listing.location l)
       /\ Listing.is_available l = ListingCreate.is_available body.
Proof.
  intros Hcreate.
  destruct (create_listing_success _ _ _ _ _ Hcreate) as (Hrole & _ & l & Hnew & ->).
  split; [now apply role_in_owners|].
  destruct (Listing_new_fields _ _ _ _ _ _ _ _ _ _ _ Hnew)
    as (Ht & _ & Hp & Hge & Hpt & Hty & _ & _ & Hloc & Ha).
  exists l. rewrite Hp. repeat split; assumption.
Qed.

Lemma filter_app_last {A} (p : A -> bool) (l : list A) (x : A) :
  p x = true -> filter p (l ++ [x]) = (filter p l ++ [x])%list.
Proof. intros H. rewrite filter_app. simpl. now rewrite H. Qed.

(** X13.  A listing that [create_listing] has just stored is returned by
    a search on its availability alone, with its identifier as a string
    and its title, price and owner intact -- as long as fewer than 100
    listings were stored before. *)
Theorem created_listing_is_found (body : ListingCreate.t) (current : Stored User.t)
    (db db' : DB) (listing_id : string) :
  create_listing body current db = (Return listing_id, db') ->
  (List.length (listing db) < 100)%nat ->
  exists items item,
    search_listings None None None None (Some (ListingCreate.is_available body)) db'
    = (Return items, db')
    /\ In item items
    /\ dict_get item "_id" = Some (VStr listing_id)
    /\ dict_get item "title" = Some (VStr (ListingCreate.title body))
    /\ dict_get item "price" = Some (VNum (ListingCreate.price body))
    /\ dict_get item "owner_id" = Some (VStr (Bson.str (_id current))).
Proof.
  intros Hcreate Hlen.
  destruct (create_listing_success _ _ _ _ _ Hcreate) as (_ & -> & l & Hnew & ->).
  pose proof (Listing_new_owner _ _ _ _ _ _ _ _ _ _ _ Hnew) as Howner.
  destruct (Listing_new_fields _ _ _ _ _ _ _ _ _ _ _ Hnew)
    as (Ht & _ & Hp & _ & _ & _ & _ & _ & _ & Ha).
  rewrite search_listings_run. cbn [bump put listing_c listing].
  eexists _, (stringify_id (to_dict Listing.model_dump (mkStored (next_id db) l None))).
  split; [reflexivity|]. split.
  - apply in_map, in_map.
    rewrite filter_app_last.
    + rewrite firstn_all2.
      * apply in_or_app. right. left. reflexivity.
      * rewrite length_app. cbn [List.length].
        pose proof (filter_length_le
                      (selects listing_c
                         (search_filters None None None None
                            (Some (ListingCreate.is_available body))))
                      (listing db)). lia.
    + unfold selects, search_filters, matches, to_dict. cbn.
      rewrite Ha. destruct (ListingCreate.is_available body); reflexivity.
  - cbn. rewrite Ht, Hp, Howner. repeat split.
Qed.

(** X14.  Every item [search_listings] returns has the availability
    asked for, when one is asked for, and the property type asked for,
    when a non-empty one is asked for; its identifier is a string. *)
Theorem search_listings_exact_filters (q property_type : option string)
    (min_price max_price : option float) (is_available : option bool)
    (db db' : DB) (items : list dict) :
  search_listings q property_type min_price max_price is_available db
  = (Return items, db') ->
  forall item, In item items ->
    (forall b, is_available = Some b ->
       dict_get item "is_available" = Some (VBool b))
    /\ (forall p, property_type = Some p -> p <> "" ->
          dict_get item "property_type" = Some (VStr p))
    /\ exists o, dict_get item "_id" = Some (VStr (Bson.str o)).
Proof.
  rewrite search_listings_run. intros H item Hin.
  assert (Hitems : items = map stringify_id
            (map (to_dict Listing.model_dump)
               (firstn 100
                  (filter
                     (selects listing_c
                        (search_filters q property_type min_price max_price
                           is_available))
                     (listing db))))) by congruence.
  subst items. clear H.
  apply in_map_iff in Hin. destruct Hin as (d & <- & Hin).
  apply in_map_iff in Hin. destruct Hin as (s & <- & Hin).
  apply firstn_incl, filter_In in Hin. destruct Hin as [_ Hsel].
  unfold selects, search_filters in Hsel.
  rewrite !matches_app, !andb_true_iff in Hsel.
  destruct Hsel as (Hty & Hav & _ & _).
  destruct s as [i l upd]. split; [|split].
  - intros b ->. cbn in Hav. rewrite andb_true_r in Hav.
    apply Bool.eqb_prop in Hav. cbn. now rewrite Hav.
  - intros p -> Hne. cbn [truthy] in Hty.
    apply String.eqb_neq in Hne. rewrite Hne in Hty. cbn in Hty.
    rewrite andb_true_r in Hty. apply String.eqb_eq in Hty. cbn. now rewrite Hty.
  - exists i. reflexivity.
Qed.

End Listings.

(** ** Applications *)

Section Applications.
Context {re : RegexEngine}.

(** What a successful [apply] did. *)
Lemma apply_success (body : ApplicationCreate.t) (current : Stored User.t)
    (db db' : DB) (app_id : string) :
  apply body current db = (Return app_id, db') ->
  role_in current ["tenant"; "admin"] = true
  /\ (exists o l, ObjectId (ApplicationCreate.listing_id body) = Some o
                  /\ get listing_c o db = Some l)
  /\ app_id = Bson.str (next_id db)
  /\ db' = bump (put application_c
                   (application db ++
                    [mkStored (next_id db)
                       (Application.new (ApplicationCreate.listing_id body)
                          (Bson.str (_id current)) (ApplicationCreate.message body)
                          (ApplicationCreate.national_id body)) None])%list db).
Proof.
  unfold apply.
  destruct (role_in current ["tenant"; "admin"]); [|discriminate].
  cbn [negb]. unfold bind, object_id.
  destruct (ObjectId (ApplicationCreate.listing_id body)) as [o|] eqn:Ho;
    [|discriminate].
  cbn [ret]. rewrite find_one_by_id.
  destruct (get listing_c o db) as [l|] eqn:Hl; [|discriminate].
  cbn. intros H. injection H as <- <-.
  split; [reflexivity|]. split; [exists o, l; split; [reflexivity|exact Hl]|].
  split; reflexivity.
Qed.

(** X10.  [apply] succeeds exactly when the caller is a tenant or an
    admin and the listing exists -- whether the listing is available and
    whether the caller applied before play no part -- and it then
    appends one application: pending, for that listing, with the caller
    as tenant, under the identifier it returns. *)
Theorem apply_creates_pending_application (body : ApplicationCreate.t)
    (current : Stored User.t) (db : DB) :
  ((exists app_id db', apply body current db = (Return app_id, db'))
   <-> ((User.role (fields current) = User.Tenant
         \/ User.role (fields current) = User.Admin)
        /\ exists o l, ObjectId (ApplicationCreate.listing_id body) = Some o
                       /\ get listing_c o db = Some l))
  /\ forall app_id db',
       apply body current db = (Return app_id, db') ->
       app_id = Bson.str (next_id db)
       /\ application db'
          = (application db ++
             [mkStored (next_id db)
                {| Application.listing_id := ApplicationCreate.listing_id body;
                   Application.tenant_id := Bson.str (_id current);
                   Application.message := ApplicationCreate.message body;
                   Application.national_id := ApplicationCreate.national_id body;
                   Application.status := Application.Pending |} None])%list
       /\ user db' = user db /\ listing db' = listing db
       /\ payment db' = payment db /\ receipt db' = receipt db.
Proof.
  split; [split|].
  - intros (app_id & db' & H).
    destruct (apply_success _ _ _ _ _ H) as (Hrole & Hl & _).
    split; [now apply role_in_tenant_admin|exact Hl].
  - intros [Hrole (o & l & Ho & Hl)]. apply role_in_tenant_admin in Hrole.
    unfold apply, bind, object_id. rewrite Hrole, Ho. cbn [negb ret].
    rewrite find_one_by_id, Hl. eexists _, _. reflexivity.
  - intros app_id db' H.
    destruct (apply_success _ _ _ _ _ H) as (_ & _ & -> & ->).
    repeat split.
Qed.

(** X11.  An application that [apply] has just stored can be decided by
    the owner of its listing or by an admin: [approve_application] on
    the returned identifier succeeds and leaves the application approved
    or rejected as asked -- provided the identifier the store handed out
    was a 12-byte value no stored application carried. *)
Theorem apply_then_decide (body : ApplicationCreate.t)
    (applicant decider : Stored User.t) (approve : bool) (now : Z)
    (db db' : DB) (app_id : string) (o : oid) (l : Stored Listing.t) :
  fresh_for application_c db ->
  apply body applicant db = (Return app_id, db') ->
  ObjectId (ApplicationCreate.listing_id body) = Some o ->
  get listing_c o db = Some l ->
  Listing.owner_id (fields l) = Bson.str (_id decider)
  \/ User.role (fields decider) = User.Admin ->
  exists db'',
    approve_application app_id approve decider now db' = (Return true, db'')
    /\ status_of (next_id db) db''
       = Some (if approve then Application.Approved else Application.Rejected).
Proof.
  intros [Hsmall Hfresh] Happly Ho Hl Hauth.
  destruct (apply_success _ _ _ _ _ Happly) as (_ & _ & -> & ->).
  set (new := mkStored (next_id db)
                (Application.new (ApplicationCreate.listing_id body)
                   (Bson.str (_id applicant)) (ApplicationCreate.message body)
                   (ApplicationCreate.national_id body)) None).
  set (db1 := bump (put application_c (application db ++ [new])%list db)).
  assert (Hnew : get application_c (next_id db) db1 = Some new).
  { unfold get, db1. cbn [docs put bump application_c application].
    apply find_app_last; [exact Hfresh|]. apply N.eqb_refl. }
  assert (Hl1 : get listing_c o db1 = Some l) by exact Hl.
  rewrite (approve_application_run (Bson.str (next_id db)) approve decider now db1
             (next_id db) o new l (ObjectId_str _ Hsmall) Hnew Ho Hl1).
  assert (negb (Listing.owner_id (fields l) =? Bson.str (_id decider))
          && negb (is_admin decider) = false) as ->.
  { destruct Hauth as [Howner|Hrole].
    - apply String.eqb_eq in Howner. now rewrite Howner.
    - apply is_admin_iff in Hrole. rewrite Hrole. apply andb_false_r. }
  eexists. split; [reflexivity|].
  unfold status_of. rewrite (decided_status _ _ _ _ _ Hnew).
  destruct approve; reflexivity.
Qed.

End Applications.

(** ** Payments *)

Lemma update_first_app_last {A} (p : A -> bool) (f : A -> A) (l : list A) (x : A) :
  find p l = None -> p x = true ->
  update_first p f (l ++ [x]) = (l ++ [f x])%list.
Proof.
  induction l as [|y rest IH]; simpl; intros Hnone Hx; [now rewrite Hx|].
  destruct (p y); [discriminate|]. now rewrite IH.
Qed.

Lemma Method_of_str (s : string) (m : Payment.Method) :
  Payment.Method_of s = Some m -> Payment.Method_str m = s.
Proof.
  unfold Payment.Method_of.
  repeat match goal with
         | |- context [if ?a =? ?b then _ else _] =>
             destruct (String.eqb_spec a b)
         end; intros H; try discriminate; injection H as <-; subst; reflexivity.
Qed.

Section Paying.
Context {re : RegexEngine}.
Variable environ : string -> option string.

(** What a successful [init_payment] did, up to the link it writes last. *)
Lemma init_payment_success (body : PaymentInit.t) (current : Stored User.t)
    (db db' : DB) (resp : PaymentResponse.t) :
  init_payment environ body current db = (Return resp, db') ->
  role_in current ["tenant"; "admin"] = true
  /\ exists (l : Stored Listing.t) (m : Payment.Method) (po : oid),
       ObjectId (PaymentInit.listing_id body) = Some (_id l)
       /\ In l (listing db)
       /\ Payment.Method_of (PaymentInit.method body) = Some m
       /\ ObjectId (Bson.str (next_id db)) = Some po
       /\ let amount := Listing.price (fields l) in
          let platform_fee := round (fmul amount (decimal 5 2)) 2 in
          let owner_amount := round (fsub amount platform_fee) 2 in
          let pay :=
            {| Payment.listing_id := Bson.str (_id l);
               Payment.tenant_id := Bson.str (_id current);
               Payment.owner_id := Listing.owner_id (fields l);
               Payment.amount := amount; Payment.method := m;
               Payment.platform_fee := platform_fee;
               Payment.owner_amount := owner_amount;
               Payment.status := Payment.Successful;
               Payment.receipt_id := None |} in
          let rec :=
            {| Receipt.payment_id := Bson.str (next_id db);
               Receipt.total := amount;
               Receipt.owner_amount := owner_amount;
               Receipt.platform_fee := platform_fee;
               Receipt.payee_phone :=
                 Some (getenv environ "PLATFORM_PHONE" "+263 778 864 239");
               Receipt.reference :=
                 "TAK-" ++ upper (substring 0 6 (Bson.str (next_id db))) |} in
          resp = {| PaymentResponse.payment_id := Bson.str (next_id db);
                    PaymentResponse.receipt_id := Bson.str (N.succ (next_id db));
                    PaymentResponse.owner_amount := owner_amount;
                    PaymentResponse.platform_fee := platform_fee |}
          /\ db' = {| user := user db; listing := listing db;
                      application := application db;
                      payment :=
                        update_first (selects payment_c (by_id po))
                          (only_fields
                             (Payment.set_receipt_id (Bson.str (N.succ (next_id db)))))
                          (payment db ++ [mkStored (next_id db) pay None]);
                      receipt :=
                        (receipt db ++ [mkStored (N.succ (next_id db)) rec None])%list;
                      next_id := N.succ (N.succ (next_id db)) |}.
Proof.
  unfold init_payment.
  destruct (role_in current ["tenant"; "admin"]); [|discriminate].
  cbn [negb]. unfold bind at 1, object_id.
  destruct (ObjectId (PaymentInit.listing_id body)) as [o|] eqn:Ho;
    [|discriminate].
  cbn [ret]. unfold bind at 1. rewrite find_one_by_id.
  destruct (get listing_c o db) as [l|] eqn:Hl; [|discriminate].
  unfold bind at 1, validated, Payment.new.
  destruct (Payment.Method_of (PaymentInit.method body)) as [m|] eqn:Hm;
    [|discriminate].
  destruct (fle (of_Z 0) (Listing.price (fields l))); [|discriminate].
  cbn [ret]. unfold bind at 1, create_document at 1.
  unfold bind at 1, create_document at 1.
  unfold bind at 1.
  destruct (ObjectId (Bson.str (next_id db))) as [po|] eqn:Hpo; [|discriminate].
  cbn [ret]. unfold bind, update_one, ret.
  intros H. injection H as <- <-.
  apply find_some in Hl. destruct Hl as [Hin Hid]. apply N.eqb_eq in Hid. subst o.
  split; [reflexivity|]. exists l, m, po.
  repeat split; assumption.
Qed.

(** X15.  A successful [init_payment] is made by a tenant or an admin,
    answers the identifiers of the payment and the receipt it created,
    and stores one receipt that names the payment, totals the listing's
    price, repeats the fee and owner amount of the answer, carries the
    platform phone and the reference "TAK-" followed by the first six
    characters of the payment identifier in upper case.  Users, listings
    and applications are untouched and two identifiers are used up. *)
Theorem init_payment_receipt (body : PaymentInit.t) (current : Stored User.t)
    (db db' : DB) (resp : PaymentResponse.t) :
  init_payment environ body current db = (Return resp, db') ->
  (User.role (fields current) = User.Tenant
   \/ User.role (fields current) = User.Admin)
  /\ PaymentResponse.payment_id resp = Bson.str (next_id db)
  /\ PaymentResponse.receipt_id resp = Bson.str (N.succ (next_id db))
  /\ (exists (l : Stored Listing.t) (r : Receipt.t),
        In l (listing db)
        /\ ObjectId (PaymentInit.listing_id body) = Some (_id l)
        /\ receipt db' = (receipt db ++ [mkStored (N.succ (next_id db)) r None])%list
        /\ Receipt.payment_id r = PaymentResponse.payment_id resp
        /\ Receipt.total r = Listing.price (fields l)
        /\ Receipt.owner_amount r = PaymentResponse.owner_amount resp
        /\ Receipt.platform_fee r = PaymentResponse.platform_fee resp
        /\ Receipt.payee_phone r
           = Some (getenv environ "PLATFORM_PHONE" "+263 778 864 239")
        /\ Receipt.reference r
           = "TAK-" ++ upper (substring 0 6 (PaymentResponse.payment_id resp)))
  /\ user db' = user db /\ listing db' = listing db
  /\ application db' = application db
  /\ next_id db' = N.succ (N.succ (next_id db)).
Proof.
  intros H.
  destruct (init_payment_success _ _ _ _ _ H)
    as (Hrole & l & m & po & Ho & Hin & _ & _ & -> & ->).
  split; [now apply role_in_tenant_admin|].
  split; [reflexivity|split; [reflexivity|split; [|repeat split]]].
  exists l. eexists. split; [exact Hin|]. split; [exact Ho|].
  split; [reflexivity|]. repeat split.
Qed.

(** X16.  When the identifier the store hands out next is a 12-byte
    value no stored payment carries, a successful [init_payment] appends
    one payment -- for the listing, with the caller as tenant, the
    listing's owner as owner, the listing's price as amount, the method
    asked for, status successful -- and that payment ends up linked to
    the receipt of the answer. *)
Theorem init_payment_payment_linked (body : PaymentInit.t) (current : Stored User.t)
    (db db' : DB) (resp : PaymentResponse.t) :
  fresh_for payment_c db ->
  init_payment environ body current db = (Return resp, db') ->
  exists (l : Stored Listing.t) (p : Payment.t),
    In l (listing db)
    /\ ObjectId (PaymentInit.listing_id body) = Some (_id l)
    /\ payment db' = (payment db ++ [mkStored (next_id db) p None])%list
    /\ Payment.listing_id p = Bson.str (_id l)
    /\ Payment.tenant_id p = Bson.str (_id current)
    /\ Payment.owner_id p = Listing.owner_id (fields l)
    /\ Payment.amount p = Listing.price (fields l)
    /\ Payment.Method_str (Payment.method p) = PaymentInit.method body
    /\ Payment.status p = Payment.Successful
    /\ Payment.receipt_id p = Some (PaymentResponse.receipt_id resp).
Proof.
  intros [Hsmall Hfresh] H.
  destruct (init_payment_success _ _ _ _ _ H)
    as (_ & l & m & po & Ho & Hin & Hm & Hpo & -> & ->).
  rewrite (ObjectId_str _ Hsmall) in Hpo. injection Hpo as <-.
  exists l. eexists. split; [exact Hin|]. split; [exact Ho|].
  split.
  - cbn [payment]. rewrite update_first_app_last.
    + reflexivity.
    + rewrite find_by_id. exact Hfresh.
    + rewrite selects_by_id. apply N.eqb_refl.
  - cbn. repeat split. exact (Method_of_str _ _ Hm).
Qed.

End Paying.

(** ** Admin moderation *)

Lemma put_same_users (db : DB) : put user_c (user db) db = db.
Proof. destruct db. reflexivity. Qed.

Section Moderation.
Context {re : RegexEngine}.

(** X17.  For an admin and a well-formed identifier, [approve_user]
    always reports success.  If no user has the identifier the store is
    unchanged; otherwise that user's approval flag becomes the given
    value and the time of the update is recorded, while its id
    verification, role, contacts and password hash stay as they were.
    No other user changes. *)
Theorem approve_user_effect (user_id : string) (approve : bool)
    (current : Stored User.t) (now : Z) (db : DB) (o : oid) :
  User.role (fields current) = User.Admin ->
  ObjectId user_id = Some o ->
  exists db',
    approve_user user_id approve current now db = (Return true, db')
    /\ (get user_c o db = None -> db' = db)
    /\ (forall u, get user_c o db = Some u ->
          exists u',
            get user_c o db' = Some u'
            /\ User.is_approved (fields u') = approve
            /\ updated_at u' = Some now
            /\ User.id_verified (fields u') = User.id_verified (fields u)
            /\ User.role (fields u') = User.role (fields u)
            /\ User.email (fields u') = User.email (fields u)
            /\ User.phone (fields u') = User.phone (fields u)
            /\ User.password_hash (fields u') = User.password_hash (fields u))
    /\ (forall o', o' <> o -> get user_c o' db' = get user_c o' db).
Proof.
  intros Hrole Ho. apply is_admin_iff in Hrole.
  unfold approve_user, bind, object_id. rewrite Hrole, Ho. cbn [negb ret].
  unfold update_one, ret. eexists. split; [reflexivity|]. split; [|split].
  - intros Hnone. unfold get in Hnone. rewrite <- (find_by_id user_c) in Hnone.
    rewrite (update_first_miss _ _ _ Hnone). apply put_same_users.
  - intros u Hu.
    exists (with_fields (User.set_is_approved approve) now u).
    split; [|repeat split].
    unfold get. cbn [docs put user_c user].
    apply get_after_patch; [reflexivity|exact Hu].
  - intros o' Hne. unfold get. cbn [docs put user_c user].
    apply find_update_first_other. intros x Hx.
    rewrite selects_by_id in Hx. apply N.eqb_eq in Hx.
    cbn [with_fields _id]. rewrite Hx.
    split; apply N.eqb_neq; congruence.
Qed.

(** X18.  For an admin and a well-formed identifier, [verify_id] always
    reports success.  If no user has the identifier the store is
    unchanged; otherwise that user's id verification becomes the given
    value and the time of the update is recorded, while its approval
    flag, role, contacts and password hash stay as they were.  No other
    user changes. *)
Theorem verify_id_effect (user_id : string) (verified : bool)
    (current : Stored User.t) (now : Z) (db : DB) (o : oid) :
  User.role (fields current) = User.Admin ->
  ObjectId user_id = Some o ->
  exists db',
    verify_id user_id verified current now db = (Return true, db')
    /\ (get user_c o db = None -> db' = db)
    /\ (forall u, get user_c o db = Some u ->
          exists u',
            get user_c o db' = Some u'
            /\ User.id_verified (fields u') = verified
            /\ updated_at u' = Some now
            /\ User.is_approved (fields u') = User.is_approved (fields u)
            /\ User.role (fields u') = User.role (fields u)
            /\ User.email (fields u') = User.email (fields u)
            /\ User.phone (fields u') = User.phone (fields u)
            /\ User.password_hash (fields u') = User.password_hash (fields u))
    /\ (forall o', o' <> o -> get user_c o' db' = get user_c o' db).
Proof.
  intros Hrole Ho. apply is_admin_iff in Hrole.
  unfold verify_id, bind, object_id. rewrite Hrole, Ho. cbn [negb ret].
  unfold update_one, ret. eexists. split; [reflexivity|]. split; [|split].
  - intros Hnone. unfold get in Hnone. rewrite <- (find_by_id user_c) in Hnone.
    rewrite (update_first_miss _ _ _ Hnone). apply put_same_users.
  - intros u Hu.
    exists (with_fields (User.set_id_verified verified) now u).
    split; [|repeat split].
    unfold get. cbn [docs put user_c user].
    apply get_after_patch; [reflexivity|exact Hu].
  - intros o' Hne. unfold get. cbn [docs put user_c user].
    apply find_update_first_other. intros x Hx.
    rewrite selects_by_id in Hx. apply N.eqb_eq in Hx.
    cbn [with_fields _id]. rewrite Hx.
    split; apply N.eqb_neq; congruence.
Qed.

Lemma selects_all {A} (c : Collection A) (l : list (Stored A)) :
  filter (selects c []) l = l.
Proof. induction l as [|x rest IH]; simpl; [reflexivity|]. now rewrite IH. Qed.

(** X19.  For an admin, [list_users] returns one item per stored user,
    in storage order, for the first 200 users; each item carries the
    user's identifier as a string, its role and national id -- and its
    password hash. *)
Theorem list_users_items (current : Stored User.t) (db : DB) :
  User.role (fields current) = User.Admin ->
  exists items,
    list_users current db = (Return items, db)
    /\ Forall2
         (fun u item =>
            dict_get item "_id" = Some (VStr (Bson.str (_id u)))
            /\ dict_get item "role" = Some (VStr (User.Role_str (User.role (fields u))))
            /\ dict_get item "national_id" = Some (VStr (User.national_id (fields u)))
            /\ dict_get item "password_hash"
               = Some (VStr (User.password_hash (fields u))))
         (firstn 200 (user db)) items.
Proof.
  intros Hrole. apply is_admin_iff in Hrole.
  unfold list_users, bind, get_documents. rewrite Hrole. cbn [negb ret docs user_c].
  rewrite selects_all.
  eexists. split; [reflexivity|].
  induction (firstn 200 (user db)) as [|u rest IH]; cbn [map]; constructor.
  - destruct u as [i f upd]. repeat split.
  - exact IH.
Qed.

End Moderation.

(** ** Malformed identifiers *)

Section Malformed.
Context {re : RegexEngine}.
Variable environ : string -> option string.

(** X20.  An identifier that [ObjectId] rejects -- one that is not 24
    characters long, or that [bytes.fromhex] cannot read -- makes it
    raise; no handler catches that, so the request ends in an uncaught
    [InvalidId] (a 500, not a 404 or a 400) with the store unchanged: in
    the availability update and the application decision for every
    actor, in the admin updates for an admin, in application creation
    and payment initiation for a tenant or an admin.  A 24-character
    identifier with whitespace between its hex pairs is not rejected: it
    gives an identifier of fewer than 12 bytes, which no stored listing
    carries, and the availability update answers 404. *)
Theorem malformed_identifier_uncaught (s : string) (current : Stored User.t)
    (db : DB) :
  (ObjectId s = None ->
   (forall b now,
      update_availability s b current now db = (Uncaught "InvalidId", db))
   /\ (forall b now,
         approve_application s b current now db = (Uncaught "InvalidId", db))
   /\ (User.role (fields current) = User.Admin ->
       forall b now,
         approve_user s b current now db = (Uncaught "InvalidId", db)
         /\ verify_id s b current now db = (Uncaught "InvalidId", db))
   /\ (User.role (fields current) = User.Tenant
       \/ User.role (fields current) = User.Admin ->
       (forall body, ApplicationCreate.listing_id body = s ->
          apply body current db = (Uncaught "InvalidId", db))
       /\ (forall body, PaymentInit.listing_id body = s ->
             init_payment environ body current db = (Uncaught "InvalidId", db))))
  /\ (forall bs,
        String.length s = 24%nat -> fromhex s = Some bs ->
        (List.length bs < 12)%nat ->
        Forall (fun l => (_id l < 2 ^ 96)%N) (listing db) ->
        forall b now,
          update_availability s b current now db
          = (HTTPException 404 "Listing not found", db)).
Proof.
  split.
  - intros Hbad. split; [|split; [|split]].
    + intros b now. unfold update_availability, bind, object_id. now rewrite Hbad.
    + intros b now. unfold approve_application, bind, object_id. now rewrite Hbad.
    + intros Hrole b now. apply is_admin_iff in Hrole.
      unfold approve_user, verify_id, bind, object_id. rewrite Hrole, Hbad.
      split; reflexivity.
    + intros Hrole. apply role_in_tenant_admin in Hrole.
      split; intros body Hs;
        [unfold apply|unfold init_payment]; unfold bind, object_id;
        rewrite Hrole, Hs, Hbad; reflexivity.
  - intros bs Hlen Hbs Hshort Hstored b now.
    pose proof (of_bytes_short bs Hshort) as Hbig.
    unfold update_availability, bind, object_id, ObjectId.
    rewrite Hlen, Hbs. cbn [Nat.eqb option_map ret].
    rewrite find_one_by_id.
    assert (Hnone : get listing_c (of_bytes bs) db = None).
    { unfold get. apply find_none_forall. intros l Hin.
      rewrite Forall_forall in Hstored. specialize (Hstored l Hin).
      apply N.eqb_neq. lia. }
    now rewrite Hnone.
Qed.

End Malformed.

(** ** Dashboards *)

Lemma items_sound {A} (dump : A -> dict) (p : Stored A -> bool) (n : nat)
    (l : list (Stored A)) (item : dict) :
  In item (map stringify_id (map (to_dict dump) (firstn n (filter p l)))) ->
  exists s, In s l /\ p s = true /\ item = stringify_id (to_dict dump s).
Proof.
  intros Hin.
  apply in_map_iff in Hin. destruct Hin as (d & <- & Hin).
  apply in_map_iff in Hin. destruct Hin as (s & <- & Hin).
  apply firstn_incl, filter_In in Hin. exists s. tauto.
Qed.

Lemma items_complete {A} (dump : A -> dict) (p : Stored A -> bool) (n : nat)
    (l : list (Stored A)) (s : Stored A) :
  (List.length l <= n)%nat -> In s l -> p s = true ->
  In (stringify_id (to_dict dump s))
     (map stringify_id (map (to_dict dump) (firstn n (filter p l)))).
Proof.
  intros Hlen Hin Hp. apply in_map, in_map.
  rewrite firstn_all2.
  - apply filter_In. tauto.
  - pose proof (filter_length_le p l). lia.
Qed.

Section Lists.
Context {re : RegexEngine}.

Lemma selects_tenant_application (cur : string) (a : Stored Application.t) :
  selects application_c [Field "tenant_id" (Eq (VStr cur))] a
  = (Application.tenant_id (fields a) =? cur).
Proof. destruct a as [i f upd]. cbn. apply andb_true_r. Qed.

Lemma selects_tenant_payment (cur : string) (p : Stored Payment.t) :
  selects payment_c [Field "tenant_id" (Eq (VStr cur))] p
  = (Payment.tenant_id (fields p) =? cur).
Proof. destruct p as [i f upd]. cbn. apply andb_true_r. Qed.

Lemma selects_owner_payment (cur : string) (p : Stored Payment.t) :
  selects payment_c [Field "owner_id" (Eq (VStr cur))] p
  = (Payment.owner_id (fields p) =? cur).
Proof. destruct p as [i f upd]. cbn. apply andb_true_r. Qed.

Lemma selects_owner_listing (cur : string) (l : Stored Listing.t) :
  selects listing_c [Field "owner_id" (Eq (VStr cur))] l
  = (Listing.owner_id (fields l) =? cur).
Proof. destruct l as [i f upd]. cbn. apply andb_true_r. Qed.

(** X21.  [my_applications] returns only applications whose tenant is
    the caller, each with its identifier as a string, and never changes
    the store; when at most 200 applications are stored it returns every
    application of the caller. *)
Theorem my_applications_own (current : Stored User.t) (db : DB) :
  exists items,
    my_applications current db = (Return items, db)
    /\ (forall item, In item items ->
          dict_get item "tenant_id" = Some (VStr (Bson.str (_id current)))
          /\ exists a, In a (application db)
                       /\ dict_get item "_id" = Some (VStr (Bson.str (_id a))))
    /\ ((List.length (application db) <= 200)%nat ->
        forall a, In a (application db) ->
          Application.tenant_id (fields a) = Bson.str (_id current) ->
          exists item,
            In item items
            /\ dict_get item "_id" = Some (VStr (Bson.str (_id a)))
            /\ dict_get item "listing_id"
               = Some (VStr (Application.listing_id (fields a)))
            /\ dict_get item "status"
               = Some (VStr (Application.Status_str (Application.status (fields a))))).
Proof.
  eexists. split; [reflexivity|]. split.
  - intros item Hin. apply items_sound in Hin. destruct Hin as (a & Hin & Hsel & ->).
    rewrite selects_tenant_application in Hsel. apply String.eqb_eq in Hsel.
    destruct a as [i f upd]. cbn in Hsel |- *. rewrite Hsel.
    split; [reflexivity|]. eexists. split; [exact Hin|reflexivity].
  - intros Hlen a Hin Hten.
    exists (stringify_id (to_dict Application.model_dump a)). split.
    + apply (items_complete Application.model_dump); [exact Hlen|exact Hin|].
      rewrite selects_tenant_application. now apply String.eqb_eq.
    + destruct a as [i f upd]. repeat split.
Qed.

(** X22.  [my_payments] returns only payments whose tenant is the
    caller and [payments_for_me] only payments whose owner is the
    caller; neither changes the store, and when at most 200 payments are
    stored each returns every such payment, with its amount and the two
    parts of the split. *)
Theorem payment_lists_own (current : Stored User.t) (db : DB) :
  (exists items,
     my_payments current db = (Return items, db)
     /\ (forall item, In item items ->
           dict_get item "tenant_id" = Some (VStr (Bson.str (_id current))))
     /\ ((List.length (payment db) <= 200)%nat ->
         forall p, In p (payment db) ->
           Payment.tenant_id (fields p) = Bson.str (_id current) ->
           exists item,
             In item items
             /\ dict_get item "_id" = Some (VStr (Bson.str (_id p)))
             /\ dict_get item "amount" = Some (VNum (Payment.amount (fields p)))
             /\ dict_get item "platform_fee"
                = Some (VNum (Payment.platform_fee (fields p)))
             /\ dict_get item "owner_amount"
                = Some (VNum (Payment.owner_amount (fields p)))))
  /\ (exists items,
        payments_for_me current db = (Return items, db)
        /\ (forall item, In item items ->
              dict_get item "owner_id" = Some (VStr (Bson.str (_id current))))
        /\ ((List.length (payment db) <= 200)%nat ->
            forall p, In p (payment db) ->
              Payment.owner_id (fields p) = Bson.str (_id current) ->
              exists item,
                In item items
                /\ dict_get item "_id" = Some (VStr (Bson.str (_id p)))
                /\ dict_get item "amount" = Some (VNum (Payment.amount (fields p)))
                /\ dict_get item "platform_fee"
                   = Some (VNum (Payment.platform_fee (fields p)))
                /\ dict_get item "owner_amount"
                   = Some (VNum (Payment.owner_amount (fields p))))).
Proof.
  split.
  - eexists. split; [reflexivity|]. split.
    + intros item Hin. apply items_sound in Hin.
      destruct Hin as (p & Hin & Hsel & ->).
      rewrite selects_tenant_payment in Hsel. apply String.eqb_eq in Hsel.
      destruct p as [i f upd]. cbn in Hsel |- *. now rewrite Hsel.
    + intros Hlen p Hin Hten.
      exists (stringify_id (to_dict Payment.model_dump p)). split.
      * apply (items_complete Payment.model_dump); [exact Hlen|exact Hin|].
        rewrite selects_tenant_payment. now apply String.eqb_eq.
      * destruct p as [i f upd]. repeat split.
  - eexists. split; [reflexivity|]. split.
    + intros item Hin. apply items_sound in Hin.
      destruct Hin as (p & Hin & Hsel & ->).
      rewrite selects_owner_payment in Hsel. apply String.eqb_eq in Hsel.
      destruct p as [i f upd]. cbn in Hsel |- *. now rewrite Hsel.
    + intros Hlen p Hin Hown.
      exists (stringify_id (to_dict Payment.model_dump p)). split.
      * apply (items_complete Payment.model_dump); [exact Hlen|exact Hin|].
        rewrite selects_owner_payment. now apply String.eqb_eq.
      * destruct p as [i f upd]. repeat split.
Qed.

Lemma id_strings_stored {A} (dump : A -> dict) (l : list (Stored A)) (db : DB) :
  id_strings (map (to_dict dump) l) db
  = (Return (map (fun s => Bson.str (_id s)) l), db).
Proof.
  induction l as [|x rest IH]; [reflexivity|].
  cbn [map id_strings]. unfold to_dict at 1. cbn [dict_get String.eqb Ascii.eqb Bool.eqb].
  unfold bind. rewrite IH. reflexivity.
Qed.

Lemma xmatches_listing_in (ids : list string) (a : Stored Application.t) :
  xmatches [("listing_id", In_ (map VStr ids))] (to_dict Application.model_dump a)
  = existsb (String.eqb (Application.listing_id (fields a))) ids.
Proof.
  destruct a as [i f upd]. unfold xmatches. cbn [forallb fst snd].
  rewrite andb_true_r.
  induction ids as [|x rest IH]; [reflexivity|].
  cbn [map existsb]. rewrite IH. f_equal.
Qed.

(** What [applications_for_me] computes. *)
Lemma applications_for_me_run (current : Stored User.t) (db : DB) :
  applications_for_me current db
  = (Return
       (map stringify_id
          (map (to_dict Application.model_dump)
             (firstn 200
                (filter
                   (fun a =>
                      existsb (String.eqb (Application.listing_id (fields a)))
                        (map (fun l => Bson.str (_id l))
                           (firstn 500
                              (filter
                                 (selects listing_c
                                    [Field "owner_id"
                                       (Eq (VStr (Bson.str (_id current))))])
                                 (listing db)))))
                   (application db))))),
     db).
Proof.
  unfold applications_for_me, bind at 1, get_documents at 1.
  unfold bind at 1. cbn [dump listing_c docs].
  rewrite id_strings_stored.
  unfold bind, get_documents_in, ret. cbn [dump application_c docs].
  do 5 f_equal. apply filter_ext. intros a. apply xmatches_listing_in.
Qed.

(** X23.  Every item [applications_for_me] returns is a stored
    application whose [listing_id] is, character for character, the
    string of the identifier of a stored listing owned by the caller,
    and the store is never changed.  When at most 500 listings and at
    most 200 applications are stored, it returns every application whose
    [listing_id] is that string for some listing of the caller.  An
    application stored with another spelling of the identifier (such as
    upper-case digits, which [apply] lets through) is therefore not
    returned. *)
Theorem applications_for_me_owned (current : Stored User.t) (db : DB) :
  exists items,
    applications_for_me current db = (Return items, db)
    /\ (forall item, In item items ->
          exists a l,
            In a (application db) /\ In l (listing db)
            /\ item = stringify_id (to_dict Application.model_dump a)
            /\ Listing.owner_id (fields l) = Bson.str (_id current)
            /\ Application.listing_id (fields a) = Bson.str (_id l)
            /\ dict_get item "listing_id" = Some (VStr (Bson.str (_id l))))
    /\ ((List.length (listing db) <= 500)%nat ->
        (List.length (application db) <= 200)%nat ->
        forall a l, In a (application db) -> In l (listing db) ->
          Listing.owner_id (fields l) = Bson.str (_id current) ->
          Application.listing_id (fields a) = Bson.str (_id l) ->
          exists item,
            In item items
            /\ dict_get item "_id" = Some (VStr (Bson.str (_id a)))
            /\ dict_get item "tenant_id"
               = Some (VStr (Application.tenant_id (fields a)))).
Proof.
  rewrite applications_for_me_run. eexists. split; [reflexivity|]. split.
  - intros item Hin. apply items_sound in Hin. destruct Hin as (a & Ha & Hsel & ->).
    apply existsb_exists in Hsel. destruct Hsel as (i & Hi & Heq).
    apply String.eqb_eq in Heq.
    apply in_map_iff in Hi. destruct Hi as (l & <- & Hl).
    apply firstn_incl, filter_In in Hl. destruct Hl as [Hl Hown].
    rewrite selects_owner_listing in Hown. apply String.eqb_eq in Hown.
    exists a, l. split; [exact Ha|]. split; [exact Hl|]. split; [reflexivity|].
    split; [exact Hown|]. split; [exact Heq|].
    destruct a as [j f upd]. cbn in Heq |- *. now rewrite Heq.
  - intros Hlist Happs a l Ha Hl Hown Hrefers.
    exists (stringify_id (to_dict Application.model_dump a)). split.
    + apply (items_complete Application.model_dump); [exact Happs|exact Ha|].
      apply existsb_exists. exists (Bson.str (_id l)). split.
      * apply (in_map (fun l0 : Stored Listing.t => Bson.str (_id l0))).
        rewrite firstn_all2.
        -- apply filter_In. split; [exact Hl|].
           rewrite selects_owner_listing. now apply String.eqb_eq.
        -- pose proof (filter_length_le
                         (selects listing_c
                            [Field "owner_id" (Eq (VStr (Bson.str (_id current))))])
                         (listing db)). lia.
      * now apply String.eqb_eq.
    + destruct a as [j f upd]. repeat split.
Qed.

End Lists.

(** ** Failures and reads leave the store alone *)

Ltac split_cases H :=
  repeat (match type of H with
          | context [match ?x with _ => _ end] =>
              lazymatch x with
              | context [match _ with _ => _ end] => fail
              | _ => destruct x eqn:?
              end
          end; cbv beta iota in H).

Ltac failed_quietly H Hfail :=
  split_cases H; injection H as <- <-; try reflexivity;
  try (exfalso; eapply Hfail; reflexivity).

Section Quiet.
Context {re : RegexEngine} {pwd_context : CryptContext}.
Context {keys : Jwt.KeyFormat} {lax : LaxFloat}.
Variable environ : string -> option string.

(** X24.  Whenever [create_listing], [update_availability], [apply],
    [approve_application], [init_payment], [approve_user] or [verify_id]
    ends in an exception, the store is exactly as it was: every raise in
    these handlers comes before the first write.  [register] is the
    exception: it stores the user and then builds the token, so when the
    token library refuses the signing key the request ends in an
    uncaught [InvalidKeyError] with the new user stored; every other
    failure of [register] leaves the store as it was. *)
Theorem failures_write_nothing (db db' : DB) :
  (forall body salt now out,
     register environ body salt now db = (out, db') ->
     (forall a, out <> Return a) ->
     db' = db
     \/ (Jwt.usable (JWT_SECRET environ) = false
         /\ out = Uncaught "InvalidKeyError"
         /\ exists u,
              db' = bump (put user_c
                            (user db ++ [mkStored (next_id db) u None])%list db)))
  /\ (forall body current out,
        create_listing body current db = (out, db') ->
        (forall a, out <> Return a) -> db' = db)
  /\ (forall listing_id is_available current now out,
        update_availability listing_id is_available current now db = (out, db') ->
        (forall a, out <> Return a) -> db' = db)
  /\ (forall body current out,
        apply body current db = (out, db') ->
        (forall a, out <> Return a) -> db' = db)
  /\ (forall application_id approve current now out,
        approve_application application_id approve current now db = (out, db') ->
        (forall a, out <> Return a) -> db' = db)
  /\ (forall body current out,
        init_payment environ body current db = (out, db') ->
        (forall a, out <> Return a) -> db' = db)
  /\ (forall user_id approve current now out,
        approve_user user_id approve current now db = (out, db') ->
        (forall a, out <> Return a) -> db' = db)
  /\ (forall user_id verified current now out,
        verify_id user_id verified current now db = (out, db') ->
        (forall a, out <> Return a) -> db' = db).
Proof.
  repeat match goal with |- _ /\ _ => split end.
  - intros body salt now out H Hfail. unfold register in H.
    destruct (negb _ && negb _); [left; cbv [raise] in H; congruence|].
    unfold bind at 1, find_one in H.
    destruct (find _ _); [left; cbv [raise] in H; congruence|].
    unfold bind at 1, validated in H.
    destruct (User.new _ _ _ _ _ _) as [u|]; [|left; cbv [throw] in H; congruence].
    cbn [ret] in H. unfold bind at 1, create_document in H. unfold bind in H.
    rewrite create_token_run in H.
    destruct (Jwt.usable (JWT_SECRET environ)) eqn:Hkey.
    + cbn [ret] in H. injection H as <- _. exfalso. eapply Hfail. reflexivity.
    + injection H as <- <-. right. split; [reflexivity|]. split; [reflexivity|].
      exists u. reflexivity.
  - intros body current out H Hfail.
    cbv [create_listing bind validated raise throw ret create_document] in H.
    failed_quietly H Hfail.
  - intros listing_id is_available current now out H Hfail.
    cbv [update_availability bind object_id find_one raise throw ret update_one] in H.
    failed_quietly H Hfail.
  - intros body current out H Hfail.
    cbv [apply bind object_id find_one raise throw ret create_document] in H.
    failed_quietly H Hfail.
  - intros application_id approve current now out H Hfail.
    cbv [approve_application bind object_id find_one raise throw ret update_one] in H.
    failed_quietly H Hfail.
  - intros body current out H Hfail.
    cbv [init_payment bind object_id validated find_one raise throw ret
         create_document update_one] in H.
    split_cases H;
      try match goal with
          | Hn : ObjectId (Bson.str ?n) = None |- _ =>
              destruct (ObjectId_str_some n) as [? Hs]; congruence
          end;
      injection H as <- <-; try reflexivity;
      exfalso; eapply Hfail; reflexivity.
  - intros user_id approve current now out H Hfail.
    cbv [approve_user bind object_id raise throw ret update_one] in H.
    failed_quietly H Hfail.
  - intros user_id verified current now out H Hfail.
    cbv [verify_id bind object_id raise throw ret update_one] in H.
    failed_quietly H Hfail.
Qed.

(** X25.  [login], [get_current_user], [search_listings], [list_users]
    and the four dashboard lists never change the store, whatever they
    are given and however they end. *)
Theorem reads_write_nothing (db : DB) :
  (forall username password now, snd (login environ username password now db) = db)
  /\ (forall token now, snd (get_current_user environ token now db) = db)
  /\ (forall q property_type min_price max_price is_available,
        snd (search_listings q property_type min_price max_price is_available db) = db)
  /\ (forall current, snd (list_users current db) = db)
  /\ (forall current, snd (my_applications current db) = db)
  /\ (forall current, snd (applications_for_me current db) = db)
  /\ (forall current, snd (my_payments current db) = db)
  /\ (forall current, snd (payments_for_me current db) = db).
Proof.
  repeat match goal with |- _ /\ _ => split end.
  - intros username password now. rewrite login_run.
    destruct (find _ _); [|reflexivity].
    destruct (verify_password _ _); [|reflexivity].
    rewrite create_token_run. destruct (Jwt.usable _); reflexivity.
  - intros token now.
    destruct (get_current_user environ token now db) as [out db'] eqn:H.
    cbv [get_current_user try_except bind object_id find_one raise throw ret] in H.
    split_cases H; injection H as <- <-; reflexivity.
  - intros. now rewrite search_listings_run.
  - intros current. unfold list_users. destruct (negb _); reflexivity.
  - intros current. reflexivity.
  - intros current. now rewrite applications_for_me_run.
  - intros current. reflexivity.
  - intros current. reflexivity.
Qed.

End Quiet.

(** ** Refusals *)

Section Refusals.
Context {re : RegexEngine} {lax : LaxFloat}.
Variable environ : string -> option string.

(** X26.  [create_listing] answers 403 to a tenant whatever the body
    holds; for any other role, a body with a negative or NaN price, an
    unknown pricing type, an unknown property type or a location that
    [Location] cannot read (a coordinate missing or not convertible to
    a float, an address that is not a string) ends in pydantic's
    [ValidationError], which no handler catches.  Nothing is stored in
    either case. *)
Theorem create_listing_refusals (body : ListingCreate.t) (current : Stored User.t)
    (db : DB) :
  (User.role (fields current) = User.Tenant ->
   create_listing body current db
   = (HTTPException 403 "Only owners can create listings", db))
  /\ (User.role (fields current) <> User.Tenant ->
      fle (of_Z 0) (ListingCreate.price body) = false
      \/ Listing.PricingType_of (ListingCreate.pricing_type body) = None
      \/ Listing.PropertyType_of (ListingCreate.property_type body) = None
      \/ Location.validate (ListingCreate.location body) = None ->
      create_listing body current db = (Uncaught "ValidationError", db)).
Proof.
  split.
  - intros Hrole. unfold create_listing.
    destruct (role_in current ["landlord"; "lodge_owner"; "admin"]) eqn:E;
      [|reflexivity].
    apply role_in_owners in E. contradiction.
  - intros Hrole Hbad. apply role_in_owners in Hrole.
    unfold create_listing, bind, validated, Listing.new. rewrite Hrole. cbn [negb].
    destruct (Listing.PricingType_of _); [|reflexivity].
    destruct (Listing.PropertyType_of _); [|reflexivity].
    destruct (Location.validate _); [|reflexivity].
    destruct (fle (of_Z 0) (ListingCreate.price body)); [|reflexivity].
    destruct Hbad as [H|[H|[H|H]]]; discriminate H.
Qed.

(** X27.  [init_payment] succeeds exactly when the caller is a tenant or
    an admin, the listing exists, its price is not negative (and not a
    NaN) and the method is "ecocash" or "paynow".  Whether the listing
    is available and whether the caller ever applied for it play no
    part.  With an unknown method nothing is stored and the failure is
    the model's [ValidationError]. *)
Theorem init_payment_succeeds_iff (body : PaymentInit.t) (current : Stored User.t)
    (db : DB) :
  ((exists resp db', init_payment environ body current db = (Return resp, db'))
   <-> ((User.role (fields current) = User.Tenant
         \/ User.role (fields current) = User.Admin)
        /\ (PaymentInit.method body = "ecocash" \/ PaymentInit.method body = "paynow")
        /\ exists o l, ObjectId (PaymentInit.listing_id body) = Some o
                       /\ get listing_c o db = Some l
                       /\ fle (of_Z 0) (Listing.price (fields l)) = true))
  /\ (forall o l,
        User.role (fields current) = User.Tenant
        \/ User.role (fields current) = User.Admin ->
        ObjectId (PaymentInit.listing_id body) = Some o ->
        get listing_c o db = Some l ->
        Payment.Method_of (PaymentInit.method body) = None ->
        init_payment environ body current db = (Uncaught "ValidationError", db)).
Proof.
  assert (Hmethod : forall s,
            (s = "ecocash" \/ s = "paynow") <-> Payment.Method_of s <> None).
  { intros s. unfold Payment.Method_of.
    destruct (String.eqb_spec s "ecocash"), (String.eqb_spec s "paynow");
      split; intros H; try discriminate; auto; tauto. }
  split; [split|].
  - intros (resp & db' & H).
    unfold init_payment in H.
    destruct (role_in current ["tenant"; "admin"]) eqn:Hrole; [|discriminate].
    cbn [negb] in H. unfold bind at 1, object_id in H.
    destruct (ObjectId (PaymentInit.listing_id body)) as [o|] eqn:Ho;
      [|discriminate].
    cbn [ret] in H. unfold bind at 1 in H. rewrite find_one_by_id in H.
    destruct (get listing_c o db) as [l|] eqn:Hl; [|discriminate].
    unfold bind at 1, validated, Payment.new in H.
    destruct (Payment.Method_of (PaymentInit.method body)) eqn:Hm; [|discriminate].
    destruct (fle (of_Z 0) (Listing.price (fields l))) eqn:Hge; [|discriminate].
    split; [now apply role_in_tenant_admin|]. split.
    + apply Hmethod. congruence.
    + exists o, l. auto.
  - intros (Hrole & Hm & o & l & Ho & Hl & Hge).
    apply role_in_tenant_admin in Hrole. apply Hmethod in Hm.
    unfold init_payment. rewrite Hrole. cbn [negb].
    unfold bind at 1, object_id. rewrite Ho. cbn [ret].
    unfold bind at 1. rewrite find_one_by_id, Hl.
    unfold bind at 1, validated, Payment.new.
    destruct (Payment.Method_of (PaymentInit.method body)); [|contradiction].
    cbv beta iota. rewrite Hge. cbn [ret].
    unfold bind at 1, create_document at 1.
    unfold bind at 1, create_document at 1.
    unfold bind at 1, object_id.
    destruct (ObjectId_str_some (next_id db)) as [po Hpo]. rewrite Hpo.
    eexists _, _. reflexivity.
  - intros o l Hrole Ho Hl Hm. apply role_in_tenant_admin in Hrole.
    unfold init_payment. rewrite Hrole. cbn [negb].
    unfold bind at 1, object_id. rewrite Ho. cbn [ret].
    unfold bind at 1. rewrite find_one_by_id, Hl.
    unfold bind at 1, validated, Payment.new. now rewrite Hm.
Qed.

End Refusals.

End Coverage.

(* ================================================================== *)
(** * The further properties on concrete requests *)

Module CoverageExamples.
Import Py Bson Mongo Schemas Database Main Dashboards Observations Fixtures
  Properties Coverage.

#[local] Existing Instance literal_engine.
#[local] Existing Instance plaintext.
#[local] Existing Instance by_prefix.
#[local] Existing Instance plain_decimals.

Lemma db0_users_ok : ids_ok (user db0).
Proof.
  split.
  - repeat constructor; cbn; intuition discriminate.
  - repeat constructor.
Qed.

Lemma db0_fresh_users : fresh_for user_c db0.
Proof. split; reflexivity. Qed.

Lemma db0_fresh_applications : fresh_for application_c db0.
Proof. split; reflexivity. Qed.

Lemma db0_fresh_payments : fresh_for payment_c db0.
Proof. split; reflexivity. Qed.

Lemma login_token_authenticates_witness :
  exists tok,
    login no_env "rudo@example.com" "rudo-pw" 1000 db0 = (Return tok, db0)
    /\ get_current_user no_env (Token.access_token tok) 86399999999 db0
       = (Return owner, db0)
    /\ get_current_user no_env (Token.access_token tok) 86400000000 db0
       = (HTTPException 401 "Could not validate credentials", db0)
    /\ get_current_user no_env (Token.access_token tok) 86399001000 db0
       = (Return owner, db0)
    /\ get_current_user no_env (Token.access_token tok) 86400001000 db0
       = (HTTPException 401 "Could not validate credentials", db0).
Proof.
  assert (Hex : exists tok,
            login no_env "rudo@example.com" "rudo-pw" 1000 db0 = (Return tok, db0))
    by (vm_compute; eauto).
  destruct Hex as (tok & Hrun). exists tok. split; [exact Hrun|].
  assert (Hu : forall u,
             find (identifies "rudo@example.com") (user db0) = Some u -> u = owner).
  { intros u Hfind. vm_compute in Hfind. now injection Hfind as <-. }
  split; [|split; [|split]].
  - destruct (login_token_authenticates no_env _ _ 1000 86399999999 _ _ _
                db0_users_ok Hrun) as (u & Hfind & Hok & _).
    rewrite <- (Hu u Hfind). apply Hok. reflexivity.
  - destruct (login_token_authenticates no_env _ _ 1000 86400000000 _ _ _
                db0_users_ok Hrun) as (u & _ & _ & Hexp & _).
    apply Hexp. discriminate.
  - destruct (login_token_authenticates no_env _ _ 1000 86399001000 _ _ _
                db0_users_ok Hrun) as (u & Hfind & _ & _ & Hok & _).
    rewrite <- (Hu u Hfind). apply Hok. discriminate.
  - destruct (login_token_authenticates no_env _ _ 1000 86400001000 _ _ _
                db0_users_ok Hrun) as (u & _ & _ & _ & _ & Hexp).
    apply Hexp. discriminate.
Defined.

Lemma register_token_authenticates_witness :
  exists tok db' u,
    register no_env chipo_both "salt" 1000 db0 = (Return tok, db')
    /\ get_current_user no_env (Token.access_token tok) 86399999999 db' = (Return u, db')
    /\ _id u = 10%N
    /\ User.national_id (fields u) = "63-1111111D04".
Proof.
  assert (Hex : exists tok db',
            register no_env chipo_both "salt" 1000 db0 = (Return tok, db'))
    by (vm_compute; eauto).
  destruct Hex as (tok & db' & Hrun).
  destruct (register_token_authenticates no_env _ _ 1000 86399999999 _ _ _
              db0_fresh_users Hrun)
    as (u & Hget & Hid & Hnid & _); [reflexivity|].
  exists tok, db', u. repeat split; assumption.
Defined.

Lemma register_stores_requested_user_witness :
  exists tok db' u,
    register no_env chipo_both "salt" 0 db0 = (Return tok, db')
    /\ user db' = (user db0 ++ [mkStored 10%N u None])%list
    /\ User.role u = User.Tenant
    /\ User.is_approved u = false /\ User.id_verified u = false
    /\ next_id db' = 11%N.
Proof.
  assert (Hex : exists tok db',
            register no_env chipo_both "salt" 0 db0 = (Return tok, db'))
    by (vm_compute; eauto).
  destruct Hex as (tok & db' & Hrun).
  destruct (register_stores_requested_user no_env _ _ _ _ _ _ Hrun)
    as (r & Hr & Husers & Hnext & _).
  vm_compute in Hr. injection Hr as <-.
  exists tok, db'. eexists. split; [exact Hrun|]. split; [exact Husers|].
  repeat split. exact Hnext.
Defined.

Lemma register_unknown_role_witness :
  register no_env chipo_superuser "salt" 0 db0 = (Uncaught "ValidationError", db0).
Proof.
  apply (proj2 (register_unknown_role no_env chipo_superuser "salt" 0 db0 eq_refl));
    try reflexivity.
  intros u [<-|[<-|[<-|[]]]]; repeat split; discriminate.
Defined.

Lemma register_duplicate_rejected_witness :
  exists detail,
    register no_env chipo_taken_id "salt" 0 db0 = (HTTPException 400 detail, db0).
Proof.
  apply (register_duplicate_rejected no_env chipo_taken_id "salt" 0 db0 owner).
  - left. reflexivity.
  - right. right. reflexivity.
Defined.

Lemma register_both_contacts_fresh_witness :
  (exists tok db' u,
     register no_env chipo_both "salt" 0 db0 = (Return tok, db')
     /\ user db' = (user db0 ++ [mkStored 10%N u None])%list
     /\ dict_get (Jwt.claims (Token.access_token tok)) "sub"
        = Some (VStr (Bson.str 10%N)))
  /\ (exists db' u,
        register empty_secret chipo_both "salt" 0 db0
        = (Uncaught "InvalidKeyError", db')
        /\ user db' = (user db0 ++ [mkStored 10%N u None])%list).
Proof.
  assert (Hfresh : forall u, In u (user db0) ->
            User.email (fields u) <> RegisterRequest.email chipo_both
            /\ User.phone (fields u) <> RegisterRequest.phone chipo_both
            /\ User.national_id (fields u) <> RegisterRequest.national_id chipo_both).
  { intros u [<-|[<-|[<-|[]]]]; repeat split; discriminate. }
  split.
  - apply (register_both_contacts_fresh no_env chipo_both "salt" 0 db0 User.Tenant
             eq_refl eq_refl eq_refl Hfresh). reflexivity.
  - apply (register_both_contacts_fresh empty_secret chipo_both "salt" 0 db0
             User.Tenant eq_refl eq_refl eq_refl Hfresh). reflexivity.
Defined.

Lemma login_after_register_witness :
  exists tok db' tok',
    register no_env chipo_both "salt" 0 db0 = (Return tok, db')
    /\ login no_env "chipo@example.com" "chipo-pw" 7 db' = (Return tok', db')
    /\ dict_get (Jwt.claims (Token.access_token tok')) "sub"
       = Some (VStr (Bson.str 10%N)).
Proof.
  assert (Hex : exists tok db',
            register no_env chipo_both "salt" 0 db0 = (Return tok, db'))
    by (vm_compute; eauto).
  destruct Hex as (tok & db' & Hrun).
  destruct (login_after_register no_env chipo_both "salt" "chipo@example.com"
              0 7 db0 db' tok Hrun) as (tok' & Hlogin & Hsub).
  - reflexivity.
  - left. reflexivity.
  - intros u [<-|[<-|[<-|[]]]]; reflexivity.
  - exists tok, db', tok'. repeat split; assumption.
Defined.

Lemma update_availability_effect_witness :
  update_availability (Bson.str 4%N) false tenant 9 db0
  = (HTTPException 403 "Not allowed", db0)
  /\ exists db' l',
       update_availability (Bson.str 4%N) false owner 9 db0 = (Return true, db')
       /\ get listing_c 4%N db' = Some l'
       /\ Listing.is_available (fields l') = false
       /\ Listing.price (fields l') = decimal 15000 2
       /\ get listing_c 8%N db' = get listing_c 8%N db0.
Proof.
  destruct (update_availability_effect (Bson.str 4%N) false tenant 9 db0 4%N
              (room_at 4%N (decimal 15000 2)) eq_refl eq_refl) as [Hdenied _].
  destruct (update_availability_effect (Bson.str 4%N) false owner 9 db0 4%N
              (room_at 4%N (decimal 15000 2)) eq_refl eq_refl) as [_ Hallowed].
  split.
  - apply Hdenied; discriminate.
  - destruct Hallowed as (db' & l' & Hrun & Hget & Hav & _ & _ & Hprice & _ & Hother & _).
    { left. reflexivity. }
    exists db', l'. repeat split; try assumption.
    apply Hother. discriminate.
Defined.

Lemma apply_creates_pending_application_witness :
  exists app_id db',
    apply (apply_to 8%N) tenant db0 = (Return app_id, db')
    /\ app_id = Bson.str 10%N
    /\ List.length (application db') = 2%nat
    /\ status_of 10%N db' = Some Application.Pending.
Proof.
  destruct (apply_creates_pending_application (apply_to 8%N) tenant db0)
    as [[_ Hsucceeds] Heffect].
  destruct Hsucceeds as (app_id & db' & Hrun).
  { split; [left; reflexivity|]. exists 8%N. eexists. split; reflexivity. }
  destruct (Heffect _ _ Hrun) as (-> & Happs & _).
  exists (Bson.str (next_id db0)), db'. split; [exact Hrun|]. split; [reflexivity|].
  unfold status_of, get. cbn [docs application_c]. rewrite Happs.
  split; reflexivity.
Defined.

Lemma apply_then_decide_witness :
  exists app_id db' db'',
    apply (apply_to 8%N) tenant db0 = (Return app_id, db')
    /\ approve_application app_id true owner 30 db' = (Return true, db'')
    /\ status_of 10%N db'' = Some Application.Approved.
Proof.
  assert (Hex : exists app_id db',
            apply (apply_to 8%N) tenant db0 = (Return app_id, db'))
    by (vm_compute; eauto).
  destruct Hex as (app_id & db' & Hrun).
  destruct (apply_then_decide (apply_to 8%N) tenant owner true 30 db0 db' app_id
              8%N (room_at 8%N (decimal 8999 2)) db0_fresh_applications Hrun
              eq_refl eq_refl (or_introl eq_refl)) as (db'' & Hdecide & Hstatus).
  exists app_id, db', db''. repeat split; assumption.
Defined.

Lemma create_listing_stores_validated_request_witness :
  exists listing_id db' l,
    create_listing cottage_by_strings owner db0 = (Return listing_id, db')
    /\ listing db' = (listing db0 ++ [mkStored 10%N l None])%list
    /\ Listing.price l = decimal 32000 2
    /\ fle (of_Z 0) (Listing.price l) = true
    /\ Listing.PropertyType_str (Listing.property_type l) = "house"
    /\ Location.lat (Listing.location l) = decimal (-178) 1
    /\ Location.lng (Listing.location l) = decimal 31 0.
Proof.
  assert (Hex : exists listing_id db',
            create_listing cottage_by_strings owner db0 = (Return listing_id, db'))
    by (vm_compute; eauto).
  destruct Hex as (listing_id & db' & Hrun).
  destruct (create_listing_stores_validated_request _ _ _ _ _ Hrun)
    as (_ & l & Hl & _ & Hp & Hge & _ & Hty & Hloc & _).
  exists listing_id, db', l.
  assert (Hread : Location.validate (ListingCreate.location cottage_by_strings)
                  = Some {| Location.lat := decimal (-178) 1;
                            Location.lng := decimal 31 0;
                            Location.address := None |})
    by (vm_compute; reflexivity).
  rewrite Hread in Hloc. injection Hloc as Hloc. rewrite <- Hloc.
  repeat split; assumption.
Defined.

Lemma created_listing_is_found_witness :
  exists listing_id db' items item,
    create_listing cottage owner db0 = (Return listing_id, db')
    /\ search_listings None None None None (Some true) db' = (Return items, db')
    /\ In item items
    /\ dict_get item "_id" = Some (VStr listing_id)
    /\ dict_get item "title" = Some (VStr "Cottage").
Proof.
  assert (Hex : exists listing_id db',
            create_listing cottage owner db0 = (Return listing_id, db'))
    by (vm_compute; eauto).
  destruct Hex as (listing_id & db' & Hrun).
  destruct (created_listing_is_found _ _ _ _ _ Hrun)
    as (items & item & Hsearch & Hin & Hid & Htitle & _).
  { cbn. lia. }
  exists listing_id, db', items, item. repeat split; assumption.
Defined.

Lemma search_listings_exact_filters_witness :
  exists items,
    search_listings None (Some "lodge_room") None None (Some false) db1
    = (Return items, db1)
    /\ List.length items = 1%nat
    /\ forall item, In item items ->
         dict_get item "is_available" = Some (VBool false)
         /\ dict_get item "property_type" = Some (VStr "lodge_room").
Proof.
  eexists. split; [reflexivity|]. split; [reflexivity|].
  intros item Hin.
  destruct (search_listings_exact_filters None (Some "lodge_room") None None
              (Some false) db1 db1 _ eq_refl item Hin) as (Hav & Hty & _).
  split; [apply Hav; reflexivity|apply Hty; [reflexivity|discriminate]].
Defined.

Lemma init_payment_receipt_witness :
  exists resp db' r,
    init_payment no_env (pay_for 8%N) tenant db0 = (Return resp, db')
    /\ receipt db' = [mkStored 11%N r None]
    /\ Receipt.payment_id r = Bson.str 10%N
    /\ Receipt.total r = decimal 8999 2
    /\ Receipt.payee_phone r = Some "+263 778 864 239"
    /\ Receipt.reference r = "TAK-000000".
Proof.
  assert (Hex : exists resp db',
            init_payment no_env (pay_for 8%N) tenant db0 = (Return resp, db'))
    by (vm_compute; eauto).
  destruct Hex as (resp & db' & Hrun).
  destruct (init_payment_receipt no_env _ _ _ _ _ Hrun)
    as (_ & Hpid & _ & (l & r & Hl & Ho & Hrec & Hrp & Htotal & _ & _ & Hphone & Href) & _).
  assert (Hprice : Listing.price (fields l) = decimal 8999 2).
  { simpl in Hl. destruct Hl as [<-|[<-|[<-|[<-|[<-|[]]]]]];
      vm_compute in Ho; try discriminate Ho. reflexivity. }
  exists resp, db', r. rewrite Hpid in Hrp, Href. rewrite Hprice in Htotal.
  repeat split; assumption.
Defined.

Lemma init_payment_payment_linked_witness :
  exists resp db' p,
    init_payment no_env (pay_for 8%N) tenant db0 = (Return resp, db')
    /\ payment db' = [mkStored 10%N p None]
    /\ Payment.tenant_id p = Bson.str 2%N
    /\ Payment.status p = Payment.Successful
    /\ Payment.receipt_id p = Some (PaymentResponse.receipt_id resp).
Proof.
  assert (Hex : exists resp db',
            init_payment no_env (pay_for 8%N) tenant db0 = (Return resp, db'))
    by (vm_compute; eauto).
  destruct Hex as (resp & db' & Hrun).
  destruct (init_payment_payment_linked no_env _ _ _ _ _ db0_fresh_payments Hrun)
    as (l & p & _ & _ & Hpay & _ & Hten & _ & _ & _ & Hst & Hlink).
  exists resp, db', p. repeat split; assumption.
Defined.

Lemma approve_user_effect_witness :
  (exists db' u',
     approve_user (Bson.str 2%N) true root_admin 40 db0 = (Return true, db')
     /\ get user_c 2%N db' = Some u'
     /\ User.is_approved (fields u') = true
     /\ User.id_verified (fields u') = false)
  /\ approve_user (Bson.str 99%N) true root_admin 40 db0 = (Return true, db0).
Proof.
  split.
  - destruct (approve_user_effect (Bson.str 2%N) true root_admin 40 db0 2%N
                eq_refl eq_refl) as (db' & Hrun & _ & Hfound & _).
    destruct (Hfound tenant eq_refl) as (u' & Hget & Happ & _ & Hver & _).
    exists db', u'. repeat split; assumption.
  - destruct (approve_user_effect (Bson.str 99%N) true root_admin 40 db0 99%N
                eq_refl eq_refl) as (db' & Hrun & Hmissing & _).
    rewrite Hrun. f_equal. apply Hmissing. reflexivity.
Defined.

Lemma verify_id_effect_witness :
  exists db' u',
    verify_id (Bson.str 2%N) true root_admin 40 db0 = (Return true, db')
    /\ get user_c 2%N db' = Some u'
    /\ User.id_verified (fields u') = true
    /\ User.is_approved (fields u') = false.
Proof.
  destruct (verify_id_effect (Bson.str 2%N) true root_admin 40 db0 2%N
              eq_refl eq_refl) as (db' & Hrun & _ & Hfound & _).
  destruct (Hfound tenant eq_refl) as (u' & Hget & Hver & _ & Happ & _).
  exists db', u'. repeat split; assumption.
Defined.

Lemma list_users_items_witness :
  exists items,
    list_users root_admin db0 = (Return items, db0)
    /\ List.length items = 3%nat
    /\ exists item, nth_error items 0 = Some item
                    /\ dict_get item "password_hash" = Some (VStr "rudo-pw").
Proof.
  destruct (list_users_items root_admin db0 eq_refl) as (items & Hrun & Hall).
  exists items. split; [exact Hrun|].
  cbn [firstn user db0] in Hall.
  inversion Hall as [|u item us rest (_ & _ & _ & Hhash) Hrest]; subst.
  inversion Hrest as [|? ? ? ? _ Hrest2]; subst.
  inversion Hrest2 as [|? ? ? ? _ Hrest3]; subst.
  inversion Hrest3; subst.
  split; [reflexivity|]. exists item. split; [reflexivity|exact Hhash].
Defined.

Lemma malformed_identifier_uncaught_witness :
  update_availability "room-4" false owner 9 db0 = (Uncaught "InvalidId", db0)
  /\ approve_application "room-4" true owner 9 db0 = (Uncaught "InvalidId", db0)
  /\ approve_user "room-4" true root_admin 9 db0 = (Uncaught "InvalidId", db0)
  /\ init_payment no_env
       {| PaymentInit.listing_id := "0000000000000000000000zz";
          PaymentInit.method := "ecocash" |}
       tenant db0
     = (Uncaught "InvalidId", db0)
  /\ update_availability "0000 0000 0000 0000 0004" false owner 9 db0
     = (HTTPException 404 "Listing not found", db0).
Proof.
  destruct (malformed_identifier_uncaught no_env "room-4" owner db0)
    as [Howner _].
  destruct (Howner eq_refl) as (Hupdate & Hdecide & _).
  destruct (malformed_identifier_uncaught no_env "room-4" root_admin db0)
    as [Hroot _].
  destruct (Hroot eq_refl) as (_ & _ & Hadmin & _).
  destruct (malformed_identifier_uncaught no_env "0000000000000000000000zz"
              tenant db0) as [Htenant _].
  destruct (Htenant eq_refl) as (_ & _ & _ & Hpay).
  destruct (malformed_identifier_uncaught no_env "0000 0000 0000 0000 0004"
              owner db0) as [_ Hshort].
  split; [apply Hupdate|]. split; [apply Hdecide|].
  split; [apply (Hadmin eq_refl)|].
  split; [apply (proj2 (Hpay (or_introl eq_refl))); reflexivity|].
  apply (Hshort [0; 0; 0; 0; 0; 0; 0; 0; 0; 4]%N); try reflexivity.
  - cbn. lia.
  - repeat constructor.
Defined.

Lemma my_applications_own_witness :
  exists items item,
    my_applications second_tenant db1 = (Return items, db1)
    /\ In item items
    /\ dict_get item "_id" = Some (VStr (Bson.str 14%N))
    /\ dict_get item "status" = Some (VStr "pending")
    /\ forall other, In other items ->
         dict_get other "tenant_id" = Some (VStr (Bson.str 11%N)).
Proof.
  destruct (my_applications_own second_tenant db1) as (items & Hrun & Hsound & Hall).
  destruct (Hall ltac:(cbn; lia) request_2) as (item & Hin & Hid & _ & Hstatus).
  { right. left. reflexivity. }
  { reflexivity. }
  exists items, item. repeat split; try assumption.
  intros other Hother. apply (Hsound other Hother).
Defined.

Lemma payment_lists_own_witness :
  (exists items item,
     my_payments tenant db1 = (Return items, db1)
     /\ In item items
     /\ dict_get item "_id" = Some (VStr (Bson.str 15%N)))
  /\ (exists items item,
        payments_for_me second_owner db1 = (Return items, db1)
        /\ In item items
        /\ dict_get item "_id" = Some (VStr (Bson.str 16%N))
        /\ dict_get item "owner_amount" = Some (VNum (decimal 4275 2))).
Proof.
  destruct (payment_lists_own tenant db1) as [(items & Hrun & _ & Hall) _].
  destruct (payment_lists_own second_owner db1) as [_ (items' & Hrun' & _ & Hall')].
  split.
  - destruct (Hall ltac:(cbn; lia) (paid 15%N 4%N 2%N 1%N)) as (item & Hin & Hid & _).
    { left. reflexivity. }
    { reflexivity. }
    exists items, item. repeat split; assumption.
  - destruct (Hall' ltac:(cbn; lia) (paid 16%N 13%N 11%N 12%N))
      as (item & Hin & Hid & _ & _ & Hown).
    { right. left. reflexivity. }
    { reflexivity. }
    exists items', item. repeat split; assumption.
Defined.

Lemma applications_for_me_owned_witness :
  exists items item,
    applications_for_me second_owner db1 = (Return items, db1)
    /\ In item items
    /\ dict_get item "_id" = Some (VStr (Bson.str 14%N))
    /\ dict_get item "tenant_id" = Some (VStr (Bson.str 11%N))
    /\ forall other, In other items ->
         exists l, In l (listing db1)
                   /\ Listing.owner_id (fields l) = Bson.str 12%N
                   /\ dict_get other "listing_id" = Some (VStr (Bson.str (_id l))).
Proof.
  destruct (applications_for_me_owned second_owner db1)
    as (items & Hrun & Hsound & Hall).
  destruct (Hall ltac:(cbn; lia) ltac:(cbn; lia) request_2 lodge_room)
    as (item & Hin & Hid & Hten).
  { right. left. reflexivity. }
  { right. left. reflexivity. }
  { reflexivity. }
  { reflexivity. }
  exists items, item. repeat split; try assumption.
  intros other Hother.
  destruct (Hsound other Hother) as (a & l & _ & Hl & _ & Hown & _ & Hitem).
  exists l. repeat split; assumption.
Defined.

(** An application made with the listing's identifier in upper case is
    stored for that listing and is missing from its owner's list. *)
Lemma applications_for_me_misses_upper_case :
  exists app_id db' items,
    ObjectId "00000000000000000000000D" = Some 13%N
    /\ apply {| ApplicationCreate.listing_id := "00000000000000000000000D";
                ApplicationCreate.message := None;
                ApplicationCreate.national_id := "63-7654321B02" |} tenant db1
       = (Return app_id, db')
    /\ List.length (application db') = 3%nat
    /\ applications_for_me second_owner db' = (Return items, db')
    /\ List.length items = 1%nat.
Proof.
  eexists _, _, _. split; [reflexivity|].
  split; [vm_compute; reflexivity|]. split; [reflexivity|].
  split; [vm_compute; reflexivity|reflexivity].
Qed.

Lemma failures_write_nothing_witness :
  snd (register no_env chipo_taken_id "salt" 0 db0) = db0
  /\ snd (init_payment no_env (pay_with 8%N "cash") tenant db0) = db0
  /\ snd (approve_application (Bson.str 5%N) true tenant 3 db0) = db0
  /\ (exists u,
        register empty_secret chipo_both "salt" 0 db0
        = (Uncaught "InvalidKeyError",
           bump (put user_c (user db0 ++ [mkStored 10%N u None])%list db0))).
Proof.
  split; [|split; [|split]].
  - destruct (register no_env chipo_taken_id "salt" 0 db0) as [out db'] eqn:Hrun.
    destruct (proj1 (failures_write_nothing no_env db0 db') _ _ _ _ Hrun)
      as [Hsame|(Hkey & _)].
    + vm_compute in Hrun. injection Hrun as <- _. discriminate.
    + exact Hsame.
    + discriminate Hkey.
  - destruct (init_payment no_env (pay_with 8%N "cash") tenant db0)
      as [out db'] eqn:Hrun.
    apply (proj1 (proj2 (proj2 (proj2 (proj2 (proj2
             (failures_write_nothing no_env db0 db')))))) _ _ _ Hrun).
    vm_compute in Hrun. injection Hrun as <- _. discriminate.
  - destruct (approve_application (Bson.str 5%N) true tenant 3 db0)
      as [out db'] eqn:Hrun.
    apply (proj1 (proj2 (proj2 (proj2 (proj2
             (failures_write_nothing no_env db0 db'))))) _ _ _ _ _ Hrun).
    vm_compute in Hrun. injection Hrun as <- _. discriminate.
  - destruct (register empty_secret chipo_both "salt" 0 db0) as [out db'] eqn:Hrun.
    destruct (proj1 (failures_write_nothing empty_secret db0 db') _ _ _ _ Hrun)
      as [Hsame|(_ & -> & u & ->)].
    + vm_compute in Hrun. injection Hrun as <- _. discriminate.
    + vm_compute in Hrun. injection Hrun as _ Hdb. subst db'. discriminate Hsame.
    + exists u. reflexivity.
Defined.

Lemma create_listing_refusals_witness :
  create_listing cottage tenant db0
  = (HTTPException 403 "Only owners can create listings", db0)
  /\ create_listing cottage_below_zero owner db0 = (Uncaught "ValidationError", db0)
  /\ create_listing cottage_nowhere owner db0 = (Uncaught "ValidationError", db0).
Proof.
  split; [|split].
  - apply (proj1 (create_listing_refusals cottage tenant db0)). reflexivity.
  - apply (proj2 (create_listing_refusals cottage_below_zero owner db0)).
    + discriminate.
    + left. reflexivity.
  - apply (proj2 (create_listing_refusals cottage_nowhere owner db0)).
    + discriminate.
    + right. right. right. reflexivity.
Defined.

Lemma init_payment_succeeds_iff_witness :
  (exists resp db', init_payment no_env (pay_for 4%N) root_admin db0 = (Return resp, db'))
  /\ init_payment no_env (pay_with 4%N "cash") tenant db0
     = (Uncaught "ValidationError", db0).
Proof.
  split.
  - apply (proj1 (init_payment_succeeds_iff no_env (pay_for 4%N) root_admin db0)).
    split; [right; reflexivity|]. split; [left; reflexivity|].
    exists 4%N. eexists. repeat split.
  - apply (proj2 (init_payment_succeeds_iff no_env (pay_with 4%N "cash") tenant db0)
             4%N (room_at 4%N (decimal 15000 2))); try reflexivity.
    left. reflexivity.
Defined.

End CoverageExamples.
